(** * Xcode project-descriptor scripts: a shallow embedding

    The repository is a collection of Python scripts that edit
    [DualCameraApp.xcodeproj/project.pbxproj] by text surgery.  This file
    embeds the scripts as Rocq functions over strings and a small world
    (files, directory listing, entropy, standard output) and settles the
    properties the specification states about them.

    Characters are the 8-bit [ascii] type; the embedding covers ASCII
    descriptors.  Each definition names the source lines it follows. *)

From Stdlib Require Import String Ascii List ZArith Lia Bool Arith.
From stdpp Require Import gmap strings.
Import ListNotations.
Open Scope string_scope.

(* stdpp freezes [String.append] under [simpl]; the proofs below compute
   with it. *)
#[global] Arguments String.append !s1 s2 : simpl nomatch.

(** ** Python string operations *)

Module Py.

Definition chr (n : nat) : string := String (ascii_of_nat n) EmptyString.
Definition nl : string := chr 10.
Definition tab : string := chr 9.
Definition dq : string := chr 34.

(** The code of a character, and membership in a range of codes. *)
Definition code (c : ascii) : N := N_of_ascii c.

Definition between (lo hi : N) (c : ascii) : bool :=
  N.leb lo (code c) && N.leb (code c) hi.

Definition is_nl (c : ascii) : bool := N.eqb (code c) 10.

(** [str.isspace] on the ASCII range: TAB LF VT FF CR, FS GS RS US, SPACE. *)
Definition is_space (c : ascii) : bool := between 9 13 c || between 28 32 c.

Definition is_digit (c : ascii) : bool := between 48 57 c.

Definition is_upper (c : ascii) : bool := between 65 90 c.

Definition is_lower (c : ascii) : bool := between 97 122 c.

(** [s1 + s2] *)
Notation "s1 +++ s2" := (String.append s1 s2)
  (at level 60, right associativity).

(** [''.join(l)] *)
Fixpoint cat (l : list string) : string :=
  match l with
  | [] => EmptyString
  | s :: l' => s +++ cat l'
  end.

(** [sep.join(l)] *)
Fixpoint join (sep : string) (l : list string) : string :=
  match l with
  | [] => EmptyString
  | [s] => s
  | s :: l' => s +++ sep +++ join sep l'
  end.

(** [s[n:]] and [s[:n]] for [0 <= n] *)
Fixpoint drop (n : nat) (s : string) : string :=
  match n, s with
  | O, _ => s
  | S _, EmptyString => EmptyString
  | S k, String _ s' => drop k s'
  end.

Fixpoint take (n : nat) (s : string) : string :=
  match n, s with
  | O, _ => EmptyString
  | S _, EmptyString => EmptyString
  | S k, String c s' => String c (take k s')
  end.

(** [s.startswith(p)] *)
Definition startswith (s p : string) : bool := String.prefix p s.

(** [p in s] *)
Fixpoint contains (s p : string) : bool :=
  String.prefix p s ||
  match s with
  | EmptyString => false
  | String _ s' => contains s' p
  end.

(** [s.endswith(p)] *)
Definition endswith (s p : string) : bool :=
  String.eqb (drop (String.length s - String.length p) s) p
  && Nat.leb (String.length p) (String.length s).

(** [s.split('\n')]: never empty, one more item than there are newlines. *)
Fixpoint split_nl (s : string) : list string :=
  match s with
  | EmptyString => [EmptyString]
  | String c s' =>
      if is_nl c then EmptyString :: split_nl s'
      else match split_nl s' with
           | h :: t => String c h :: t
           | [] => [String c EmptyString]
           end
  end.

(** [s.lstrip()], [s.rstrip()], [s.strip()] *)
Fixpoint lstrip (s : string) : string :=
  match s with
  | EmptyString => EmptyString
  | String c s' => if is_space c then lstrip s' else s
  end.

Fixpoint rstrip (s : string) : string :=
  match s with
  | EmptyString => EmptyString
  | String c s' =>
      match rstrip s' with
      | EmptyString => if is_space c then EmptyString else String c EmptyString
      | r => String c r
      end
  end.

Definition strip (s : string) : string := rstrip (lstrip s).

(** Truthiness of a string: non-empty. *)
Definition nonempty (s : string) : bool :=
  match s with EmptyString => false | String _ _ => true end.

(** [s.upper()] on ASCII *)
Definition upper_char (c : ascii) : ascii :=
  if is_lower c then ascii_of_N (code c - 32) else c.

Fixpoint upper (s : string) : string :=
  match s with
  | EmptyString => EmptyString
  | String c s' => String (upper_char c) (upper s')
  end.

(** [s.replace(old, new)]: every non-overlapping occurrence, left to right.
    [skip] counts the characters of a matched occurrence still to drop. *)
Fixpoint replace_go (old new s : string) (skip : nat) : string :=
  match s with
  | EmptyString => EmptyString
  | String c s' =>
      match skip with
      | S k => replace_go old new s' k
      | O =>
          if String.prefix old s
          then new +++ replace_go old new s' (String.length old - 1)
          else String c (replace_go old new s' 0)
      end
  end.

Fixpoint interleave (new s : string) : string :=
  match s with
  | EmptyString => new
  | String c s' => new +++ String c (interleave new s')
  end.

Definition replace (s old new : string) : string :=
  match old with
  | EmptyString => interleave new s
  | String _ _ => replace_go old new s 0
  end.

(** Every character of [s] satisfies [p]. *)
Fixpoint all_chars (p : ascii -> bool) (s : string) : bool :=
  match s with
  | EmptyString => true
  | String c s' => p c && all_chars p s'
  end.

(** [s] is blank: [s.strip() == ''] *)
Definition blank (s : string) : bool := all_chars is_space s.

(** [s] is within one line: ['\n' not in s] *)
Definition one_line (s : string) : bool := all_chars (fun c => negb (is_nl c)) s.

(** [x in l] for a list of strings *)
Definition mem (x : string) (l : list string) : bool :=
  existsb (String.eqb x) l.

(** [os.path.basename(p)]: what follows the last slash. *)
Fixpoint basename (p : string) : string :=
  match p with
  | EmptyString => EmptyString
  | String c p' =>
      if contains p' "/" then basename p'
      else if Ascii.eqb c "/" then p' else p
  end.

(** [lst.insert(i, x)] for [0 <= i]: beyond the end it appends. *)
Fixpoint list_insert {A} (i : nat) (x : A) (l : list A) : list A :=
  match i, l with
  | O, _ => x :: l
  | S _, [] => [x]
  | S k, y :: l' => y :: list_insert k x l'
  end.

(** [str(n)] for a natural number *)
Definition digit_string (n : nat) : string :=
  String (ascii_of_nat (48 + n)) EmptyString.

Fixpoint nat_to_string_go (fuel n : nat) (acc : string) : string :=
  match fuel with
  | O => acc
  | S f =>
      let acc' := digit_string (n mod 10) +++ acc in
      if Nat.ltb n 10 then acc' else nat_to_string_go f (n / 10) acc'
  end.

Definition str_of_nat (n : nat) : string := nat_to_string_go (S n) n EmptyString.

End Py.
Import Py.

(** ** The fragment of Python's [re] the scripts use

    Literals, a character class under a quantifier (greedy or lazy),
    concatenation and capturing groups.  The matcher is a backtracking
    matcher in continuation-passing style: it explores alternatives in the
    order Python's engine does, so the first success is Python's match.
    The two alternatives of a quantifier (one more character, or stop) are
    thunks, so the second is only run when the first fails. *)

Module Re.

Inductive regex : Type :=
| Lit (s : string)
| Rep (cls : ascii -> bool) (lo : nat) (hi : option nat) (greedy : bool)
| Cat (r1 r2 : regex)
| Grp (i : nat) (r : regex).

Fixpoint seq (l : list regex) : regex :=
  match l with
  | [] => Lit EmptyString
  | [r] => r
  | r :: l' => Cat r (seq l')
  end.

(** Character classes *)
Definition any_dotall (_ : ascii) : bool := true.            (* . with DOTALL *)
Definition any_line (c : ascii) : bool := negb (is_nl c).    (* . *)
Definition space (c : ascii) : bool := is_space c.           (* \s *)
Definition word (c : ascii) : bool :=                        (* \w *)
  is_digit c || is_upper c || is_lower c || Ascii.eqb c "_".
Definition hexAF (c : ascii) : bool :=                       (* [A-F0-9] *)
  is_digit c || between 65 70 c.
Definition other_than (x : ascii) (c : ascii) : bool :=      (* [^x] *)
  negb (Ascii.eqb c x).

(** Quantifiers *)
Definition star (c : ascii -> bool) : regex := Rep c 0 None true.       (* c*  *)
Definition plus (c : ascii -> bool) : regex := Rep c 1 None true.       (* c+  *)
Definition lazy_star (c : ascii -> bool) : regex := Rep c 0 None false. (* c*? *)
Definition exactly (n : nat) (c : ascii -> bool) : regex :=             (* c{n} *)
  Rep c n (Some n) true.

Definition caps : Type := list (nat * string).

Fixpoint group_of (cs : caps) (i : nat) : string :=
  match cs with
  | [] => EmptyString
  | (j, s) :: cs' => if Nat.eqb i j then s else group_of cs' i
  end.

(** While a match is being tried a group is the pair of the positions
    where it starts and ends; its text is cut out once the match is found.
    Positions are binary numbers. *)
Definition spans : Type := list (nat * (N * N)).

Section Matcher.
Context {R : Type}.

Definition cont : Type := N -> string -> spans -> option R.

Fixpoint rep (c : ascii -> bool) (lo : nat) (hi : option nat)
    (greedy : bool) (pos : N) (s : string) (cs : spans) (k : cont)
    : option R :=
  let stop (_ : unit) := match lo with O => k pos s cs | S _ => None end in
  let more (_ : unit) :=
    match s with
    | EmptyString => None
    | String a s' =>
        if c a then
          match hi with
          | None => rep c (Nat.pred lo) None greedy (N.succ pos) s' cs k
          | Some (S h) => rep c (Nat.pred lo) (Some h) greedy (N.succ pos) s' cs k
          | Some O => None
          end
        else None
    end in
  if greedy
  then match more tt with Some x => Some x | None => stop tt end
  else match stop tt with Some x => Some x | None => more tt end.

Fixpoint rmatch (r : regex) (pos : N) (s : string) (cs : spans) (k : cont)
    : option R :=
  match r with
  | Lit l =>
      if String.prefix l s
      then k (pos + N.of_nat (String.length l))%N (drop (String.length l) s) cs
      else None
  | Rep c lo hi g => rep c lo hi g pos s cs k
  | Cat a b => rmatch a pos s cs (fun p' s' cs' => rmatch b p' s' cs' k)
  | Grp i a =>
      rmatch a pos s cs (fun p' s' cs' => k p' s' ((i, (pos, p')) :: cs'))
  end.
End Matcher.

(** A match object: [m.start()], [m.end()], [m.group(i)]. *)
Record mobj : Type := { m_start : nat; m_end : nat; m_caps : caps }.

Definition group (m : mobj) (i : nat) : string := group_of (m_caps m) i.

(** The text between two positions, [s] being the text from [pos] on. *)
Definition cut (pos : N) (s : string) (span : N * N) : string :=
  let '(b, e) := span in take (N.to_nat (e - b)) (drop (N.to_nat (b - pos)) s).

(** A match anchored at the current position ([re.match]). *)
Definition match_here (r : regex) (pos : N) (s : string) : option mobj :=
  rmatch r pos s []
    (fun e _ cs =>
       Some {| m_start := N.to_nat pos; m_end := N.to_nat e;
               m_caps := (0, cut pos s (pos, e))
                           :: map (fun '(i, span) => (i, cut pos s span)) cs |}).

(** [re.search]: the leftmost position with a match. *)
Fixpoint search_from (r : regex) (pos : N) (s : string) : option mobj :=
  match match_here r pos s with
  | Some m => Some m
  | None =>
      match s with
      | EmptyString => None
      | String _ s' => search_from r (N.succ pos) s'
      end
  end.

Definition search (r : regex) (s : string) : option mobj := search_from r 0 s.

(** All non-overlapping matches, left to right ([re.finditer]).  A match
    of length [n > 0] makes the scan skip its remaining [n - 1] characters;
    an empty match leaves the scan at the next character. *)
Fixpoint finditer_go (r : regex) (pos : N) (s : string) (skip : nat)
    : list mobj :=
  match s with
  | EmptyString =>
      match skip, match_here r pos s with
      | O, Some m => [m]
      | _, _ => []
      end
  | String _ s' =>
      match skip with
      | S k => finditer_go r (N.succ pos) s' k
      | O =>
          match match_here r pos s with
          | Some m => m :: finditer_go r (N.succ pos) s' (m_end m - m_start m - 1)
          | None => finditer_go r (N.succ pos) s' 0
          end
      end
  end.

Definition finditer (r : regex) (s : string) : list mobj := finditer_go r 0 s 0.

(** [re.sub(r, f, s, count=n)] with a function [f] of the match;
    [count = None] is Python's default (replace all). *)
Fixpoint sub_go (r : regex) (f : mobj -> string) (pos : N) (s : string)
    (skip : nat) (count : option nat) : string :=
  match s with
  | EmptyString =>
      match skip, count, match_here r pos s with
      | O, Some O, _ => EmptyString
      | O, _, Some m => f m
      | _, _, _ => EmptyString
      end
  | String c s' =>
      match skip with
      | S k => sub_go r f (N.succ pos) s' k count
      | O =>
          match count with
          | Some O => s
          | _ =>
              match match_here r pos s with
              | Some m =>
                  if Nat.eqb (m_end m) (m_start m)
                  then f m +++ String c (sub_go r f (N.succ pos) s' 0
                                           (option_map Nat.pred count))
                  else f m +++ sub_go r f (N.succ pos) s' (m_end m - m_start m - 1)
                                 (option_map Nat.pred count)
              | None => String c (sub_go r f (N.succ pos) s' 0 count)
              end
          end
      end
  end.

Definition sub (r : regex) (f : mobj -> string) (s : string)
    (count : option nat) : string := sub_go r f 0 s 0 count.

(** A replacement template, as [re.sub] reads a replacement string:
    backslash followed by a digit 1-9 is a group reference, the usual
    control escapes are decoded, a backslash before another ASCII letter
    is [re.error] ([None]), before any other character it is kept.  Octal
    escapes, two-digit group numbers and [\g<..>] are outside this model
    and also give [None]. *)
Definition control_escape (c : ascii) : option string :=
  match code c with
  | 110 => Some nl | 116 => Some tab | 114 => Some (chr 13)
  | 97 => Some (chr 7) | 98 => Some (chr 8) | 102 => Some (chr 12)
  | 118 => Some (chr 11) | 92 => Some (chr 92)
  | _ => None
  end%N.

Fixpoint expand (tpl : string) (m : mobj) : option string :=
  match tpl with
  | EmptyString => Some EmptyString
  | String c rest =>
      if Ascii.eqb c "\" then
        match rest with
        | EmptyString => None
        | String e rest' =>
            if is_digit e then
              if N.eqb (code e) 48 then None
              else match rest' with
                   | String d _ =>
                       if is_digit d then None
                       else option_map (String.append (group m (N.to_nat (code e - 48))))
                                       (expand rest' m)
                   | EmptyString => Some (group m (N.to_nat (code e - 48)))
                   end
            else match control_escape e with
                 | Some x => option_map (String.append x) (expand rest' m)
                 | None =>
                     if is_upper e || is_lower e then None
                     else option_map (fun t => String c (String e t)) (expand rest' m)
                 end
        end
      else option_map (String c) (expand rest m)
  end.

(** [re.sub(r, template, s, count)]: the template is compiled once; a bad
    template raises even when nothing matches. *)
Definition sub_template (r : regex) (tpl : string) (s : string)
    (count : option nat) : option string :=
  match expand tpl {| m_start := 0; m_end := 0; m_caps := [] |} with
  | None => None
  | Some _ =>
      Some (sub r (fun m => match expand tpl m with Some t => t | None => EmptyString end)
              s count)
  end.

End Re.
Import Re.

(** ** [hashlib.md5(..).hexdigest()] (RFC 1321)

    32-bit words are [Z] reduced modulo [2^32]. *)

Module MD5.
Local Open Scope Z_scope.

Definition mask32 : Z := 0xffffffff.
Definition add32 (x y : Z) : Z := Z.land (x + y) mask32.
Definition not32 (x : Z) : Z := Z.lxor x mask32.
Definition rotl32 (x : Z) (n : Z) : Z :=
  Z.land (Z.lor (Z.shiftl x n) (Z.shiftr x (32 - n))) mask32.

Definition K : list Z :=
  [ 0xd76aa478; 0xe8c7b756; 0x242070db; 0xc1bdceee; 0xf57c0faf; 0x4787c62a;
    0xa8304613; 0xfd469501; 0x698098d8; 0x8b44f7af; 0xffff5bb1; 0x895cd7be;
    0x6b901122; 0xfd987193; 0xa679438e; 0x49b40821; 0xf61e2562; 0xc040b340;
    0x265e5a51; 0xe9b6c7aa; 0xd62f105d; 0x02441453; 0xd8a1e681; 0xe7d3fbc8;
    0x21e1cde6; 0xc33707d6; 0xf4d50d87; 0x455a14ed; 0xa9e3e905; 0xfcefa3f8;
    0x676f02d9; 0x8d2a4c8a; 0xfffa3942; 0x8771f681; 0x6d9d6122; 0xfde5380c;
    0xa4beea44; 0x4bdecfa9; 0xf6bb4b60; 0xbebfbc70; 0x289b7ec6; 0xeaa127fa;
    0xd4ef3085; 0x04881d05; 0xd9d4d039; 0xe6db99e5; 0x1fa27cf8; 0xc4ac5665;
    0xf4292244; 0x432aff97; 0xab9423a7; 0xfc93a039; 0x655b59c3; 0x8f0ccc92;
    0xffeff47d; 0x85845dd1; 0x6fa87e4f; 0xfe2ce6e0; 0xa3014314; 0x4e0811a1;
    0xf7537e82; 0xbd3af235; 0x2ad7d2bb; 0xeb86d391 ].

Definition shifts : list Z :=
  [ 7; 12; 17; 22; 7; 12; 17; 22; 7; 12; 17; 22; 7; 12; 17; 22;
    5; 9; 14; 20; 5; 9; 14; 20; 5; 9; 14; 20; 5; 9; 14; 20;
    4; 11; 16; 23; 4; 11; 16; 23; 4; 11; 16; 23; 4; 11; 16; 23;
    6; 10; 15; 21; 6; 10; 15; 21; 6; 10; 15; 21; 6; 10; 15; 21 ].

Definition bytes_of_string (s : string) : list Z :=
  map (fun c => Z.of_nat (nat_of_ascii c)) (list_ascii_of_string s).

(** Little-endian bytes of [x], [n] of them. *)
Fixpoint le_bytes (n : nat) (x : Z) : list Z :=
  match n with
  | O => []
  | S k => Z.land x 0xff :: le_bytes k (Z.shiftr x 8)
  end.

(** Padding: a 1 bit, zeros up to 56 modulo 64, the bit length on 64 bits. *)
Definition pad (msg : list Z) : list Z :=
  let len := Z.of_nat (List.length msg) in
  let zeros := Z.to_nat ((55 - len) mod 64) in
  msg ++ [0x80] ++ repeat 0 zeros ++ le_bytes 8 (8 * len).

Fixpoint words (n : nat) (bs : list Z) : list Z :=
  match n with
  | O => []
  | S k =>
      match bs with
      | b0 :: b1 :: b2 :: b3 :: bs' =>
          (b0 + Z.shiftl b1 8 + Z.shiftl b2 16 + Z.shiftl b3 24) :: words k bs'
      | _ => []
      end
  end.

Record state : Type := { sa : Z; sb : Z; sc : Z; sd : Z }.

Definition init : state :=
  {| sa := 0x67452301; sb := 0xefcdab89; sc := 0x98badcfe; sd := 0x10325476 |}.

Definition round (m : list Z) (st : state) (i : nat) : state :=
  let '{| sa := a; sb := b; sc := c; sd := d |} := st in
  let iz := Z.of_nat i in
  let '(f, g) :=
    if iz <? 16 then (Z.lor (Z.land b c) (Z.land (not32 b) d), iz)
    else if iz <? 32 then (Z.lor (Z.land d b) (Z.land (not32 d) c), (5 * iz + 1) mod 16)
    else if iz <? 48 then (Z.lxor (Z.lxor b c) d, (3 * iz + 5) mod 16)
    else (Z.lxor c (Z.lor b (not32 d)), (7 * iz) mod 16) in
  let f' := add32 (add32 (add32 f a) (nth i K 0)) (nth (Z.to_nat g) m 0) in
  {| sa := d; sb := add32 b (rotl32 f' (nth i shifts 0)); sc := b; sd := c |}.

Definition block (st : state) (m : list Z) : state :=
  let st' := fold_left (round m) (List.seq 0 64) st in
  {| sa := add32 (sa st) (sa st'); sb := add32 (sb st) (sb st');
     sc := add32 (sc st) (sc st'); sd := add32 (sd st) (sd st') |}.

Fixpoint blocks (n : nat) (st : state) (bs : list Z) : state :=
  match n with
  | O => st
  | S k => blocks k (block st (words 16 bs)) (skipn 64 bs)
  end.

Definition digest (s : string) : list Z :=
  let bs := pad (bytes_of_string s) in
  let st := blocks (List.length bs / 64) init bs in
  le_bytes 4 (sa st) ++ le_bytes 4 (sb st) ++ le_bytes 4 (sc st) ++ le_bytes 4 (sd st).

Definition hex_digit (x : Z) : string :=
  String.substring (Z.to_nat x) 1 "0123456789abcdef".

Definition hexdigest (s : string) : string :=
  cat (map (fun b => hex_digit (Z.shiftr b 4) +++ hex_digit (Z.land b 0xf)) (digest s)).

End MD5.

(** ** The world the scripts run in

    A script reads and writes files, lists a directory, draws random
    numbers, prints, and may stop early ([sys.exit]) or die on an uncaught
    exception.  [M A] is the state-and-outcome monad over that world. *)

Module IO.

Record World : Type := {
  files : gmap string string;     (* path of a regular file to its content *)
  glob : string -> list string;   (* [glob.glob(pattern, ...)], in OS order *)
  path_exists : string -> bool;   (* [os.path.exists] *)
  entropy : nat -> nat;           (* the random source, draw by draw *)
  cursor : nat;                   (* draws consumed so far *)
  stdout : list string            (* what was printed, oldest first *)
}.

Inductive outcome (A : Type) : Type :=
| Ret (a : A)               (* ran to completion *)
| Exit (code : nat)         (* [sys.exit(code)] *)
| Raise (exn : string).     (* uncaught exception *)
Arguments Ret {A} a.
Arguments Exit {A} code.
Arguments Raise {A} exn.

Definition M (A : Type) : Type := World -> outcome A * World.

Definition ret {A} (a : A) : M A := fun w => (Ret a, w).

Definition bind {A B} (m : M A) (k : A -> M B) : M B :=
  fun w =>
    match m w with
    | (Ret a, w') => k a w'
    | (Exit c, w') => (Exit c, w')
    | (Raise e, w') => (Raise e, w')
    end.

Notation "'let*' x ':=' m 'in' k" := (bind m (fun x => k))
  (at level 10, x pattern, m at level 100, k at level 200).
Notation "m ';;' k" := (bind m (fun _ => k))
  (at level 100, k at level 200, right associativity).

Definition sys_exit {A} (code : nat) : M A := fun w => (Exit code, w).
Definition raise {A} (exn : string) : M A := fun w => (Raise exn, w).

(** [with open(path, 'r') as f: f.read()] *)
Definition read_file (path : string) : M string :=
  fun w =>
    match files w !! path with
    | Some c => (Ret c, w)
    | None => (Raise "FileNotFoundError", w)
    end.

(** [with open(path, 'w') as f: f.write(content)] *)
Definition write_file (path content : string) : M unit :=
  fun w =>
    (Ret tt,
     {| files := <[path := content]> (files w); glob := glob w;
        path_exists := path_exists w; entropy := entropy w;
        cursor := cursor w; stdout := stdout w |}).

(** [print(line)] *)
Definition print (line : string) : M unit :=
  fun w =>
    (Ret tt,
     {| files := files w; glob := glob w; path_exists := path_exists w;
        entropy := entropy w; cursor := cursor w;
        stdout := stdout w ++ [line] |}).

Definition glob_glob (pattern : string) : M (list string) :=
  fun w => (Ret (glob w pattern), w).

Definition os_path_exists (path : string) : M bool :=
  fun w => (Ret (path_exists w path), w).

(** One draw from the random source. *)
Definition draw : M nat :=
  fun w =>
    (Ret (entropy w (cursor w)),
     {| files := files w; glob := glob w; path_exists := path_exists w;
        entropy := entropy w; cursor := S (cursor w); stdout := stdout w |}).

(** [random.choice(seq)] for a non-empty string [seq]. *)
Definition random_choice (seq : string) : M string :=
  let* n := draw in
  ret (String.substring (n mod String.length seq) 1 seq).

(** [for x in l: body x], threading the world. *)
Fixpoint for_each {A} (l : list A) (body : A -> M unit) : M unit :=
  match l with
  | [] => ret tt
  | x :: l' => body x ;; for_each l' body
  end.

(** [[f x for x in l]] when [f] has effects. *)
Fixpoint map_m {A B} (f : A -> M B) (l : list A) : M (list B) :=
  match l with
  | [] => ret []
  | x :: l' => let* y := f x in let* ys := map_m f l' in ret (y :: ys)
  end.

(** [n] draws in a row: [[f() for _ in range(n)]]. *)
Fixpoint repeat_m {A} (n : nat) (m : M A) : M (list A) :=
  match n with
  | O => ret []
  | S k => let* x := m in let* xs := repeat_m k m in ret (x :: xs)
  end.

(** [uuid.uuid4().hex]: 32 lowercase hex digits, 122 of the 128 bits
    random; digit 12 is the version (4) and digit 16 the variant (8 to b). *)
Definition uuid4_hex : M string :=
  let* ds := repeat_m 32 draw in
  ret (cat (map (fun '(i, d) =>
                   let v := if Nat.eqb i 12 then 4
                            else if Nat.eqb i 16 then 8 + d mod 4
                            else d mod 16 in
                   String.substring v 1 "0123456789abcdef")
                (combine (List.seq 0 32) ds))).

(** What a run leaves behind. *)
Definition run {A} (m : M A) (w : World) : World := snd (m w).
Definition result {A} (m : M A) (w : World) : outcome A := fst (m w).

End IO.
Import IO.

(** [sorted(l)] for a list of strings: insertion sort on code-point order. *)
Fixpoint insert_sorted (x : string) (l : list string) : list string :=
  match l with
  | [] => [x]
  | y :: l' => if String.leb x y then x :: l else y :: insert_sorted x l'
  end.

Definition sorted (l : list string) : list string :=
  fold_right insert_sorted [] l.

Definition project_file : string := "DualCameraApp.xcodeproj/project.pbxproj".

(** ** update_project.py *)

Module UpdateProject.

(* update_project.py:10-18 *)
Definition get_swift_files_in_directory : M (list string) :=
  let* found := glob_glob "DualCameraApp/*.swift" in
  ret (sorted (map basename found)).

(* update_project.py:28
   (\w+)\s*\/\*\s*(.+\.swift)\s*\*\/\s*=\s*\{isa\s*=\s*PBXFileReference *)
Definition pattern : regex :=
  seq [ Grp 1 (plus word); star space; Lit "/*"; star space;
        Grp 2 (Cat (plus any_line) (Lit ".swift")); star space; Lit "*/";
        star space; Lit "="; star space; Lit "{isa"; star space; Lit "=";
        star space; Lit "PBXFileReference" ].

(* update_project.py:20-35 *)
Definition get_swift_files_in_project : M (list string) :=
  let* content := read_file project_file in
  let matches := finditer pattern content in
  ret (sorted (map (fun m => group m 2) matches)).

(* update_project.py:37-56 *)
Definition main : M unit :=
  print "Checking for missing Swift files in Xcode project..." ;;
  let* directory_files := get_swift_files_in_directory in
  let* project_files := get_swift_files_in_project in
  print ("Swift files in directory: " +++ str_of_nat (List.length directory_files)) ;;
  print ("Swift files in project: " +++ str_of_nat (List.length project_files)) ;;
  let missing_files := List.filter (fun f => negb (mem f project_files)) directory_files in
  match missing_files with
  | _ :: _ =>
      print (nl +++ "Missing " +++ str_of_nat (List.length missing_files)
               +++ " Swift files from project:") ;;
      for_each missing_files (fun file => print ("  - " +++ file)) ;;
      print (nl +++ "These files need to be added to the Xcode project manually.") ;;
      print "Please open the project in Xcode and add these files to the target."
  | [] =>
      print (nl +++ "All Swift files are properly included in the project!")
  end.

End UpdateProject.

(** ** fix_xcode_project.py *)

Module FixXcodeProject.

(* fix_xcode_project.py:12-14 *)
Definition generate_uuid : M string :=
  let* digits := repeat_m 24 (random_choice "0123456789ABCDEF") in
  ret (cat digits).

(* fix_xcode_project.py:30, the pattern of update_project.py:28 *)
Definition pattern : regex := UpdateProject.pattern.

(* fix_xcode_project.py:31-32 *)
Definition project_files (content : string) : list string :=
  map (fun m => group m 2) (finditer pattern content).

(* fix_xcode_project.py:35 *)
Definition missing_files (directory_files : list string) (content : string)
    : list string :=
  List.filter (fun f => negb (mem f (project_files content))) directory_files.

(* fix_xcode_project.py:16-36 *)
Definition get_missing_swift_files : M (list string) :=
  let* found := glob_glob "DualCameraApp/*.swift" in
  let directory_files := map basename found in
  let* content := read_file project_file in
  ret (missing_files directory_files content).

Definition id_suffix : string := "294A0000000000001".

(* fix_xcode_project.py:76, 80, 84, 88 *)
Definition build_file_entry (build_file_id file_ref_id file : string) : string :=
  tab +++ tab +++ build_file_id +++ id_suffix +++ " /* " +++ file
    +++ " in Sources */ = {isa = PBXBuildFile; fileRef = " +++ file_ref_id
    +++ id_suffix +++ " /* " +++ file +++ " */; };".

Definition file_ref_entry (file_ref_id file : string) : string :=
  tab +++ tab +++ file_ref_id +++ id_suffix +++ " /* " +++ file
    +++ " */ = {isa = PBXFileReference; lastKnownFileType = sourcecode.swift; path = "
    +++ file +++ "; sourceTree = " +++ dq +++ "<group>" +++ dq +++ "; };".

Definition sources_entry (build_file_id file : string) : string :=
  tab +++ tab +++ tab +++ build_file_id +++ id_suffix +++ " /* " +++ file
    +++ " in Sources */,".

Definition group_entry (file_ref_id file : string) : string :=
  tab +++ tab +++ tab +++ file_ref_id +++ id_suffix +++ " /* " +++ file +++ " */,".

(* fix_xcode_project.py:70-73: the two identifiers drawn for one file *)
Definition draw_ids (file : string) : M (string * string * string) :=
  let* file_ref_id := generate_uuid in
  let* build_file_id := generate_uuid in
  ret (file, file_ref_id, build_file_id).

(** [for entry in reversed(additions): lines.insert(at, entry)] *)
Definition insert_all (at_ : nat) (additions lines : list string) : list string :=
  fold_left (fun ls entry => list_insert at_ entry ls) (rev additions) lines.

(** [for i in range(start, len(lines)): if p i: return i], else [default]. *)
Definition first_from (start : nat) (len : nat) (p : nat -> bool) (default : nat) : nat :=
  match List.find p (List.seq start (len - start)) with
  | Some i => i
  | None => default
  end.

Definition line (lines : list string) (i : nat) : string := nth i lines EmptyString.

Definition begin_build_file : string := "/* Begin PBXBuildFile section */".
Definition begin_file_reference : string := "/* Begin PBXFileReference section */".
Definition begin_sources_phase : string := "/* Begin PBXSourcesBuildPhase section */".
Definition group_header : string := "A1000018294A0000000000001 /* DualCameraApp */ = {".

(* fix_xcode_project.py:91-129, given the four matches' [end()] *)
Definition insert_additions (content : string)
    (build_end ref_end sources_end group_end : nat)
    (ids : list (string * string * string)) : string :=
  let build_file_additions := map (fun '(f, r, b) => build_file_entry b r f) ids in
  let file_reference_additions := map (fun '(f, r, b) => file_ref_entry r f) ids in
  let sources_build_phase_additions := map (fun '(f, r, b) => sources_entry b f) ids in
  let group_additions := map (fun '(f, r, b) => group_entry r f) ids in
  let lines := split_nl content in
  let build_file_insert := build_end + String.length (begin_build_file +++ nl) in
  let lines := insert_all build_file_insert build_file_additions lines in
  let file_ref_insert := ref_end + String.length (begin_file_reference +++ nl) in
  let lines := insert_all file_ref_insert file_reference_additions lines in
  let sources_insert := sources_end + String.length (begin_sources_phase +++ nl) in
  let sources_insert :=
    first_from sources_insert (List.length lines)
      (fun i =>
         if Nat.ltb (i + 1) (List.length lines)
         then String.eqb (strip (line lines i)) ");"
              && contains (line lines (i + 1)) "runOnlyForDeploymentPostprocessing"
         else false)
      sources_insert in
  let lines := insert_all sources_insert sources_build_phase_additions lines in
  let group_insert := group_end in
  let group_insert :=
    match List.find (fun i => String.eqb (strip (line lines i)) "children = (")
            (List.seq group_insert (List.length lines - group_insert)) with
    | Some i => i + 1
    | None => group_insert
    end in
  let group_insert :=
    first_from group_insert (List.length lines)
      (fun i => String.eqb (strip (line lines i)) ");") group_insert in
  let lines := insert_all group_insert group_additions lines in
  join nl lines.

(* fix_xcode_project.py:55-60: the four insertion points, all or none *)
Definition find_sections (content : string) : option (mobj * mobj * mobj * mobj) :=
  match search (Lit begin_build_file) content,
        search (Lit begin_file_reference) content,
        search (Lit begin_sources_phase) content,
        search (Lit group_header) content with
  | Some pbx_build_file_section, Some pbx_file_reference_section,
    Some pbx_sources_build_phase, Some dual_camera_app_group =>
      Some (pbx_build_file_section, pbx_file_reference_section,
            pbx_sources_build_phase, dual_camera_app_group)
  | _, _, _, _ => None
  end.

(* fix_xcode_project.py:38-138 *)
Definition update_project_file : M unit :=
  let* content := read_file project_file in
  let* missing_files := get_missing_swift_files in
  match missing_files with
  | [] => print "No missing files found!"
  | _ :: _ =>
      print ("Adding " +++ str_of_nat (List.length missing_files)
               +++ " missing Swift files to project...") ;;
      match find_sections content with
      | Some (pbx_build_file_section, pbx_file_reference_section,
              pbx_sources_build_phase, dual_camera_app_group) =>
          let* ids := map_m draw_ids missing_files in
          let updated_content :=
            insert_additions content
              (m_end pbx_build_file_section) (m_end pbx_file_reference_section)
              (m_end pbx_sources_build_phase) (m_end dual_camera_app_group) ids in
          write_file project_file updated_content ;;
          print ("Successfully added " +++ str_of_nat (List.length missing_files)
                   +++ " Swift files to the project!") ;;
          for_each missing_files (fun file => print ("  + " +++ file))
      | None => print "Could not find required sections in project file!"
      end
  end.

(* fix_xcode_project.py:140-143 *)
Definition main : M unit :=
  print "Fixing Xcode project to include all Swift files..." ;;
  update_project_file ;;
  print (nl +++ "Project file updated successfully!").

End FixXcodeProject.

(** ** add_swift_files.py *)

Module AddSwiftFiles.

(* add_swift_files.py:6-11 *)
Definition files_to_add : list string :=
  [ "ZoomControl.swift"; "FlashControl.swift"; "TimerControl.swift";
    "FocusExposureControl.swift" ].

Definition end_file_reference : string := "/* End PBXFileReference section */".
Definition end_build_file : string := "/* End PBXBuildFile section */".

(* add_swift_files.py:18
   (/\* Begin PBXFileReference section \*/.*?/\* End PBXFileReference section \*/) *)
Definition file_ref_section_re : regex :=
  Grp 1 (seq [ Lit "/* Begin PBXFileReference section */"; lazy_star any_dotall;
               Lit end_file_reference ]).

(* add_swift_files.py:19
   (/\* Begin PBXBuildFile section \*/.*?/\* End PBXBuildFile section \*/) *)
Definition build_file_section_re : regex :=
  Grp 1 (seq [ Lit "/* Begin PBXBuildFile section */"; lazy_star any_dotall;
               Lit end_build_file ]).

(* add_swift_files.py:20
   (/\* Sources \*/.*?isa = PBXSourcesBuildPhase;.*?files = \((.*?)\);) *)
Definition sources_build_phase_re : regex :=
  Grp 1 (seq [ Lit "/* Sources */"; lazy_star any_dotall;
               Lit "isa = PBXSourcesBuildPhase;"; lazy_star any_dotall;
               Lit "files = ("; Grp 2 (lazy_star any_dotall); Lit ");" ]).

(* add_swift_files.py:21
   (A2[0-9A-F]+ /\* DualCameraApp \*/ = \{.*?children = \((.*?)\);.*?name = DualCameraApp;) *)
Definition group_section_re : regex :=
  Grp 1 (seq [ Lit "A2"; plus hexAF; Lit " /* DualCameraApp */ = {";
               lazy_star any_dotall; Lit "children = ("; Grp 2 (lazy_star any_dotall);
               Lit ");"; lazy_star any_dotall; Lit "name = DualCameraApp;" ]).

(* add_swift_files.py:52   (/\* Sources \*/.*?files = \().*?(\);) *)
Definition sources_sub_re : regex :=
  seq [ Grp 1 (seq [ Lit "/* Sources */"; lazy_star any_dotall; Lit "files = (" ]);
        lazy_star any_dotall; Grp 2 (Lit ");") ].

(* add_swift_files.py:28-29   uuid.uuid4().hex[:24].upper() *)
Definition fresh_id : M string :=
  let* h := uuid4_hex in ret (upper (take 24 h)).

(* add_swift_files.py:31-32 *)
Definition file_ref_line (file_ref_id filename : string) : string :=
  tab +++ tab +++ file_ref_id +++ " /* " +++ filename
    +++ " */ = {isa = PBXFileReference; lastKnownFileType = sourcecode.swift; path = "
    +++ filename +++ "; sourceTree = " +++ dq +++ "<group>" +++ dq +++ "; };" +++ nl.

Definition build_file_line (build_file_id file_ref_id filename : string) : string :=
  tab +++ tab +++ build_file_id +++ " /* " +++ filename
    +++ " in Sources */ = {isa = PBXBuildFile; fileRef = " +++ file_ref_id
    +++ " /* " +++ filename +++ " */; };" +++ nl.

(* add_swift_files.py:27-36: the records of one file, as
   (filename, file_ref_id, build_file_id) *)
Definition draw_ids (filename : string) : M (string * string * string) :=
  let* file_ref_id := fresh_id in
  let* build_file_id := fresh_id in
  ret (filename, file_ref_id, build_file_id).

Definition bs : string := chr 92.

(* add_swift_files.py:38-62, on the text and the matches of lines 18-21 *)
Definition edit (content : string)
    (file_ref_section build_file_section sources_build_phase group_section : option mobj)
    (ids : list (string * string * string)) : M string :=
  let new_file_refs := map (fun '(f, r, b) => (r, file_ref_line r f)) ids in
  let new_build_files := map (fun '(f, r, b) => (b, build_file_line b r f)) ids in
  (* Insert file references *)
  match file_ref_section with
  | None => raise "AttributeError"
  | Some file_ref_section =>
  let file_ref_insert :=
    replace (group file_ref_section 1) end_file_reference
      (cat (map snd new_file_refs) +++ end_file_reference) in
  let content := replace content (group file_ref_section 1) file_ref_insert in
  (* Insert build files *)
  match build_file_section with
  | None => raise "AttributeError"
  | Some build_file_section =>
  let build_file_insert :=
    replace (group build_file_section 1) end_build_file
      (cat (map snd new_build_files) +++ end_build_file) in
  let content := replace content (group build_file_section 1) build_file_insert in
  (* Insert into sources build phase *)
  match sources_build_phase with
  | None => raise "AttributeError"
  | Some sources_build_phase =>
  let source_files := strip (group sources_build_phase 2) in
  let new_build_file_refs :=
    join nl (map (fun '(f, r, b) =>
                    tab +++ tab +++ tab +++ tab +++ b +++ " /* " +++ f +++ " in Sources */,")
                 ids) in
  let new_source_files := source_files +++ nl +++ new_build_file_refs in
  let template :=
    bs +++ "1" +++ bs +++ "n" +++ new_source_files
      +++ bs +++ "n" +++ bs +++ "t" +++ bs +++ "t" +++ bs +++ "t" +++ bs +++ "2" in
  match sub_template sources_sub_re template content (Some 1) with
  | None => raise "re.error"
  | Some content =>
  (* Insert into group *)
  match group_section with
  | Some group_section =>
      let children := strip (group group_section 2) in
      let new_children_refs :=
        join nl (map (fun '(f, r, b) =>
                        tab +++ tab +++ tab +++ tab +++ r +++ " /* " +++ f +++ " */,")
                     ids) in
      let new_children := children +++ nl +++ new_children_refs in
      let old_group := group group_section 1 in
      let new_group :=
        replace old_group ("children = (" +++ group group_section 2 +++ ");")
          ("children = (" +++ nl +++ new_children +++ nl +++ tab +++ tab +++ tab +++ ");") in
      ret (replace content old_group new_group)
  | None => ret content
  end end end end end.

(* add_swift_files.py:13-70 *)
Definition main : M unit :=
  let* content := read_file project_file in
  let file_ref_section := search file_ref_section_re content in
  let build_file_section := search build_file_section_re content in
  let sources_build_phase := search sources_build_phase_re content in
  let group_section := search group_section_re content in
  let* ids := map_m draw_ids files_to_add in
  let* content :=
    edit content file_ref_section build_file_section sources_build_phase
      group_section ids in
  write_file project_file content ;;
  print ("✅ Successfully added " +++ str_of_nat (List.length files_to_add)
           +++ " files to Xcode project!") ;;
  for_each files_to_add (fun f => print ("  - " +++ f)).

End AddSwiftFiles.

(** ** fix_project.py *)

Module FixProject.

(* fix_project.py:10
   ([A-F0-9]{24}) /\* AppDelegate\.swift \*/ = \{isa = PBXFileReference;[^}]+\}; *)
Definition ref_re : regex :=
  seq [ Grp 1 (exactly 24 hexAF);
        Lit " /* AppDelegate.swift */ = {isa = PBXFileReference;";
        plus (other_than "}"); Lit "};" ].

(* fix_project.py:11
   ([A-F0-9]{24}) /\* AppDelegate\.swift in Sources \*/ = \{isa = PBXBuildFile; fileRef = ([A-F0-9]{24}) *)
Definition build_re : regex :=
  seq [ Grp 1 (exactly 24 hexAF);
        Lit " /* AppDelegate.swift in Sources */ = {isa = PBXBuildFile; fileRef = ";
        Grp 2 (exactly 24 hexAF) ].

(* fix_project.py:23-28 *)
Definition files_to_add : list string :=
  [ "ZoomControl.swift"; "FlashControl.swift"; "TimerControl.swift";
    "FocusExposureControl.swift" ].

(* fix_project.py:32-33
   hashlib.md5(f"com.dualcamera.{filename}".encode()).hexdigest()[:24].upper() *)
Definition generate_id (filename : string) : string :=
  upper (take 24 (MD5.hexdigest ("com.dualcamera." +++ filename))).

(* fix_project.py:37   [A-F0-9]{24} /\* <re.escape(filename)>[^;]*; *)
Definition stale_re (filename : string) : regex :=
  seq [ exactly 24 hexAF; Lit (" /* " +++ filename); star (other_than ";"); Lit ";" ].

(* fix_project.py:36-37 *)
Definition remove_stale (content : string) : string :=
  fold_left (fun content filename =>
               sub (stale_re filename) (fun _ => EmptyString) content None)
            files_to_add content.

(* fix_project.py:40
   (A2[A-F0-9]{23}) /\* DualCameraApp \*/ = \{\s+isa = PBXGroup;\s+children = \((.*?)\); *)
Definition group_re : regex :=
  seq [ Grp 1 (Cat (Lit "A2") (exactly 23 hexAF)); Lit " /* DualCameraApp */ = {";
        plus space; Lit "isa = PBXGroup;"; plus space; Lit "children = (";
        Grp 2 (lazy_star any_dotall); Lit ");" ].

(* fix_project.py:46-47 *)
Definition read_children (body : string) : list string :=
  map strip (List.filter (fun c => nonempty (strip c)) (split_nl (strip body))).

(* fix_project.py:50
   (/\* Begin PBXFileReference section \*/\n)(.*?)(\n\s*/\* End PBXFileReference section \*/) *)
Definition file_ref_section_re : regex :=
  seq [ Grp 1 (Lit ("/* Begin PBXFileReference section */" +++ nl));
        Grp 2 (lazy_star any_dotall);
        Grp 3 (seq [ Lit nl; star space; Lit "/* End PBXFileReference section */" ]) ].

(* fix_project.py:51
   (/\* Begin PBXBuildFile section \*/\n)(.*?)(\n\s*/\* End PBXBuildFile section \*/) *)
Definition build_file_section_re : regex :=
  seq [ Grp 1 (Lit ("/* Begin PBXBuildFile section */" +++ nl));
        Grp 2 (lazy_star any_dotall);
        Grp 3 (seq [ Lit nl; star space; Lit "/* End PBXBuildFile section */" ]) ].

(* fix_project.py:52   (/\* Sources \*/.*?files = \(\n)(.*?)(\n\s+\);) *)
Definition sources_phase_re : regex :=
  seq [ Grp 1 (seq [ Lit "/* Sources */"; lazy_star any_dotall; Lit ("files = (" +++ nl) ]);
        Grp 2 (lazy_star any_dotall);
        Grp 3 (seq [ Lit nl; plus space; Lit ");" ]) ].

(* fix_project.py:64-80 *)
Definition file_ref_line (filename : string) : string :=
  tab +++ tab +++ generate_id filename +++ " /* " +++ filename
    +++ " */ = {isa = PBXFileReference; fileEncoding = 4; lastKnownFileType = sourcecode.swift; path = "
    +++ filename +++ "; sourceTree = " +++ dq +++ "<group>" +++ dq +++ "; };" +++ nl.

Definition build_file_line (filename : string) : string :=
  tab +++ tab +++ generate_id ("build_" +++ filename) +++ " /* " +++ filename
    +++ " in Sources */ = {isa = PBXBuildFile; fileRef = " +++ generate_id filename
    +++ " /* " +++ filename +++ " */; };" +++ nl.

Definition group_child (filename : string) : string :=
  tab +++ tab +++ tab +++ tab +++ generate_id filename +++ " /* " +++ filename +++ " */,".

Definition source_file (filename : string) : string :=
  tab +++ tab +++ tab +++ tab +++ generate_id ("build_" +++ filename) +++ " /* "
    +++ filename +++ " in Sources */,".

Definition new_file_refs : list string := map file_ref_line files_to_add.
Definition new_build_files : list string := map build_file_line files_to_add.
Definition new_group_children : list string := map group_child files_to_add.
Definition new_source_files : list string := map source_file files_to_add.

(* fix_project.py:95 *)
Definition new_children_str (children : list string) : string :=
  join nl (children ++ new_group_children).

(* fix_project.py:98: what stands between [children = (] and [);] afterwards *)
Definition rewritten_children (children : list string) : string :=
  nl +++ new_children_str children +++ nl +++ tab +++ tab +++ tab.

(* fix_project.py:82-106, on the text left by line 37 and the matches *)
Definition insert_entries (content : string)
    (group_match file_ref_section_match build_file_section_match sources_phase_match : mobj)
    : string :=
  let children := read_children (group group_match 2) in
  let content :=
    replace content (group file_ref_section_match 3)
      (cat new_file_refs +++ group file_ref_section_match 3) in
  let content :=
    replace content (group build_file_section_match 3)
      (cat new_build_files +++ group build_file_section_match 3) in
  (* Update group children *)
  let old_group := group group_match 0 in
  let new_group :=
    replace old_group ("children = (" +++ group group_match 2 +++ ");")
      ("children = (" +++ rewritten_children children +++ ");") in
  let content := replace content old_group new_group in
  (* Update sources *)
  replace content (group sources_phase_match 3)
    (nl +++ join nl new_source_files +++ group sources_phase_match 3).

(* fix_project.py:10-15: the two AppDelegate.swift entries *)
Definition find_reference (content : string) : option (mobj * mobj) :=
  match search ref_re content, search build_re content with
  | Some ref_match, Some build_match => Some (ref_match, build_match)
  | _, _ => None
  end.

(* fix_project.py:50-56: the three sections, all or none *)
Definition find_sections (content : string) : option (mobj * mobj * mobj) :=
  match search file_ref_section_re content,
        search build_file_section_re content,
        search sources_phase_re content with
  | Some file_ref_section_match, Some build_file_section_match,
    Some sources_phase_match =>
      Some (file_ref_section_match, build_file_section_match, sources_phase_match)
  | _, _, _ => None
  end.

(* fix_project.py:5-114 *)
Definition main : M unit :=
  let* content := read_file project_file in
  match find_reference content with
  | None => print "ERROR: Could not find reference file" ;; sys_exit 1
  | Some _ =>
      let content := remove_stale content in
      match search group_re content with
      | None => print "ERROR: Could not find DualCameraApp group" ;; sys_exit 1
      | Some group_match =>
          match find_sections content with
          | None => print "ERROR: Could not find required sections" ;; sys_exit 1
          | Some (file_ref_section_match, build_file_section_match,
                  sources_phase_match) =>
              let content :=
                insert_entries content group_match file_ref_section_match
                  build_file_section_match sources_phase_match in
              write_file project_file content ;;
              print "âœ… Successfully added files to Xcode project:" ;;
              for_each files_to_add (fun f => print ("   - " +++ f))
          end
      end
  end.

End FixProject.

(** ** Writing descriptors down

    [ind n s] is the line [s] behind [n] tabs; a descriptor is its lines
    joined by newlines. *)

Fixpoint ind (n : nat) (s : string) : string :=
  match n with
  | O => s
  | S k => tab +++ ind k s
  end.

Definition descriptor (w : World) : option string := files w !! project_file.

(** ** comprehensive_fix.py *)

Module ComprehensiveFix.

(* comprehensive_fix.py:14 *)
Definition dual_camera_group_end : string :=
  ind 3 "A1000017294A0000000000001 /* Info.plist */," +++ nl +++ ind 2 ");".

(* comprehensive_fix.py:15 *)
Definition dual_camera_group_fixed : string :=
  cat (map (fun l => ind 3 l +++ nl)
         [ "A1000017294A0000000000001 /* Info.plist */,";
           "A1000034294A0000000000001 /* VisualCountdownView.swift */,";
           "A1000035294A0000000000001 /* SettingsManager.swift */,";
           "A1000036294A0000000000001 /* TripleOutputControlView.swift */,";
           "A1000037294A0000000000001 /* CameraControlsView.swift */,";
           "A1000038294A0000000000001 /* AdvancedCameraControlsManager.swift */,";
           "A1000039294A0000000000001 /* AudioControlsView.swift */," ])
    +++ ind 2 ");".

(* comprehensive_fix.py:19 *)
Definition sources_end : string :=
  ind 3 "A1000032294A0000000000001 /* CameraPreviewView.swift in Sources */,"
    +++ nl +++ ind 2 ");".

(* comprehensive_fix.py:20 *)
Definition sources_fixed : string :=
  cat (map (fun l => ind 3 l +++ nl)
         [ "A1000032294A0000000000001 /* CameraPreviewView.swift in Sources */,";
           "A1000033294A0000000000001 /* VisualCountdownView.swift in Sources */,";
           "A1000034294A0000000000001 /* SettingsManager.swift in Sources */,";
           "A1000035294A0000000000001 /* TripleOutputControlView.swift in Sources */,";
           "A1000036294A0000000000001 /* CameraControlsView.swift in Sources */,";
           "A1000037294A0000000000001 /* AdvancedCameraControlsManager.swift in Sources */,";
           "A1000038294A0000000000001 /* AudioControlsView.swift in Sources */," ])
    +++ ind 2 ");".

(* comprehensive_fix.py:13-21 *)
Definition fix_text (content : string) : string :=
  let content := replace content dual_camera_group_end dual_camera_group_fixed in
  replace content sources_end sources_fixed.

(* comprehensive_fix.py:6-27 *)
Definition fix_project : M unit :=
  let* content := read_file project_file in
  write_file project_file (fix_text content) ;;
  print "Fixed Xcode project structure comprehensively".

End ComprehensiveFix.

(** ** fix_project_files.py *)

Module FixProjectFiles.

(* fix_project_files.py:13-20 *)
Definition files_to_add : list string :=
  [ "A1000033294A0000000000001 /* VisualCountdownView.swift in Sources */";
    "A1000034294A0000000000001 /* SettingsManager.swift in Sources */";
    "A1000035294A0000000000001 /* TripleOutputControlView.swift in Sources */";
    "A1000036294A0000000000001 /* CameraControlsView.swift in Sources */";
    "A1000037294A0000000000001 /* AdvancedCameraControlsManager.swift in Sources */";
    "A1000038294A0000000000001 /* AudioControlsView.swift in Sources */" ].

(* fix_project_files.py:23-30 *)
Definition files_to_add_to_group : list string :=
  [ "A1000034294A0000000000001 /* VisualCountdownView.swift */";
    "A1000035294A0000000000001 /* SettingsManager.swift */";
    "A1000036294A0000000000001 /* TripleOutputControlView.swift */";
    "A1000037294A0000000000001 /* CameraControlsView.swift */";
    "A1000038294A0000000000001 /* AdvancedCameraControlsManager.swift */";
    "A1000039294A0000000000001 /* AudioControlsView.swift */" ].

(* fix_project_files.py:33, two groups:
   1: \t\tA1000022294A0000000000000 /\* Sources \*/ = \{\s+isa = PBXSourcesBuildPhase;\s+buildActionMask = 2147483647;\s+files = \(\s+.*?A1000032294A0000000000001 /\* CameraPreviewView\.swift in Sources \*/,\s*
   2: \s*\);   *)
Definition sources_pattern : regex :=
  seq [ Grp 1 (seq [ Lit (ind 2 "A1000022294A0000000000000 /* Sources */ = {");
                     plus space; Lit "isa = PBXSourcesBuildPhase;";
                     plus space; Lit "buildActionMask = 2147483647;";
                     plus space; Lit "files = ("; plus space; lazy_star any_dotall;
                     Lit "A1000032294A0000000000001 /* CameraPreviewView.swift in Sources */,";
                     star space ]);
        Grp 2 (seq [ star space; Lit ");" ]) ].

(* fix_project_files.py:35-44, 51-60 *)
Definition added (entries : list string) : string :=
  cat (map (fun file_ref => ind 4 file_ref +++ "," +++ nl) entries).

Definition replace_sources (m : mobj) : string :=
  group m 1 +++ added files_to_add +++ group m 2.

(* fix_project_files.py:49, two groups:
   1: \t\tA1000018294A0000000000001 /\* DualCameraApp \*/ = \{\s+isa = PBXGroup;\s+children = \(\s+.*?A1000033294A0000000000001 /\* CameraPreviewView\.swift \*/,\s*
   2: \s+A1000016294A0000000000001 /\* Assets\.xcassets \*/,\s+   *)
Definition group_pattern : regex :=
  seq [ Grp 1 (seq [ Lit (ind 2 "A1000018294A0000000000001 /* DualCameraApp */ = {");
                     plus space; Lit "isa = PBXGroup;"; plus space;
                     Lit "children = ("; plus space; lazy_star any_dotall;
                     Lit "A1000033294A0000000000001 /* CameraPreviewView.swift */,";
                     star space ]);
        Grp 2 (seq [ plus space; Lit "A1000016294A0000000000001 /* Assets.xcassets */,";
                     plus space ]) ].

Definition replace_group (m : mobj) : string :=
  group m 1 +++ added files_to_add_to_group +++ group m 2.

(* fix_project_files.py:46, 62 *)
Definition fix_text (content : string) : string :=
  let content := sub sources_pattern replace_sources content None in
  sub group_pattern replace_group content None.

(* fix_project_files.py:5-68 *)
Definition fix_project_pbxproj : M unit :=
  let* content := read_file project_file in
  write_file project_file (fix_text content) ;;
  print "Successfully updated project.pbxproj file".

End FixProjectFiles.

(** ** Z/add_files_to_xcode.py *)

Module AddFilesToXcode.

(* Z/add_files_to_xcode.py:7, 12-18 *)
Definition pbxproj_path : string :=
  "/Users/letsmakemillions/Desktop/APp/Z/DualApp.xcodeproj/project.pbxproj".
Definition base_path : string := "/Users/letsmakemillions/Desktop/APp/Z/DualApp".
Definition folders_to_add : list string := [ "Core"; "App"; "VideoProcessing"; "Features" ].

(* Z/add_files_to_xcode.py:96-105 *)
Definition frameworks : list string :=
  [ "AVFoundation.framework"; "CoreImage.framework"; "Metal.framework";
    "MetalKit.framework"; "Photos.framework"; "PhotosUI.framework";
    "Combine.framework"; "SwiftUI.framework" ].

(* Z/add_files_to_xcode.py:20-26 *)
Definition scan_folder (folder : string) : M (list string) :=
  let folder_path := base_path +++ "/" +++ folder in
  let* present := os_path_exists folder_path in
  if present then
    let* swift_files := glob_glob (folder_path +++ "/**/*.swift") in
    let* metal_files := glob_glob (folder_path +++ "/**/*.metal") in
    ret (swift_files ++ metal_files)%list
  else ret [].

Definition scan : M (list string) :=
  let* found := map_m scan_folder folders_to_add in
  ret (concat found).

(** One source file: its two identifiers, path and name (lines 32-50). *)
Record source_entry : Type := {
  file_ref_id : string; build_file_id : string; path : string; name : string
}.

Definition fresh_id : M string :=
  let* h := uuid4_hex in ret (upper (take 24 h)).

(* Z/add_files_to_xcode.py:32-50 *)
Definition draw_source (file_path : string) : M source_entry :=
  let rel_path := replace file_path (base_path +++ "/") EmptyString in
  let filename := basename file_path in
  let* r := fresh_id in
  let* b := fresh_id in
  ret {| file_ref_id := r; build_file_id := b; path := rel_path; name := filename |}.

(* Z/add_files_to_xcode.py:111-123 *)
Definition draw_framework (fw : string) : M source_entry :=
  let* r := fresh_id in
  let* b := fresh_id in
  ret {| file_ref_id := r; build_file_id := b; path := fw; name := fw |}.

Definition pbxbuildfile_section : string := "/* End PBXBuildFile section */".
Definition pbxfilereference_section : string := "/* End PBXFileReference section */".

(* Z/add_files_to_xcode.py:56 *)
Definition build_entry (bf : source_entry) : string :=
  ind 2 (build_file_id bf +++ " /* " +++ name bf
           +++ " in Sources */ = {isa = PBXBuildFile; fileRef = " +++ file_ref_id bf
           +++ " /* " +++ name bf +++ " */; };" +++ nl).

(* Z/add_files_to_xcode.py:68-69 *)
Definition file_ref_entry (fr : source_entry) : string :=
  let file_type :=
    if endswith (name fr) ".swift" then "sourcecode.swift" else "sourcecode.metal" in
  ind 2 (file_ref_id fr +++ " /* " +++ name fr
           +++ " */ = {isa = PBXFileReference; lastKnownFileType = " +++ file_type
           +++ "; path = " +++ path fr +++ "; sourceTree = " +++ dq +++ "<group>"
           +++ dq +++ "; };" +++ nl).

(* Z/add_files_to_xcode.py:81 *)
Definition source_member (bf : source_entry) : string :=
  ind 4 (build_file_id bf +++ " /* " +++ name bf +++ " in Sources */," +++ nl).

(* Z/add_files_to_xcode.py:128 *)
Definition fw_ref_entry (fwr : source_entry) : string :=
  ind 2 (file_ref_id fwr +++ " /* " +++ name fwr
           +++ " */ = {isa = PBXFileReference; lastKnownFileType = wrapper.framework; name = "
           +++ name fwr +++ "; path = System/Library/Frameworks/" +++ name fwr
           +++ "; sourceTree = SDKROOT; };" +++ nl).

(* Z/add_files_to_xcode.py:139 *)
Definition fw_build_entry (fwb : source_entry) : string :=
  ind 2 (build_file_id fwb +++ " /* " +++ name fwb
           +++ " in Frameworks */ = {isa = PBXBuildFile; fileRef = " +++ file_ref_id fwb
           +++ " /* " +++ name fwb +++ " */; };" +++ nl).

(* Z/add_files_to_xcode.py:157 *)
Definition fw_member (fwb : source_entry) : string :=
  ind 4 (build_file_id fwb +++ " /* " +++ name fwb +++ " in Frameworks */," +++ nl).

(* Z/add_files_to_xcode.py:86, three groups:
   1: /\* Begin PBXSourcesBuildPhase section \*/.*?files = \(
   2: .*?
   3: \);\s+runOnlyForDeploymentPostprocessing *)
Definition sources_pattern : regex :=
  seq [ Grp 1 (seq [ Lit "/* Begin PBXSourcesBuildPhase section */";
                     lazy_star any_dotall; Lit "files = (" ]);
        Grp 2 (lazy_star any_dotall);
        Grp 3 (seq [ Lit ");"; plus space; Lit "runOnlyForDeploymentPostprocessing" ]) ].

(* Z/add_files_to_xcode.py:148, three groups:
   1: A1000000294A0000000000000 /\* Frameworks \*/ = \{.*?files = \(
   2: .*?
   3: \);  *)
Definition frameworks_pattern : regex :=
  seq [ Grp 1 (seq [ Lit "A1000000294A0000000000000 /* Frameworks */ = {";
                     lazy_star any_dotall; Lit "files = (" ]);
        Grp 2 (lazy_star any_dotall);
        Grp 3 (Lit ");") ].

(* Z/add_files_to_xcode.py:89-92: the text the Sources phase is replaced by *)
Definition new_sources (m : mobj) (build_files : list source_entry) : string :=
  let before := group m 1 in
  let existing := group m 2 in
  let after := group m 3 in
  before +++ existing +++ cat (map source_member build_files) +++ after.

(* Z/add_files_to_xcode.py:151-160: the text the Frameworks phase is replaced by *)
Definition new_frameworks (m : mobj) (framework_builds : list source_entry) : string :=
  let before := group m 1 in
  let existing := group m 2 in
  let after := group m 3 in
  before +++ cat (map fw_member framework_builds) +++ existing +++ after.

(* Z/add_files_to_xcode.py:52-93; [None] is [re.error] from a replacement
   string that [re.sub] cannot read as a template *)
Definition edit_sources (content : string) (sources : list source_entry)
    : option string :=
  let content :=
    replace content pbxbuildfile_section
      (cat (map build_entry sources) +++ pbxbuildfile_section) in
  let content :=
    replace content pbxfilereference_section
      (cat (map file_ref_entry sources) +++ pbxfilereference_section) in
  match search sources_pattern content with
  | Some m => sub_template sources_pattern (new_sources m sources) content None
  | None => Some content
  end.

(* Z/add_files_to_xcode.py:125-161 *)
Definition edit_frameworks (content : string) (fws : list source_entry)
    : option string :=
  let content :=
    replace content pbxfilereference_section
      (cat (map fw_ref_entry fws) +++ pbxfilereference_section) in
  let content :=
    replace content pbxbuildfile_section
      (cat (map fw_build_entry fws) +++ pbxbuildfile_section) in
  match search frameworks_pattern content with
  | Some fw_match =>
      sub_template frameworks_pattern (new_frameworks fw_match fws) content None
  | None => Some content
  end.

Definition or_raise {A} (exn : string) (o : option A) : M A :=
  match o with Some a => ret a | None => raise exn end.

(* Z/add_files_to_xcode.py:6-176 *)
Definition main : M unit :=
  let* content := read_file pbxproj_path in
  let* files_to_add := scan in
  let* sources := map_m draw_source files_to_add in
  let* content := or_raise "re.error" (edit_sources content sources) in
  let* fws := map_m draw_framework frameworks in
  let* content := or_raise "re.error" (edit_frameworks content fws) in
  write_file pbxproj_path content ;;
  print ("✅ Added " +++ str_of_nat (List.length files_to_add)
           +++ " source files to Xcode project") ;;
  print ("✅ Added " +++ str_of_nat (List.length frameworks)
           +++ " frameworks to Xcode project") ;;
  print (nl +++ "Files added:") ;;
  for_each (firstn 10 files_to_add) (fun f => print ("  - " +++ basename f)) ;;
  (if Nat.ltb 10 (List.length files_to_add)
   then print ("  ... and " +++ str_of_nat (List.length files_to_add - 10) +++ " more")
   else ret tt) ;;
  print (nl +++ "Frameworks added:") ;;
  for_each frameworks (fun fw => print ("  - " +++ fw)).

End AddFilesToXcode.

(** ** The data model, read off a descriptor

    The specification's records (FileReference, BuildFileLink, GroupNode,
    BuildPhase) in the persisted layout
    [<Identifier> /* <displayName> */ = { isa = <Kind>; ... };].
    These readers only observe a text; no script uses them. *)

Module Model.

(** A display name: anything on the line up to the closing of its comment. *)
Definition name_char (c : ascii) : bool := negb (is_nl c) && negb (Ascii.eqb c "*").

(** A record's Identifier (a word), its display name in a comment, and
    its kind after [= {] and [isa = ]. *)
Definition record_re : regex :=
  seq [ Grp 1 (plus word); Lit " /* "; Grp 2 (star name_char); Lit " */ = {";
        star space; Lit "isa = "; Grp 3 (plus word); Lit ";" ].

Record record : Type := { rec_id : string; rec_name : string; rec_kind : string }.

Definition records (text : string) : list record :=
  map (fun m => {| rec_id := group m 1; rec_name := group m 2; rec_kind := group m 3 |})
      (finditer record_re text).

Definition ids_of_kind (kind text : string) : list string :=
  map rec_id (List.filter (fun r => String.eqb (rec_kind r) kind) (records text)).

(** A BuildFileLink and the FileReference it points to. *)
Definition build_file_re : regex :=
  seq [ Grp 1 (plus word); Lit " /* "; star name_char; Lit " */ = {";
        star space; Lit "isa = PBXBuildFile;"; star space; Lit "fileRef = ";
        Grp 2 (plus word) ].

Definition build_files (text : string) : list (string * string) :=
  map (fun m => (group m 1, group m 2)) (finditer build_file_re text).

(** The leading Identifier of a member line such as [ID /* name */,]. *)
Fixpoint leading_word (s : string) : string :=
  match s with
  | EmptyString => EmptyString
  | String c s' => if word c then String c (leading_word s') else EmptyString
  end.

Definition member_ids (body : string) : list string :=
  map leading_word
      (List.filter nonempty (map strip (split_nl body))).

(** The records of kind [kind] with the ordered members of their list
    [key = ( ... );]. *)
Definition list_re (kind key : string) : regex :=
  seq [ Grp 1 (plus word); Lit " /* "; star name_char; Lit " */ = {";
        star space; Lit ("isa = " +++ kind +++ ";"); lazy_star any_dotall;
        Lit (key +++ " = ("); Grp 2 (lazy_star any_dotall); Lit ");" ].

Definition lists (kind key text : string) : list (string * list string) :=
  map (fun m => (group m 1, member_ids (group m 2))) (finditer (list_re kind key) text).

Definition groups (text : string) : list (string * list string) :=
  lists "PBXGroup" "children" text.

Definition phases (kind text : string) : list (string * list string) :=
  lists kind "files" text.

Fixpoint distinct (l : list string) : bool :=
  match l with
  | [] => true
  | x :: l' => negb (mem x l') && distinct l'
  end.

(** No two records share an Identifier. *)
Definition unique_ids (text : string) : bool :=
  distinct (map rec_id (records text)).

(** Every BuildFileLink points to a FileReference, and every member of a
    compile-sources phase is a BuildFileLink. *)
Definition referential_integrity (text : string) : bool :=
  let file_references := ids_of_kind "PBXFileReference" text in
  let build_file_links := ids_of_kind "PBXBuildFile" text in
  forallb (fun '(_, ref) => mem ref file_references) (build_files text)
  && forallb (fun '(_, members) =>
                forallb (fun m => mem m build_file_links) members)
             (phases "PBXSourcesBuildPhase" text).

(** No Identifier is listed as a child twice, in one group or in two. *)
Definition single_parent (text : string) : bool :=
  distinct (concat (map snd (groups text))).

(** The groups that list [id] among their children. *)
Definition parents (id text : string) : list string :=
  map fst (List.filter (fun '(_, children) => mem id children) (groups text)).

(** [s.count(p)] for a non-empty [p]: non-overlapping occurrences. *)
Fixpoint count_go (p s : string) (skip : nat) : nat :=
  match s with
  | EmptyString => 0
  | String _ s' =>
      match skip with
      | S k => count_go p s' k
      | O => if String.prefix p s then S (count_go p s' (String.length p - 1))
             else count_go p s' 0
      end
  end.

Definition count (s p : string) : nat := count_go p s 0.

End Model.

(** ** Sample descriptors and worlds

    [project_a] uses 24-digit identifiers and the layout [fix_project.py]
    and [add_swift_files.py] look for; [project_b] is laid out like the
    descriptor the other scripts were written against. *)

Module Samples.

Definition project_a : string :=
  join nl
    [ "// !$*UTF8*$!";
      "{";
      ind 1 "objects = {";
      EmptyString;
      "/* Begin PBXBuildFile section */";
      ind 2 "A1B2C3D4E5F60718293A4B01 /* AppDelegate.swift in Sources */ = {isa = PBXBuildFile; fileRef = A1B2C3D4E5F60718293A4B02 /* AppDelegate.swift */; };";
      ind 2 "A1B2C3D4E5F60718293A4B06 /* Zoom.swift in Sources */ = {isa = PBXBuildFile; fileRef = D0176F399AE93F30FC790A70 /* Zoom.swift */; };";
      "/* End PBXBuildFile section */";
      EmptyString;
      "/* Begin PBXFileReference section */";
      ind 2 ("A1B2C3D4E5F60718293A4B02 /* AppDelegate.swift */ = {isa = PBXFileReference; lastKnownFileType = sourcecode.swift; path = AppDelegate.swift; sourceTree = " +++ dq +++ "<group>" +++ dq +++ "; };");
      ind 2 ("D0176F399AE93F30FC790A70 /* Zoom.swift */ = {isa = PBXFileReference; lastKnownFileType = sourcecode.swift; path = Zoom.swift; sourceTree = " +++ dq +++ "<group>" +++ dq +++ "; };");
      "/* End PBXFileReference section */";
      EmptyString;
      "/* Begin PBXGroup section */";
      ind 2 "A2B2C3D4E5F60718293A4B031 /* DualCameraApp */ = {";
      ind 3 "isa = PBXGroup;";
      ind 3 "children = (";
      ind 4 "A1B2C3D4E5F60718293A4B02 /* AppDelegate.swift */,";
      ind 4 "A2B2C3D4E5F60718293A4B051 /* Controls */,";
      ind 3 ");";
      ind 3 "name = DualCameraApp;";
      ind 3 ("sourceTree = " +++ dq +++ "<group>" +++ dq +++ ";");
      ind 2 "};";
      ind 2 "A2B2C3D4E5F60718293A4B051 /* Controls */ = {";
      ind 3 "isa = PBXGroup;";
      ind 3 "children = (";
      ind 4 "D0176F399AE93F30FC790A70 /* Zoom.swift */,";
      ind 3 ");";
      ind 3 "name = Controls;";
      ind 3 ("sourceTree = " +++ dq +++ "<group>" +++ dq +++ ";");
      ind 2 "};";
      "/* End PBXGroup section */";
      EmptyString;
      "/* Begin PBXSourcesBuildPhase section */";
      ind 2 "A1B2C3D4E5F60718293A4B04 /* Sources */ = {";
      ind 3 "isa = PBXSourcesBuildPhase;";
      ind 3 "buildActionMask = 2147483647;";
      ind 3 "files = (";
      ind 4 "A1B2C3D4E5F60718293A4B01 /* AppDelegate.swift in Sources */,";
      ind 4 "A1B2C3D4E5F60718293A4B06 /* Zoom.swift in Sources */,";
      ind 3 ");";
      ind 3 "runOnlyForDeploymentPostprocessing = 0;";
      ind 2 "};";
      "/* End PBXSourcesBuildPhase section */";
      ind 1 "};";
      "}";
      EmptyString ].

Definition project_b : string :=
  join nl
    [ "// !$*UTF8*$!";
      "{";
      ind 1 "objects = {";
      EmptyString;
      "/* Begin PBXBuildFile section */";
      ind 2 "A1000020294A0000000000001 /* AppDelegate.swift in Sources */ = {isa = PBXBuildFile; fileRef = A1000010294A0000000000001 /* AppDelegate.swift */; };";
      ind 2 "A1000032294A0000000000001 /* CameraPreviewView.swift in Sources */ = {isa = PBXBuildFile; fileRef = A1000033294A0000000000001 /* CameraPreviewView.swift */; };";
      ind 2 "A1000041294A0000000000001 /* UIKit.framework in Frameworks */ = {isa = PBXBuildFile; fileRef = A1000040294A0000000000001 /* UIKit.framework */; };";
      "/* End PBXBuildFile section */";
      EmptyString;
      "/* Begin PBXFileReference section */";
      ind 2 ("A1000010294A0000000000001 /* AppDelegate.swift */ = {isa = PBXFileReference; lastKnownFileType = sourcecode.swift; path = AppDelegate.swift; sourceTree = " +++ dq +++ "<group>" +++ dq +++ "; };");
      ind 2 ("A1000033294A0000000000001 /* CameraPreviewView.swift */ = {isa = PBXFileReference; lastKnownFileType = sourcecode.swift; path = CameraPreviewView.swift; sourceTree = " +++ dq +++ "<group>" +++ dq +++ "; };");
      ind 2 ("A1000017294A0000000000001 /* Info.plist */ = {isa = PBXFileReference; lastKnownFileType = text.plist.xml; path = Info.plist; sourceTree = " +++ dq +++ "<group>" +++ dq +++ "; };");
      ind 2 "A1000040294A0000000000001 /* UIKit.framework */ = {isa = PBXFileReference; lastKnownFileType = wrapper.framework; name = UIKit.framework; path = System/Library/Frameworks/UIKit.framework; sourceTree = SDKROOT; };";
      "/* End PBXFileReference section */";
      EmptyString;
      "/* Begin PBXFrameworksBuildPhase section */";
      ind 2 "A1000000294A0000000000000 /* Frameworks */ = {";
      ind 3 "isa = PBXFrameworksBuildPhase;";
      ind 3 "buildActionMask = 2147483647;";
      ind 3 "files = (";
      ind 3 "A1000041294A0000000000001 /* UIKit.framework in Frameworks */,";
      ind 2 ");";
      ind 3 "runOnlyForDeploymentPostprocessing = 0;";
      ind 2 "};";
      "/* End PBXFrameworksBuildPhase section */";
      EmptyString;
      "/* Begin PBXGroup section */";
      ind 2 "A1000018294A0000000000001 /* DualCameraApp */ = {";
      ind 3 "isa = PBXGroup;";
      ind 3 "children = (";
      ind 3 "A1000010294A0000000000001 /* AppDelegate.swift */,";
      ind 3 "A1000033294A0000000000001 /* CameraPreviewView.swift */,";
      ind 3 "A1000017294A0000000000001 /* Info.plist */,";
      ind 2 ");";
      ind 3 "path = DualCameraApp;";
      ind 3 ("sourceTree = " +++ dq +++ "<group>" +++ dq +++ ";");
      ind 2 "};";
      "/* End PBXGroup section */";
      EmptyString;
      "/* Begin PBXSourcesBuildPhase section */";
      ind 2 "A1000022294A0000000000000 /* Sources */ = {";
      ind 3 "isa = PBXSourcesBuildPhase;";
      ind 3 "buildActionMask = 2147483647;";
      ind 3 "files = (";
      ind 3 "A1000020294A0000000000001 /* AppDelegate.swift in Sources */,";
      ind 3 "A1000032294A0000000000001 /* CameraPreviewView.swift in Sources */,";
      ind 2 ");";
      ind 3 "runOnlyForDeploymentPostprocessing = 0;";
      ind 2 "};";
      "/* End PBXSourcesBuildPhase section */";
      ind 1 "};";
      "}";
      EmptyString ].

(** A fixed pseudo-random stream of hexadecimal digits. *)
Definition mix (n : nat) : nat :=
  let x := (((N.of_nat n + 1) * 0x9E3779B97F4A7C15) mod 2 ^ 64)%N in
  let x := N.lxor x (N.shiftr x 30) in
  let x := ((x * 0xBF58476D1CE4E5B9) mod 2 ^ 64)%N in
  let x := N.lxor x (N.shiftr x 27) in
  N.to_nat (N.shiftr x 60).

(** A world holding one descriptor at [path], with the directory listing
    [listing] and the random stream [rnd]. *)
Definition world (path content : string) (listing : list string)
    (rnd : nat -> nat) : World :=
  {| files := {[ path := content ]};
     glob := fun _ => listing;
     path_exists := fun _ => true;
     entropy := rnd;
     cursor := 0;
     stdout := [] |}.

(** Two entries to add, with Identifiers as [fresh_id] makes them. *)
Definition two_entries : list AddFilesToXcode.source_entry :=
  [ {| AddFilesToXcode.file_ref_id := "62F112DE7F3A4610925B9AD1";
       AddFilesToXcode.build_file_id := "EE41401286FA47C5ABE2FED1";
       AddFilesToXcode.path := "Core/Engine.swift";
       AddFilesToXcode.name := "Engine.swift" |};
    {| AddFilesToXcode.file_ref_id := "1829CC4F2CDD4FB8ADA0C3D0";
       AddFilesToXcode.build_file_id := "AD1ED645E6DD4129A3986BB1";
       AddFilesToXcode.path := "Core/Shaders.metal";
       AddFilesToXcode.name := "Shaders.metal" |} ].

(** [project_b] with one file reference changed: the record of
    CameraPreviewView.swift is shown as Shown.swift and has the path
    New.swift. *)
Definition project_c : string :=
  replace project_b
    "A1000033294A0000000000001 /* CameraPreviewView.swift */ = {isa = PBXFileReference; lastKnownFileType = sourcecode.swift; path = CameraPreviewView.swift;"
    "A1000033294A0000000000001 /* Shown.swift */ = {isa = PBXFileReference; lastKnownFileType = sourcecode.swift; path = New.swift;".

(** The four target files of [add_swift_files.py] with Identifiers as
    [fresh_id] makes them. *)
Definition four_entries : list (string * string * string) :=
  [ ("ZoomControl.swift", "62F112DE7F3A4610925B9AD1", "EE41401286FA47C5ABE2FED1");
    ("FlashControl.swift", "1829CC4F2CDD4FB8ADA0C3D0", "AD1ED645E6DD4129A3986BB1");
    ("TimerControl.swift", "B277D4330F9940FE84A08A53", "A5C1745A709642E1BE349D81");
    ("FocusExposureControl.swift", "F9DE2FC197C94D47B28F86EE",
     "FA42DE85792B494F9686E193") ].

(** A source tree for [Z/add_files_to_xcode.py]: one Swift file and one
    Metal file in the folder Core, nothing in the other folders. *)
Definition source_tree (pattern : string) : list string :=
  if String.eqb pattern (AddFilesToXcode.base_path +++ "/Core/**/*.swift")
  then [AddFilesToXcode.base_path +++ "/Core/Engine.swift"]
  else if String.eqb pattern (AddFilesToXcode.base_path +++ "/Core/**/*.metal")
  then [AddFilesToXcode.base_path +++ "/Core/Shaders.metal"]
  else [].

(** A world holding the descriptor of [Z/add_files_to_xcode.py] and that
    source tree. *)
Definition world_z (content : string) : World :=
  {| files := {[ AddFilesToXcode.pbxproj_path := content ]};
     glob := source_tree;
     path_exists := fun _ => true;
     entropy := mix;
     cursor := 0;
     stdout := [] |}.

(** A native target and a Resources phase, as they stand before the
    Sources phase in a descriptor written by Xcode. *)
Definition target_and_resources : string :=
  join nl
    [ "/* Begin PBXNativeTarget section */";
      ind 2 "A1B2C3D4E5F60718293A4B07 /* DualCameraApp */ = {";
      ind 3 "isa = PBXNativeTarget;";
      ind 3 "buildPhases = (";
      ind 4 "A1B2C3D4E5F60718293A4B04 /* Sources */,";
      ind 4 "A1B2C3D4E5F60718293A4B08 /* Resources */,";
      ind 3 ");";
      ind 3 "productName = DualCameraApp;";
      ind 2 "};";
      "/* End PBXNativeTarget section */";
      EmptyString;
      "/* Begin PBXResourcesBuildPhase section */";
      ind 2 "A1B2C3D4E5F60718293A4B08 /* Resources */ = {";
      ind 3 "isa = PBXResourcesBuildPhase;";
      ind 3 "buildActionMask = 2147483647;";
      ind 3 "files = (";
      ind 4 "A1B2C3D4E5F60718293A4B09 /* Main.storyboard in Resources */,";
      ind 3 ");";
      ind 3 "runOnlyForDeploymentPostprocessing = 0;";
      ind 2 "};";
      "/* End PBXResourcesBuildPhase section */";
      EmptyString;
      EmptyString ].

(** [project_a] with that target and that phase before its Sources phase. *)
Definition project_d : string :=
  replace project_a "/* Begin PBXSourcesBuildPhase section */"
    (target_and_resources +++ "/* Begin PBXSourcesBuildPhase section */").

End Samples.

(** ** Observations on runs *)

(** [m] leaves every file as it found it, however it ends. *)
Definition read_only {A} (m : M A) : Prop :=
  forall w, files (run m w) = files w.

(** The world after the lines [ls] were printed. *)
Definition say (w : World) (ls : list string) : World :=
  {| files := files w; glob := glob w; path_exists := path_exists w;
     entropy := entropy w; cursor := cursor w; stdout := stdout w ++ ls |}.

(** The world after [content] was written to [path]. *)
Definition store (w : World) (path content : string) : World :=
  {| files := <[path := content]> (files w); glob := glob w;
     path_exists := path_exists w; entropy := entropy w;
     cursor := cursor w; stdout := stdout w |}.

(** The world after [n] more draws from the random source. *)
Definition advance (w : World) (n : nat) : World :=
  {| files := files w; glob := glob w; path_exists := path_exists w;
     entropy := entropy w; cursor := cursor w + n; stdout := stdout w |}.

(** *** fix_project.py, outcome by outcome *)

(** The text [FixProject.main] writes, when every lookup succeeds. *)
Definition rewritten (content : string) : option string :=
  match FixProject.find_reference content with
  | None => None
  | Some _ =>
      let content := FixProject.remove_stale content in
      match search FixProject.group_re content, FixProject.find_sections content with
      | Some group_match, Some (frs, bfs, sps) =>
          Some (FixProject.insert_entries content group_match frs bfs sps)
      | _, _ => None
      end
  end.

(** What [FixProject.main] prints before it stops with status 1. *)
Definition complaint (content : string) : string :=
  match FixProject.find_reference content with
  | None => "ERROR: Could not find reference file"
  | Some _ =>
      match search FixProject.group_re (FixProject.remove_stale content) with
      | None => "ERROR: Could not find DualCameraApp group"
      | Some _ => "ERROR: Could not find required sections"
      end
  end.

Definition success_report : list string :=
  "âœ… Successfully added files to Xcode project:"
    :: map (fun f => "   - " +++ f) FixProject.files_to_add.

(** *** fix_xcode_project.py: the identifier an allocation yields *)

(** The 24 hexadecimal digits the random source of [w] selects from draw
    number [c] on. *)
Definition digits (w : World) (c : nat) : string :=
  cat (map (fun i => String.substring (entropy w (c + i) mod 16) 1 "0123456789ABCDEF")
           (List.seq 0 24)).

(** The file an allocated pair of identifiers is for. *)
Definition file_of (entry : string * string * string) : string :=
  let '(file, _, _) := entry in file.

(** *** Lines

    A tidy line has content, no newline and nothing blank at its end;
    [tidyb] decides it. *)
Definition tidy (e : string) : Prop :=
  one_line e = true /\ rstrip e = e /\ e <> EmptyString.

Definition tidyb (e : string) : bool :=
  one_line e && String.eqb (rstrip e) e && nonempty e.

(** *** Z/add_files_to_xcode.py: entries a phase can take *)

(** An Identifier is a non-empty word. *)
Definition identifier (s : string) : bool := nonempty s && all_chars word s.

(** An entry whose build-file Identifier is one and whose name holds no
    newline. *)
Definition well_named (e : AddFilesToXcode.source_entry) : bool :=
  identifier (AddFilesToXcode.build_file_id e) && one_line (AddFilesToXcode.name e).

(** The text of a member list ends with a blank line, as it does when the
    closing parenthesis stands on a line of its own. *)
Definition ends_with_blank_line (body : string) : bool :=
  blank (List.last (split_nl body) EmptyString).

(** The members that a list of lines names. *)
Definition ids_of_lines (lines : list string) : list string :=
  map Model.leading_word (List.filter nonempty (map strip lines)).

(** A member line as lines 81 and 157 write it: four tabs, the Identifier,
    the name with its phase in a comment, a comma. *)
Definition member_line (id comment : string) : string :=
  ind 4 (id +++ " /* " +++ comment +++ " */,").

(** *** Identifiers as the allocators make them *)

(** Twenty-four characters, each a digit or a letter from A to F: what the
    pattern [[A-F0-9]{24}] of [fix_project.py] accepts. *)
Definition hex24 (s : string) : bool :=
  Nat.eqb (String.length s) 24 && all_chars hexAF s.

(** The 32 digits of [uuid.uuid4().hex] that the random source of [w]
    selects from draw number [c] on. *)
Definition uuid_hex (w : World) (c : nat) : string :=
  cat (map (fun '(i, d) =>
              let v := if Nat.eqb i 12 then 4
                       else if Nat.eqb i 16 then 8 + d mod 4
                       else d mod 16 in
              String.substring v 1 "0123456789abcdef")
           (combine (List.seq 0 32)
                    (map (fun i => entropy w (c + i)) (List.seq 0 32)))).

(** A lower-case hexadecimal digit, as [hexdigest()] and [uuid4().hex]
    write them. *)
Definition hex_lower (c : ascii) : bool := is_digit c || between 97 102 c.

(** *** add_swift_files.py: the member lists it writes *)

(** Text without a backslash: [re.sub] reads it as a template unchanged. *)
Definition plain (s : string) : bool := all_chars (other_than "\") s.

(* add_swift_files.py:50 *)
Definition new_build_file_refs (ids : list (string * string * string)) : string :=
  join nl (map (fun '(f, r, b) =>
                  tab +++ tab +++ tab +++ tab +++ b +++ " /* " +++ f +++ " in Sources */,")
               ids).

(* add_swift_files.py:49, 51 *)
Definition new_source_files (sources_body : string)
    (ids : list (string * string * string)) : string :=
  strip sources_body +++ nl +++ new_build_file_refs ids.

(* add_swift_files.py:58 *)
Definition new_children_refs (ids : list (string * string * string)) : string :=
  join nl (map (fun '(f, r, b) =>
                  tab +++ tab +++ tab +++ tab +++ r +++ " /* " +++ f +++ " */,")
               ids).

(* add_swift_files.py:57, 59 *)
Definition new_children (group_body : string)
    (ids : list (string * string * string)) : string :=
  strip group_body +++ nl +++ new_children_refs ids.

(** What lines 53 and 61 put between the opening parenthesis of a list
    and its closing: a newline, the members, a newline and three tabs. *)
Definition listed (members : string) : string :=
  nl +++ members +++ nl +++ tab +++ tab +++ tab.

(* add_swift_files.py:53: the replacement template of [re.sub] *)
Definition sources_template (sources_body : string)
    (ids : list (string * string * string)) : string :=
  AddSwiftFiles.bs +++ "1" +++ AddSwiftFiles.bs +++ "n"
    +++ new_source_files sources_body ids
    +++ AddSwiftFiles.bs +++ "n" +++ AddSwiftFiles.bs +++ "t" +++ AddSwiftFiles.bs +++ "t"
    +++ AddSwiftFiles.bs +++ "t" +++ AddSwiftFiles.bs +++ "2".

(** The identifiers of the file references and of the build files. *)
Definition ref_of (entry : string * string * string) : string :=
  let '(_, r, _) := entry in r.
Definition build_of (entry : string * string * string) : string :=
  let '(_, _, b) := entry in b.

(** An allocated entry whose identifiers are words and whose file name
    holds no newline. *)
Definition well_formed (entry : string * string * string) : bool :=
  let '(f, r, b) := entry in identifier r && identifier b && one_line f.

(** The text [s], which stands at position [base] of a larger text, with
    the span of each match of [ms] replaced by what [f] makes of the
    match; the matches are in order and do not overlap. *)
Fixpoint spliced (f : mobj -> string) (base : nat) (s : string) (ms : list mobj)
    : string :=
  match ms with
  | [] => s
  | m :: ms' =>
      take (m_start m - base) s +++ f m
        +++ spliced f (m_end m) (drop (m_end m - base) s) ms'
  end.

(** *** Z/add_files_to_xcode.py: the texts its two substitutions work on *)

(* Z/add_files_to_xcode.py:20-26: what the scan finds in the world [w] *)
Definition scanned (w : World) : list string :=
  concat
    (map (fun folder =>
            let folder_path := AddFilesToXcode.base_path +++ "/" +++ folder in
            if path_exists w folder_path
            then (glob w (folder_path +++ "/**/*.swift")
                    ++ glob w (folder_path +++ "/**/*.metal"))%list
            else [])
         AddFilesToXcode.folders_to_add).

(* Z/add_files_to_xcode.py:52-75: the records of the source files inserted *)
Definition source_records_added (content : string)
    (sources : list AddFilesToXcode.source_entry) : string :=
  let content :=
    replace content AddFilesToXcode.pbxbuildfile_section
      (cat (map AddFilesToXcode.build_entry sources)
         +++ AddFilesToXcode.pbxbuildfile_section) in
  replace content AddFilesToXcode.pbxfilereference_section
    (cat (map AddFilesToXcode.file_ref_entry sources)
       +++ AddFilesToXcode.pbxfilereference_section).

(* Z/add_files_to_xcode.py:125-146: the records of the frameworks inserted *)
Definition framework_records_added (content : string)
    (fws : list AddFilesToXcode.source_entry) : string :=
  let content :=
    replace content AddFilesToXcode.pbxfilereference_section
      (cat (map AddFilesToXcode.fw_ref_entry fws)
         +++ AddFilesToXcode.pbxfilereference_section) in
  replace content AddFilesToXcode.pbxbuildfile_section
    (cat (map AddFilesToXcode.fw_build_entry fws)
       +++ AddFilesToXcode.pbxbuildfile_section).

(** *** The texts the group steps work on *)

(* add_swift_files.py:38-46: the records of the four files inserted *)
Definition swift_records_added (content : string) (file_ref_section build_file_section : mobj)
    (ids : list (string * string * string)) : string :=
  let new_file_refs := map (fun '(f, r, b) => (r, AddSwiftFiles.file_ref_line r f)) ids in
  let new_build_files :=
    map (fun '(f, r, b) => (b, AddSwiftFiles.build_file_line b r f)) ids in
  let file_ref_insert :=
    replace (group file_ref_section 1) AddSwiftFiles.end_file_reference
      (cat (map snd new_file_refs) +++ AddSwiftFiles.end_file_reference) in
  let content := replace content (group file_ref_section 1) file_ref_insert in
  let build_file_insert :=
    replace (group build_file_section 1) AddSwiftFiles.end_build_file
      (cat (map snd new_build_files) +++ AddSwiftFiles.end_build_file) in
  replace content (group build_file_section 1) build_file_insert.

(* fix_project.py:83-91: the records of the four files inserted *)
Definition fixed_records_added (content : string)
    (file_ref_section_match build_file_section_match : mobj) : string :=
  let content :=
    replace content (group file_ref_section_match 3)
      (cat FixProject.new_file_refs +++ group file_ref_section_match 3) in
  replace content (group build_file_section_match 3)
    (cat FixProject.new_build_files +++ group build_file_section_match 3).

(** The children list of a group as it stands in the text. *)
Definition children_list (body : string) : string :=
  "children = (" +++ body +++ ");".

(** * Properties *)

Open Scope list_scope.

(** ** Strings *)

Section StringFacts.

Lemma append_nil_r (s : string) : s +++ EmptyString = s.
Proof. induction s as [|c s IH]; simpl; [reflexivity | now rewrite IH]. Qed.

Lemma append_assoc (a b c : string) : (a +++ b) +++ c = a +++ b +++ c.
Proof. induction a as [|x a IH]; simpl; [reflexivity | now rewrite IH]. Qed.

Lemma length_append (a b : string) :
  String.length (a +++ b) = String.length a + String.length b.
Proof. induction a as [|x a IH]; simpl; [reflexivity | now rewrite IH]. Qed.

Lemma split_nl_not_nil (s : string) : split_nl s <> [].
Proof.
  induction s as [|c s IH]; simpl; [discriminate|].
  destruct (is_nl c); [discriminate|].
  destruct (split_nl s); [contradiction | discriminate].
Qed.

Lemma is_nl_true (c : ascii) : is_nl c = true -> String c EmptyString = nl.
Proof.
  unfold is_nl, code, nl, chr. intros H. apply N.eqb_eq in H.
  rewrite <- (ascii_N_embedding c), H. reflexivity.
Qed.

(** [join] of a list with a known head. *)
Lemma join_cons (sep h : string) (t : list string) :
  t <> [] -> join sep (h :: t) = h +++ sep +++ join sep t.
Proof. destruct t; [contradiction | reflexivity]. Qed.

(** ['\n'.join(s.split('\n')) == s], the line-level round trip. *)
Lemma join_split_nl (s : string) : join nl (split_nl s) = s.
Proof.
  induction s as [|c s IH]; [reflexivity|].
  simpl split_nl. destruct (is_nl c) eqn:E.
  - rewrite join_cons by apply split_nl_not_nil.
    rewrite IH. apply is_nl_true in E. rewrite <- E. reflexivity.
  - pose proof (split_nl_not_nil s) as Hne.
    destruct (split_nl s) as [|h t]; [contradiction|].
    destruct t as [|h' t].
    + simpl in *. now rewrite IH.
    + change (join nl (String c h :: h' :: t))
        with (String c (h +++ nl +++ join nl (h' :: t))).
      now rewrite <- IH.
Qed.

End StringFacts.

(** ** Effects: what a computation may touch *)

Section Frames.

Lemma read_only_ret {A} (a : A) : read_only (ret a).
Proof. intros w. reflexivity. Qed.

Lemma read_only_exit {A} (c : nat) : read_only (@sys_exit A c).
Proof. intros w. reflexivity. Qed.

Lemma read_only_raise {A} (e : string) : read_only (@raise A e).
Proof. intros w. reflexivity. Qed.

Lemma read_only_print (line : string) : read_only (print line).
Proof. intros w. reflexivity. Qed.

Lemma read_only_read_file (p : string) : read_only (read_file p).
Proof. intros w. unfold run, read_file. now destruct (files w !! p). Qed.

Lemma read_only_glob (p : string) : read_only (glob_glob p).
Proof. intros w. reflexivity. Qed.

Lemma read_only_exists (p : string) : read_only (os_path_exists p).
Proof. intros w. reflexivity. Qed.

Lemma read_only_draw : read_only draw.
Proof. intros w. reflexivity. Qed.

Lemma read_only_bind {A B} (m : M A) (k : A -> M B) :
  read_only m -> (forall a, read_only (k a)) -> read_only (bind m k).
Proof.
  intros Hm Hk w. unfold run, bind. specialize (Hm w). unfold run in Hm.
  destruct (m w) as [[a|c|e] w']; simpl in *; try assumption.
  rewrite <- Hm. apply Hk.
Qed.

Lemma read_only_for_each {A} (l : list A) (body : A -> M unit) :
  (forall x, read_only (body x)) -> read_only (for_each l body).
Proof.
  intros Hb. induction l as [|x l IH]; simpl.
  - apply read_only_ret.
  - apply read_only_bind; [apply Hb | intros _; apply IH].
Qed.

Lemma read_only_map_m {A B} (f : A -> M B) (l : list A) :
  (forall x, read_only (f x)) -> read_only (map_m f l).
Proof.
  intros Hf. induction l as [|x l IH]; simpl.
  - apply read_only_ret.
  - apply read_only_bind; [apply Hf|]. intros y.
    apply read_only_bind; [apply IH|]. intros ys. apply read_only_ret.
Qed.

Lemma read_only_repeat_m {A} (n : nat) (m : M A) :
  read_only m -> read_only (repeat_m n m).
Proof.
  intros Hm. induction n as [|n IH]; simpl.
  - apply read_only_ret.
  - apply read_only_bind; [apply Hm|]. intros y.
    apply read_only_bind; [apply IH|]. intros ys. apply read_only_ret.
Qed.

End Frames.

Create HintDb frame.
#[export] Hint Resolve read_only_ret read_only_exit read_only_raise read_only_print
  read_only_read_file read_only_glob read_only_exists read_only_draw
  read_only_for_each read_only_map_m read_only_repeat_m : frame.

Ltac frame :=
  repeat first
    [ progress eauto with frame
    | apply read_only_bind; [| intro]
    | match goal with |- read_only (match ?x with _ => _ end) => destruct x end ].

(** ** Printing *)

Section Printing.

Lemma say_nil (w : World) : say w [] = w.
Proof. destruct w; unfold say; simpl. now rewrite app_nil_r. Qed.

Lemma say_say (w : World) (a b : list string) : say (say w a) b = say w (a ++ b).
Proof. unfold say; simpl. now rewrite <- app_assoc. Qed.

Lemma print_say (l : string) (w : World) : print l w = (Ret tt, say w [l]).
Proof. reflexivity. Qed.

Lemma for_each_print {A} (g : A -> string) (l : list A) (w : World) :
  for_each l (fun x => print (g x)) w = (Ret tt, say w (map g l)).
Proof.
  revert w. induction l as [|x l IH]; intros w; simpl.
  - now rewrite say_nil.
  - unfold bind. rewrite print_say, IH, say_say. reflexivity.
Qed.

Lemma mem_In (x : string) (l : list string) : mem x l = true <-> In x l.
Proof.
  unfold mem. rewrite existsb_exists. split.
  - intros (y & Hy & E). apply String.eqb_eq in E. now subst.
  - intros H. exists x. split; [assumption | apply String.eqb_refl].
Qed.

Lemma In_insert_sorted (x y : string) (l : list string) :
  In x (insert_sorted y l) <-> x = y \/ In x l.
Proof.
  induction l as [|z l IH]; simpl.
  - intuition.
  - destruct (String.leb y z); simpl; rewrite ?IH; intuition.
Qed.

Lemma In_sorted (x : string) (l : list string) : In x (sorted l) <-> In x l.
Proof.
  induction l as [|y l IH]; simpl; [reflexivity|].
  rewrite In_insert_sorted, IH. intuition.
Qed.

Lemma append_inj_l (p a b : string) : p +++ a = p +++ b -> a = b.
Proof. induction p as [|c p IH]; simpl; [auto | intros H; injection H; auto]. Qed.

End Printing.

(** ** Running a script step by step *)

Section Stepping.

Lemma bind_ret {A B} (a : A) (k : A -> M B) (w : World) : bind (ret a) k w = k a w.
Proof. reflexivity. Qed.

Lemma bind_bind {A B C} (m : M A) (f : A -> M B) (g : B -> M C) (w : World) :
  bind (bind m f) g w = bind m (fun x => bind (f x) g) w.
Proof. unfold bind. destruct (m w) as [[a|c|e] w']; reflexivity. Qed.

Lemma bind_print {B} (l : string) (k : unit -> M B) (w : World) :
  bind (print l) k w = k tt (say w [l]).
Proof. reflexivity. Qed.

Lemma bind_glob {B} (p : string) (k : list string -> M B) (w : World) :
  bind (glob_glob p) k w = k (glob w p) w.
Proof. reflexivity. Qed.

Lemma bind_read_file {B} (p : string) (k : string -> M B) (w : World) :
  bind (read_file p) k w =
  match files w !! p with
  | Some c => k c w
  | None => (Raise "FileNotFoundError", w)
  end.
Proof. unfold bind, read_file. now destruct (files w !! p). Qed.

Lemma bind_for_each_print {A B} (g : A -> string) (l : list A)
    (k : unit -> M B) (w : World) :
  bind (for_each l (fun x => print (g x))) k w = k tt (say w (map g l)).
Proof. unfold bind. now rewrite for_each_print. Qed.

End Stepping.

(** ** update_project.py only reads *)

Lemma update_project_read_only : read_only UpdateProject.main.
Proof.
  unfold UpdateProject.main, UpdateProject.get_swift_files_in_directory,
    UpdateProject.get_swift_files_in_project.
  frame.
Qed.

(** C10: [update_project.py] never modifies the descriptor.  For every
    world, after [main] every file (the descriptor and all others) has the
    content it had before; the project file is only read.  When the
    descriptor exists the run ends normally and the lines it prints of the
    form ["  - " f] name exactly the Swift files of the directory that no
    [PBXFileReference] entry of the project names; when it does not exist
    the run dies on [FileNotFoundError], again without writing. *)
Theorem update_project_never_writes (w : World) :
  files (run UpdateProject.main w) = files w /\
  match descriptor w with
  | None => result UpdateProject.main w = Raise "FileNotFoundError"
  | Some content =>
      result UpdateProject.main w = Ret tt /\
      exists report : list string,
        stdout (run UpdateProject.main w) = (stdout w ++ report)%list /\
        forall f, In ("  - " +++ f) report <->
                  In f (map basename (glob w "DualCameraApp/*.swift")) /\
                  ~ In f (FixXcodeProject.project_files content)
  end.
Proof.
  split; [apply update_project_read_only|].
  unfold descriptor, result, run, UpdateProject.main,
    UpdateProject.get_swift_files_in_directory,
    UpdateProject.get_swift_files_in_project.
  rewrite bind_print, bind_bind, bind_glob, bind_ret, bind_bind, bind_read_file.
  change (files (say w _)) with (files w).
  destruct (files w !! project_file) as [content|]; [|reflexivity].
  rewrite bind_ret.
  set (dir := sorted (map basename _)).
  set (prj := sorted (map _ (finditer _ content))).
  set (missing := List.filter _ dir).
  assert (Hmiss : forall f, In f missing <->
            In f (map basename (glob w "DualCameraApp/*.swift")) /\
            ~ In f (FixXcodeProject.project_files content)).
  { intros f. unfold missing. rewrite filter_In. unfold dir, prj.
    rewrite In_sorted, negb_true_iff, <- not_true_iff_false, mem_In, In_sorted.
    reflexivity. }
  clearbody missing dir prj.
  rewrite !bind_print, !say_say.
  destruct missing as [|f0 missing].
  - rewrite print_say, say_say. simpl. split; [reflexivity|].
    eexists. split; [reflexivity|]. intros f. rewrite <- Hmiss. simpl.
    split; [|tauto]. intros H.
    repeat match goal with H : _ \/ _ |- _ => destruct H as [H|H] end;
      try contradiction; unfold nl, chr in H; simpl in H; discriminate H.
  - rewrite bind_print, say_say, bind_for_each_print, say_say, bind_print, say_say.
    rewrite print_say, say_say.
    split; [reflexivity|].
    eexists. split; [reflexivity|]. intros f. rewrite <- Hmiss.
    rewrite !in_app_iff, in_map_iff. split.
    + intros H.
      repeat match goal with H : _ \/ _ |- _ => destruct H as [H|H] end;
        try (destruct H as [H|[]]; unfold nl, chr in H; simpl in H; discriminate H).
      destruct H as (x & E & Hx). apply (append_inj_l "  - ") in E. now subst.
    + intros H. left. left. right. exists f. auto.
Qed.

(** ** fix_xcode_project.py: what a run does, case by case *)

Section FixXcodeProjectRuns.

Import FixXcodeProject.

Lemma insert_all_nil (at_ : nat) (lines : list string) :
  insert_all at_ [] lines = lines.
Proof. reflexivity. Qed.

(** With nothing to add, splitting the text into lines, inserting and
    joining again gives the text back. *)
Lemma insert_additions_nil (content : string) (b r s g : nat) :
  insert_additions content b r s g [] = content.
Proof.
  unfold insert_additions. simpl map. rewrite !insert_all_nil.
  apply join_split_nl.
Qed.

Lemma get_missing_run (w : World) (content : string) :
  descriptor w = Some content ->
  get_missing_swift_files w =
  (Ret (missing_files (map basename (glob w "DualCameraApp/*.swift")) content), w).
Proof.
  intros H. unfold get_missing_swift_files.
  rewrite bind_glob, bind_read_file. unfold descriptor in H. now rewrite H.
Qed.

(** The run of [update_project_file] up to the choice of its branch. *)
Lemma update_project_file_run (w : World) (content : string) :
  descriptor w = Some content ->
  update_project_file w =
  match missing_files (map basename (glob w "DualCameraApp/*.swift")) content with
  | [] => (Ret tt, say w ["No missing files found!"])
  | (_ :: _) as missing =>
      let w' := say w ["Adding " +++ str_of_nat (List.length missing)
                         +++ " missing Swift files to project..."] in
      match find_sections content with
      | None => (Ret tt, say w' ["Could not find required sections in project file!"])
      | Some (bs, rs, ss, gs) =>
          (let* ids := map_m draw_ids missing in
           write_file project_file
             (insert_additions content (m_end bs) (m_end rs) (m_end ss) (m_end gs) ids) ;;
           print ("Successfully added " +++ str_of_nat (List.length missing)
                    +++ " Swift files to the project!") ;;
           for_each missing (fun file => print ("  + " +++ file))) w'
      end
  end.
Proof.
  intros H. unfold update_project_file.
  rewrite bind_read_file. pose proof H as H'. unfold descriptor in H'. rewrite H'.
  unfold bind at 1. rewrite (get_missing_run w content H).
  destruct (missing_files _ content) as [|f l]; [reflexivity|].
  rewrite bind_print.
  destruct (find_sections content) as [[[[bs rs] ss] gs]|]; reflexivity.
Qed.

End FixXcodeProjectRuns.

(** C4: round-trip stability of an untouched descriptor.  When no Swift
    file of the directory is missing from the project, [update_project_file]
    leaves the descriptor (and every other file) exactly as it was: it
    returns before writing.  And the pair the script uses to take the text
    apart and put it together again, [split('\n')] and ['\n'.join], is the
    identity when nothing is inserted in between, wherever the insertion
    points lie. *)
Theorem untouched_descriptor_is_stable (w : World) (content : string) :
  descriptor w = Some content ->
  FixXcodeProject.missing_files
    (map basename (glob w "DualCameraApp/*.swift")) content = [] ->
  files (run FixXcodeProject.update_project_file w) = files w /\
  descriptor (run FixXcodeProject.update_project_file w) = Some content /\
  join nl (split_nl content) = content /\
  forall b r s g, FixXcodeProject.insert_additions content b r s g [] = content.
Proof.
  intros Hd Hm. unfold run.
  rewrite (update_project_file_run w content Hd), Hm. simpl.
  repeat split; auto using join_split_nl, insert_additions_nil.
Qed.

Lemma untouched_descriptor_is_stable_witness :
  let w := Samples.world project_file Samples.project_b
             ["DualCameraApp/AppDelegate.swift";
              "DualCameraApp/CameraPreviewView.swift"] Samples.mix in
  files (run FixXcodeProject.update_project_file w) = files w /\
  descriptor (run FixXcodeProject.update_project_file w) = Some Samples.project_b /\
  join nl (split_nl Samples.project_b) = Samples.project_b /\
  forall b r s g,
    FixXcodeProject.insert_additions Samples.project_b b r s g [] = Samples.project_b.
Proof.
  apply (untouched_descriptor_is_stable
           (Samples.world project_file Samples.project_b
              ["DualCameraApp/AppDelegate.swift";
               "DualCameraApp/CameraPreviewView.swift"] Samples.mix)
           Samples.project_b).
  - vm_compute. reflexivity.
  - vm_compute. reflexivity.
Defined.

(** ** fix_project.py: what a run does, case by case *)

Section FixProjectRuns.

Import FixProject.

Lemma bind_write_file {B} (p c : string) (k : unit -> M B) (w : World) :
  bind (write_file p c) k w = k tt (store w p c).
Proof. reflexivity. Qed.

Lemma main_run (w : World) :
  main w =
  match descriptor w with
  | None => (Raise "FileNotFoundError", w)
  | Some content =>
      match rewritten content with
      | Some text => (Ret tt, say (store w project_file text) success_report)
      | None => (Exit 1, say w [complaint content])
      end
  end.
Proof.
  unfold main, descriptor. rewrite bind_read_file.
  destruct (files w !! project_file) as [content|]; [|reflexivity].
  unfold rewritten, complaint.
  destruct (find_reference content) as [p|]; [|reflexivity].
  destruct (search group_re (remove_stale content)) as [g|]; [|reflexivity].
  destruct (find_sections (remove_stale content)) as [[[frs bfs] sps]|];
    [|reflexivity].
  rewrite bind_write_file, bind_print, for_each_print, say_say. reflexivity.
Qed.

End FixProjectRuns.

(** C7, as the code has it: a lookup that the script guards aborts the
    run before anything is written.  For [fix_project.py] (lines 26-28,
    50-56): if the AppDelegate.swift entries, the DualCameraApp group or
    one of the three sections (a begin marker with its end marker) cannot
    be found in the descriptor, the run stops with exit status 1 and every
    file is byte for byte what it was; the descriptor is written only on
    the path where every lookup has succeeded and all insertions have been
    computed.  For [fix_xcode_project.py] (lines 55-62): if one of its four
    insertion points (three begin markers and the group header) cannot be
    found, [update_project_file] returns without writing.  Nothing else is
    looked up: no script reads the descriptor as a whole. *)
Theorem failed_lookup_writes_nothing (w : World) (content : string) :
  descriptor w = Some content ->
  (rewritten content = None ->
     result FixProject.main w = Exit 1 /\
     files (run FixProject.main w) = files w) /\
  (forall text, rewritten content = Some text ->
     result FixProject.main w = Ret tt /\
     descriptor (run FixProject.main w) = Some text) /\
  (FixXcodeProject.find_sections content = None ->
     result FixXcodeProject.update_project_file w = Ret tt /\
     files (run FixXcodeProject.update_project_file w) = files w).
Proof.
  intros Hd. unfold result, run. rewrite main_run, Hd.
  rewrite (update_project_file_run w content Hd).
  split; [|split].
  - intros ->. split; reflexivity.
  - intros text ->. split; [reflexivity|].
    unfold descriptor. simpl. apply lookup_insert_eq.
  - intros ->.
    destruct (FixXcodeProject.missing_files _ content); split; reflexivity.
Qed.

(** A file-reference section whose end marker is missing, in a descriptor
    without the group header [fix_xcode_project.py] looks for; the
    directory holds a file the descriptor does not name, so that
    [update_project_file] gets to its lookups. *)
Lemma failed_lookup_writes_nothing_witness :
  let content :=
    replace Samples.project_a "/* End PBXFileReference section */" EmptyString in
  let w := Samples.world project_file content ["DualCameraApp/New.swift"] Samples.mix in
  (result FixProject.main w = Exit 1 /\ files (run FixProject.main w) = files w) /\
  (result FixXcodeProject.update_project_file w = Ret tt /\
   files (run FixXcodeProject.update_project_file w) = files w) /\
  stdout (run FixProject.main w) = ["ERROR: Could not find required sections"] /\
  stdout (run FixXcodeProject.update_project_file w) =
    [ "Adding 1 missing Swift files to project...";
      "Could not find required sections in project file!" ].
Proof.
  intros content w.
  destruct (failed_lookup_writes_nothing w content) as (H1 & _ & H3).
  - vm_compute. reflexivity.
  - split; [apply H1 | split; [apply H3 | split]]; vm_compute; reflexivity.
Defined.

(** The end marker is what the lookup of the witness misses: on the
    unmodified sample every lookup succeeds. *)
Example sample_lookups_succeed :
  match rewritten Samples.project_a with Some _ => True | None => False end.
Proof. vm_compute. exact I. Qed.

(** A begin marker whose end marker is missing does not stop a run when the
    script does not look for that end marker.  [fix_xcode_project.py]
    looks for begin markers only: without the end marker of the
    PBXSourcesBuildPhase section it adds the file the descriptor does not
    name and rewrites the descriptor.  [fix_project.py] does not look for
    the PBXGroup section: without its end marker it rewrites the
    descriptor all the same. *)
Lemma missing_end_marker_is_not_noticed :
  let content_b :=
    replace Samples.project_b "/* End PBXSourcesBuildPhase section */" EmptyString in
  let w_b :=
    Samples.world project_file content_b ["DualCameraApp/New.swift"] Samples.mix in
  let content_a :=
    replace Samples.project_a "/* End PBXGroup section */" EmptyString in
  let w_a := Samples.world project_file content_a [] Samples.mix in
  (contains content_b "/* Begin PBXSourcesBuildPhase section */" = true /\
   contains content_b "/* End PBXSourcesBuildPhase section */" = false /\
   result FixXcodeProject.update_project_file w_b = Ret tt /\
   match descriptor (run FixXcodeProject.update_project_file w_b) with
   | Some text =>
       String.eqb text content_b = false /\
       contains text "/* New.swift */ = {isa = PBXFileReference;" = true
   | None => False
   end) /\
  (contains content_a "/* Begin PBXGroup section */" = true /\
   contains content_a "/* End PBXGroup section */" = false /\
   result FixProject.main w_a = Ret tt /\
   match descriptor (run FixProject.main w_a) with
   | Some text =>
       String.eqb text content_a = false /\
       contains text "/* ZoomControl.swift */ = {isa = PBXFileReference;" = true
   | None => False
   end).
Proof. vm_compute. repeat split; reflexivity. Qed.

(** ** fix_project.py is a function of the descriptor text *)

(** The digest function on the test suite of RFC 1321, appendix A.5. *)
Example md5_test_suite :
  MD5.hexdigest EmptyString = "d41d8cd98f00b204e9800998ecf8427e" /\
  MD5.hexdigest "abc" = "900150983cd24fb0d6963f7d28e17f72" /\
  MD5.hexdigest "message digest" = "f96b697d7cb7938d525a2f31aaf161d0" /\
  MD5.hexdigest
    "12345678901234567890123456789012345678901234567890123456789012345678901234567890"
    = "57edf4a22be3c955ac49da2e2107b67a".
Proof. vm_compute. repeat split; reflexivity. Qed.

(** The identifiers [generate_id] gives the four target files, as
    [hashlib.md5] computes them. *)
Example generate_id_values :
  map FixProject.generate_id FixProject.files_to_add =
  [ "D0176F399AE93F30FC790A70"; "EA066B04FB8A2629C4E6AAE4";
    "E5467126C91AE54F3210C450"; "13F56600E7409B90F6F978F2" ] /\
  map (fun f => FixProject.generate_id ("build_" +++ f)) FixProject.files_to_add =
  [ "3ABD5BEA1936338D45EAA39D"; "D2AB49B61F99ADF67A3E80B2";
    "CAE167E45345D7FDA8CBC94C"; "6E3C4506A54F0A9697D2813C" ].
Proof. split; vm_compute; reflexivity. Qed.



(** Deterministic is not idempotent: run on its own output, the script
    deletes the heads of the entries it wrote before (line 37 removes from
    an identifier up to the next semicolon), no longer finds the group and
    stops with status 1. *)
Example fix_project_rerun :
  let w1 := run FixProject.main
              (Samples.world project_file Samples.project_a [] Samples.mix) in
  result FixProject.main w1 = Exit 1 /\
  stdout (run FixProject.main w1) =
    (stdout w1 ++ ["ERROR: Could not find DualCameraApp group"])%list.
Proof. vm_compute. split; reflexivity. Qed.

(** ** fix_xcode_project.py: identifiers are drawn, not checked *)

Section Allocation.

Import FixXcodeProject.

Lemma advance_0 (w : World) : advance w 0 = w.
Proof. destruct w; unfold advance; simpl. now rewrite Nat.add_0_r. Qed.

Lemma advance_advance (w : World) (a b : nat) :
  advance (advance w a) b = advance w (a + b).
Proof. unfold advance; simpl. now rewrite Nat.add_assoc. Qed.

Lemma random_choice_run (seq : string) (w : World) :
  random_choice seq w =
  (Ret (String.substring (entropy w (cursor w) mod String.length seq) 1 seq),
   advance w 1).
Proof.
  unfold random_choice, bind, draw, ret, advance. simpl.
  now rewrite Nat.add_1_r.
Qed.

Lemma repeat_choice_run (seq : string) (n : nat) (w : World) :
  repeat_m n (random_choice seq) w =
  (Ret (map (fun i => String.substring
                        (entropy w (cursor w + i) mod String.length seq) 1 seq)
            (List.seq 0 n)),
   advance w n).
Proof.
  revert w. induction n as [|n IH]; intros w.
  - simpl. now rewrite advance_0.
  - simpl repeat_m. unfold bind at 1. rewrite random_choice_run.
    unfold bind at 1. rewrite IH. unfold ret.
    rewrite advance_advance. f_equal. f_equal.
    simpl List.seq. simpl map. rewrite Nat.add_0_r. f_equal.
    rewrite <- seq_shift, map_map. apply map_ext. intros i.
    simpl. now rewrite Nat.add_1_r, Nat.add_succ_r.
Qed.

Lemma generate_uuid_run (w : World) :
  generate_uuid w = (Ret (digits w (cursor w)), advance w 24).
Proof.
  unfold generate_uuid. unfold bind. now rewrite repeat_choice_run.
Qed.

Lemma draw_ids_run (file : string) (w : World) :
  draw_ids file w =
  (Ret (file, digits w (cursor w), digits w (cursor w + 24)), advance w 48).
Proof.
  unfold draw_ids. unfold bind at 1. rewrite generate_uuid_run.
  unfold bind at 1. rewrite generate_uuid_run. unfold ret.
  now rewrite advance_advance.
Qed.

Lemma map_m_draw_ids_run (l : list string) (w : World) :
  exists ids,
    map_m draw_ids l w = (Ret ids, advance w (48 * List.length l)) /\
    map file_of ids = l.
Proof.
  revert w. induction l as [|f l IH]; intros w.
  - exists []. simpl. rewrite advance_0. auto.
  - destruct (IH (advance w 48)) as (ids & Hrun & Hfiles).
    eexists (_ :: ids). simpl map_m. unfold bind at 1. rewrite draw_ids_run.
    unfold bind at 1. rewrite Hrun. unfold ret. rewrite advance_advance.
    replace (48 * List.length (f :: l)) with (48 + 48 * List.length l)
      by (simpl List.length; lia).
    split; [reflexivity|]. simpl. now rewrite Hfiles.
Qed.

(** A hexadecimal digit determines the number below 16 it stands for. *)
Lemma hex_digit_inj (a b : nat) :
  a < 16 -> b < 16 ->
  String.substring a 1 "0123456789ABCDEF" = String.substring b 1 "0123456789ABCDEF" ->
  a = b.
Proof.
  intros Ha Hb.
  do 16 (destruct a as [|a]; [do 16 (destruct b as [|b]; [simpl; congruence|]); lia|]).
  lia.
Qed.

Lemma hex_digit_single (a : nat) :
  a < 16 -> exists c, String.substring a 1 "0123456789ABCDEF" = String c EmptyString.
Proof.
  intros Ha. do 16 (destruct a as [|a]; [eexists; reflexivity|]). lia.
Qed.

Lemma cat_map_eq_iff (d : nat -> string) (f1 f2 : nat -> nat) (l : list nat) :
  (forall n, n < 16 -> exists c, d n = String c EmptyString) ->
  (forall a b, a < 16 -> b < 16 -> d a = d b -> a = b) ->
  (forall i, f1 i < 16) -> (forall i, f2 i < 16) ->
  cat (map (fun i => d (f1 i)) l) = cat (map (fun i => d (f2 i)) l) <->
  forall i, In i l -> f1 i = f2 i.
Proof.
  intros Hsingle Hinj H1 H2. induction l as [|a l IH]; simpl.
  - split; [intros _ i [] | reflexivity].
  - destruct (Hsingle (f1 a) (H1 a)) as (x & Hx).
    destruct (Hsingle (f2 a) (H2 a)) as (y & Hy).
    split.
    + intros E. rewrite Hx, Hy in E. simpl in E. injection E as Exy Erest.
      intros i [<-|Hi].
      * apply Hinj; auto. rewrite Hx, Hy. now subst.
      * now apply IH.
    + intros E. rewrite (E a) by auto. f_equal. apply IH. auto.
Qed.

Lemma digits_eq_iff (w : World) (c1 c2 : nat) :
  digits w c1 = digits w c2 <->
  forall i, i < 24 -> entropy w (c1 + i) mod 16 = entropy w (c2 + i) mod 16.
Proof.
  unfold digits.
  rewrite (cat_map_eq_iff (fun n => String.substring n 1 "0123456789ABCDEF")
             (fun i => entropy w (c1 + i) mod 16)
             (fun i => entropy w (c2 + i) mod 16)).
  - split; intros H i Hi; apply H; [apply in_seq; lia | apply in_seq in Hi; lia].
  - apply hex_digit_single.
  - apply hex_digit_inj.
  - intros i. apply Nat.mod_upper_bound. discriminate.
  - intros i. apply Nat.mod_upper_bound. discriminate.
Qed.

End Allocation.

(** C2, as the code has it: an Identifier is drawn, never checked.
    [generate_uuid] returns the 24 hexadecimal digits that the next 24
    draws of the random source select and consumes exactly those 24 draws,
    whatever the descriptor contains: the result is not compared with any
    existing Identifier and is never redrawn.  The two Identifiers
    allocated for one file (file reference first, build file second) are
    therefore equal exactly when the two runs of 24 draws agree modulo 16
    position by position. *)
Theorem identifiers_are_drawn_unchecked (w : World) (file : string) :
  FixXcodeProject.generate_uuid w = (Ret (digits w (cursor w)), advance w 24) /\
  result (FixXcodeProject.draw_ids file) w =
    Ret (file, digits w (cursor w), digits w (cursor w + 24)) /\
  (digits w (cursor w) = digits w (cursor w + 24) <->
   forall i, i < 24 ->
     entropy w (cursor w + i) mod 16 = entropy w (cursor w + 24 + i) mod 16).
Proof.
  split; [apply generate_uuid_run|]. split.
  - unfold result. now rewrite draw_ids_run.
  - apply digits_eq_iff.
Qed.

(** The claim as stated fails: with a random source that repeats itself,
    the file reference and the build file of a new file get the same
    Identifier, and the descriptor written has two records sharing it. *)
Lemma identifiers_can_collide :
  let w := Samples.world project_file Samples.project_b
             ["DualCameraApp/New.swift"] (fun _ => 0) in
  Model.unique_ids Samples.project_b = true /\
  result (FixXcodeProject.draw_ids "New.swift") w =
    Ret ("New.swift", "000000000000000000000000", "000000000000000000000000") /\
  match descriptor (run FixXcodeProject.main w) with
  | Some text =>
      Model.unique_ids text = false /\
      Model.count text "000000000000000000000000294A0000000000001 /* New.swift */ = {isa = PBXFileReference;" = 1 /\
      Model.count text "000000000000000000000000294A0000000000001 /* New.swift in Sources */ = {isa = PBXBuildFile;" = 1
  | None => False
  end.
Proof. vm_compute. repeat split; reflexivity. Qed.

(** ** fix_xcode_project.py: a file the project already names *)

Section ExistingPath.

Import FixXcodeProject.

Lemma not_missing (f : string) (directory_files : list string) (content : string) :
  In f (project_files content) -> ~ In f (missing_files directory_files content).
Proof.
  intros Hin Hmiss. unfold missing_files in Hmiss. apply filter_In in Hmiss.
  destruct Hmiss as [_ Hneg]. apply negb_true_iff in Hneg.
  apply mem_In in Hin. congruence.
Qed.

Lemma update_project_file_adds (w : World) (content : string) (missing : list string) :
  descriptor w = Some content ->
  missing_files (map basename (glob w "DualCameraApp/*.swift")) content = missing ->
  missing <> [] ->
  update_project_file w =
  let w' := say w ["Adding " +++ str_of_nat (List.length missing)
                     +++ " missing Swift files to project..."] in
  match find_sections content with
  | None => (Ret tt, say w' ["Could not find required sections in project file!"])
  | Some (bs, rs, ss, gs) =>
      (let* ids := map_m draw_ids missing in
       write_file project_file
         (insert_additions content (m_end bs) (m_end rs) (m_end ss) (m_end gs) ids) ;;
       print ("Successfully added " +++ str_of_nat (List.length missing)
                +++ " Swift files to the project!") ;;
       for_each missing (fun file => print ("  + " +++ file))) w'
  end.
Proof.
  intros Hd Hm Hne. rewrite (update_project_file_run w content Hd), Hm.
  destruct missing; [contradiction | reflexivity].
Qed.

End ExistingPath.

(** ** Lines, blanks and [strip] *)

Section Lines.

Lemma blank_app (a b : string) : blank (a +++ b) = blank a && blank b.
Proof.
  unfold blank. induction a as [|c a IH]; simpl; [reflexivity|].
  now rewrite IH, andb_assoc.
Qed.

Lemma one_line_app (a b : string) : one_line (a +++ b) = one_line a && one_line b.
Proof.
  unfold one_line. induction a as [|c a IH]; simpl; [reflexivity|].
  now rewrite IH, andb_assoc.
Qed.

Lemma lstrip_blank (w a : string) : blank w = true -> lstrip (w +++ a) = lstrip a.
Proof.
  unfold blank. induction w as [|c w IH]; simpl; [reflexivity|].
  intros H. apply andb_true_iff in H as [Hc Hw]. rewrite Hc. auto.
Qed.

Lemma rstrip_blank (w : string) : blank w = true -> rstrip w = EmptyString.
Proof.
  unfold blank. induction w as [|c w IH]; simpl; [reflexivity|].
  intros H. apply andb_true_iff in H as [Hc Hw]. rewrite (IH Hw). now rewrite Hc.
Qed.

Lemma rstrip_app_blank (a w : string) : blank w = true -> rstrip (a +++ w) = rstrip a.
Proof.
  intros Hw. induction a as [|c a IH]; simpl.
  - now apply rstrip_blank.
  - now rewrite IH.
Qed.

(** A string that [rstrip] leaves alone and that is not empty stays at the
    end of whatever it is appended to. *)
Lemma rstrip_app_fixed (a b : string) :
  rstrip b = b -> b <> EmptyString -> rstrip (a +++ b) = a +++ b.
Proof.
  intros Hb Hne. induction a as [|c a IH]; simpl; [assumption|].
  rewrite IH. destruct (a +++ b) eqn:E; [|reflexivity].
  destruct a; simpl in E; [contradiction | discriminate].
Qed.

Lemma lstrip_length (s : string) : String.length (lstrip s) <= String.length s.
Proof.
  induction s as [|c s IH]; simpl; [lia|].
  destruct (is_space c); simpl; lia.
Qed.

(** What [lstrip] returns does not start with a blank. *)
Lemma lstrip_head (s : string) (c : ascii) (r : string) :
  lstrip s = String c r -> is_space c = false.
Proof.
  induction s as [|x s IH]; simpl; [discriminate|].
  destruct (is_space x) eqn:E; [assumption|].
  intros H. injection H as -> _. assumption.
Qed.

Lemma lstrip_fixed (c : ascii) (r : string) :
  is_space c = false -> lstrip (String c r) = String c r.
Proof. intros H. simpl. now rewrite H. Qed.

Lemma lstrip_idem (s : string) : lstrip (lstrip s) = lstrip s.
Proof.
  destruct (lstrip s) as [|c r] eqn:E; [reflexivity|].
  apply lstrip_fixed. eapply lstrip_head. eassumption.
Qed.

(** [lstrip] only looks at the front. *)
Lemma lstrip_app (a b : string) :
  lstrip a <> EmptyString -> lstrip (a +++ b) = lstrip a +++ b.
Proof.
  induction a as [|c a IH]; simpl; [contradiction|].
  destruct (is_space c); [assumption | reflexivity].
Qed.

(** [rstrip] keeps the first character of a string it does not empty. *)
Lemma rstrip_head (c : ascii) (s : string) :
  rstrip (String c s) <> EmptyString ->
  exists r, rstrip (String c s) = String c r.
Proof.
  simpl. destruct (rstrip s) as [|x r].
  - destruct (is_space c); [contradiction | eauto].
  - eauto.
Qed.

Lemma rstrip_idem (s : string) : rstrip (rstrip s) = rstrip s.
Proof.
  induction s as [|c s IH]; simpl; [reflexivity|].
  destruct (rstrip s) as [|x r] eqn:E.
  - destruct (is_space c) eqn:Ec; simpl; [reflexivity | now rewrite Ec].
  - simpl in *. rewrite IH. reflexivity.
Qed.

(** [strip] is idempotent. *)
Lemma strip_idem (s : string) : strip (strip s) = strip s.
Proof.
  unfold strip. destruct (lstrip s) as [|c r] eqn:E; [reflexivity|].
  pose proof (lstrip_head _ _ _ E) as Hc.
  destruct (rstrip (String c r)) as [|x t] eqn:Er; [reflexivity|].
  destruct (rstrip_head c r) as (r' & Hr'); [rewrite Er; discriminate|].
  rewrite Er in Hr'. injection Hr' as -> ->.
  rewrite lstrip_fixed by assumption. rewrite <- Er. apply rstrip_idem.
Qed.

Lemma one_line_lstrip (s : string) : one_line s = true -> one_line (lstrip s) = true.
Proof.
  unfold one_line. induction s as [|c s IH]; simpl; [reflexivity|].
  intros H. apply andb_true_iff in H as [Hc Hs].
  destruct (is_space c); [auto | simpl; now rewrite Hc, Hs].
Qed.

Lemma one_line_rstrip (s : string) : one_line s = true -> one_line (rstrip s) = true.
Proof.
  unfold one_line. induction s as [|c s IH]; simpl; [reflexivity|].
  intros H. apply andb_true_iff in H as [Hc Hs]. specialize (IH Hs).
  destruct (rstrip s); [destruct (is_space c)|]; simpl in *; rewrite ?Hc; auto.
Qed.

Lemma one_line_strip (s : string) : one_line s = true -> one_line (strip s) = true.
Proof. intros H. now apply one_line_rstrip, one_line_lstrip. Qed.

(** [split('\n')] cuts at a newline and nowhere else. *)
Lemma split_nl_one_line (s : string) : one_line s = true -> split_nl s = [s].
Proof.
  unfold one_line. induction s as [|c s IH]; simpl; [reflexivity|].
  intros H. apply andb_true_iff in H as [Hc Hs]. apply negb_true_iff in Hc.
  now rewrite Hc, (IH Hs).
Qed.

Lemma split_nl_cons (c : ascii) (s : string) :
  split_nl (String c s) =
  if is_nl c then EmptyString :: split_nl s
  else match split_nl s with
       | h :: t => String c h :: t
       | [] => [String c EmptyString]
       end.
Proof. reflexivity. Qed.

Lemma split_nl_app_nl (a b : string) :
  split_nl (a +++ nl +++ b) = split_nl a ++ split_nl b.
Proof.
  induction a as [|c a IH]; [reflexivity|].
  change (String c a +++ nl +++ b) with (String c (a +++ nl +++ b)).
  rewrite !split_nl_cons, IH.
  destruct (is_nl c); [reflexivity|].
  pose proof (split_nl_not_nil a) as Hne.
  destruct (split_nl a); [contradiction | reflexivity].
Qed.

Lemma split_nl_join (l : list string) :
  l <> [] -> Forall (fun e => one_line e = true) l -> split_nl (join nl l) = l.
Proof.
  induction l as [|e l IH]; [contradiction|].
  intros _ H. inversion H as [|? ? He Hl]; subst.
  destruct l as [|e' l].
  - simpl. now apply split_nl_one_line.
  - rewrite join_cons by discriminate. rewrite split_nl_app_nl.
    rewrite (split_nl_one_line e He), IH; [reflexivity | discriminate | assumption].
Qed.

Lemma split_nl_all_one_line (s : string) :
  Forall (fun e => one_line e = true) (split_nl s).
Proof.
  induction s as [|c s IH]; simpl; [repeat constructor|].
  destruct (is_nl c) eqn:E; [constructor; [reflexivity | assumption]|].
  destruct (split_nl s) as [|h t]; [repeat constructor; unfold one_line; simpl; now rewrite E|].
  inversion IH; subst. constructor; [|assumption].
  unfold one_line in *. simpl. now rewrite E.
Qed.

End Lines.
(** ** Reading a children list back *)

Section ReadBack.

Import FixProject.

Lemma tidyb_tidy (e : string) : tidyb e = true -> tidy e.
Proof.
  unfold tidyb, tidy. intros H.
  apply andb_true_iff in H as [H Hne]. apply andb_true_iff in H as [H1 H2].
  apply String.eqb_eq in H2. repeat split; auto.
  intros ->. discriminate.
Qed.

Lemma lstrip_split (s : string) :
  exists w, blank w = true /\ s = w +++ lstrip s.
Proof.
  induction s as [|c s (w & Hw & E)]; [exists EmptyString; auto|].
  simpl. destruct (is_space c) eqn:Ec.
  - exists (String c w). unfold blank in *. simpl. rewrite Ec, Hw.
    split; [reflexivity | now rewrite <- E].
  - exists EmptyString. auto.
Qed.

Lemma rstrip_app (a t : string) :
  rstrip (a +++ t) =
  match rstrip t with
  | EmptyString => rstrip a
  | String _ _ => a +++ rstrip t
  end.
Proof.
  induction a as [|c a IH]; simpl.
  - now destruct (rstrip t).
  - rewrite IH. destruct (rstrip t) as [|x r]; [reflexivity|].
    destruct a; reflexivity.
Qed.

Lemma tidy_lstrip (e : string) :
  tidy e ->
  lstrip e <> EmptyString /\ rstrip (lstrip e) = lstrip e /\ one_line (lstrip e) = true.
Proof.
  intros (Hline & Hfix & Hne).
  assert (Hl : one_line (lstrip e) = true) by now apply one_line_lstrip.
  destruct (lstrip_split e) as (w & Hw & E).
  remember (lstrip e) as t eqn:Et. clear Et Hline. subst e.
  rewrite rstrip_app in Hfix.
  destruct (rstrip t) as [|x r] eqn:Er.
  - exfalso. apply Hne. rewrite <- Hfix. now apply rstrip_blank.
  - apply append_inj_l in Hfix. rewrite <- Hfix.
    repeat split; [discriminate | now rewrite <- Hfix in Hl].
Qed.

Lemma tidy_strip_nonempty (e : string) : tidy e -> nonempty (strip e) = true.
Proof.
  intros H. destruct (tidy_lstrip e H) as (Hne & Hfix & _).
  unfold strip. rewrite Hfix. now destruct (lstrip e).
Qed.

Lemma join_not_empty (l : list string) :
  l <> [] -> Forall tidy l -> join nl l <> EmptyString.
Proof.
  destruct l as [|e l]; [contradiction|]. intros _ H.
  inversion H as [|? ? (_ & _ & He) _]; subst.
  destruct l; simpl; destruct e; try contradiction; discriminate.
Qed.

Lemma rstrip_join (l : list string) :
  l <> [] -> Forall tidy l -> rstrip (join nl l) = join nl l.
Proof.
  induction l as [|e l IH]; [contradiction|]. intros _ H.
  inversion H as [|? ? He Hl]; subst.
  destruct l as [|e' l]; [apply He|].
  rewrite join_cons by discriminate.
  rewrite <- append_assoc. apply rstrip_app_fixed.
  - apply IH; [discriminate | assumption].
  - apply join_not_empty; [discriminate | assumption].
Qed.

(** Lines 46-47 applied to tidy lines joined by newlines, with blanks
    around: every line comes back, stripped. *)
Lemma read_children_join (w1 w2 : string) (l : list string) :
  blank w1 = true -> blank w2 = true -> l <> [] -> Forall tidy l ->
  read_children (w1 +++ join nl l +++ w2) = map strip l.
Proof.
  intros Hw1 Hw2 Hne Hl. unfold read_children.
  destruct l as [|e0 l]; [contradiction|]. clear Hne.
  inversion Hl as [|? ? He0 Hl']; subst.
  destruct (tidy_lstrip e0 He0) as (H0ne & H0fix & H0line).
  assert (Ht0 : tidy (lstrip e0)) by (repeat split; assumption).
  assert (Hstrip : strip (w1 +++ join nl (e0 :: l) +++ w2) = join nl (lstrip e0 :: l)).
  { unfold strip. rewrite lstrip_blank by assumption.
    assert (E : join nl (e0 :: l) +++ w2 = e0 +++ (join nl (EmptyString :: l) +++ w2)).
    { destruct l as [|s l]; [reflexivity|].
      change (join nl (e0 :: s :: l)) with (e0 +++ nl +++ join nl (s :: l)).
      change (join nl (EmptyString :: s :: l)) with (nl +++ join nl (s :: l)).
      now rewrite !append_assoc. }
    rewrite E, lstrip_app by assumption.
    assert (E' : lstrip e0 +++ join nl (EmptyString :: l) +++ w2
                 = join nl (lstrip e0 :: l) +++ w2).
    { destruct l as [|s l]; [reflexivity|].
      change (join nl (lstrip e0 :: s :: l)) with (lstrip e0 +++ nl +++ join nl (s :: l)).
      change (join nl (EmptyString :: s :: l)) with (nl +++ join nl (s :: l)).
      now rewrite !append_assoc. }
    rewrite E', rstrip_app_blank by assumption.
    apply rstrip_join; [discriminate | now constructor]. }
  rewrite Hstrip, split_nl_join; [|discriminate|].
  - assert (Hall : forall x, In x (lstrip e0 :: l) -> nonempty (strip x) = true).
    { intros x [<-|Hx]; [now apply tidy_strip_nonempty|].
      apply tidy_strip_nonempty. rewrite List.Forall_forall in Hl'. auto. }
    assert (Hfilter : forall xs, (forall x, In x xs -> nonempty (strip x) = true) ->
                        List.filter (fun c => nonempty (strip c)) xs = xs).
    { induction xs as [|x xs IH]; intros Hxs; [reflexivity|]. simpl.
      rewrite (Hxs x) by now left. f_equal. apply IH. intros y Hy. apply Hxs. now right. }
    rewrite (Hfilter _ Hall).
    simpl. f_equal. unfold strip. now rewrite lstrip_idem.
  - constructor; [assumption|].
    eapply List.Forall_impl; [|exact Hl']. now intros x (Hx & _).
Qed.

(** What lines 46-47 return is tidy and already stripped. *)
Lemma read_children_tidy (body : string) :
  Forall (fun c => tidy c /\ strip c = c) (read_children body).
Proof.
  unfold read_children.
  pose proof (split_nl_all_one_line (strip body)) as Hlines.
  induction (split_nl (strip body)) as [|x xs IH]; simpl; [constructor|].
  inversion Hlines as [|? ? Hx Hxs]; subst.
  destruct (nonempty (strip x)) eqn:E; [|auto].
  simpl. constructor; [|auto]. split; [|apply strip_idem].
  repeat split.
  - now apply one_line_strip.
  - unfold strip. apply rstrip_idem.
  - intros H0. rewrite H0 in E. discriminate.
Qed.

Lemma new_group_children_tidy : Forall tidy new_group_children.
Proof.
  apply List.Forall_forall. intros x Hx. apply tidyb_tidy.
  assert (H : forallb tidyb new_group_children = true) by (vm_compute; reflexivity).
  rewrite forallb_forall in H. auto.
Qed.

End ReadBack.
(** ** fix_project.py: the group update *)

Section GroupUpdate.

Import FixProject.

Lemma new_group_children_stripped :
  map strip new_group_children =
  [ "D0176F399AE93F30FC790A70 /* ZoomControl.swift */,";
    "EA066B04FB8A2629C4E6AAE4 /* FlashControl.swift */,";
    "E5467126C91AE54F3210C450 /* TimerControl.swift */,";
    "13F56600E7409B90F6F978F2 /* FocusExposureControl.swift */," ].
Proof. vm_compute. reflexivity. Qed.

Lemma map_strip_fixed (l : list string) :
  Forall (fun c => tidy c /\ strip c = c) l -> map strip l = l.
Proof.
  induction 1 as [|c l (_ & Hc) _ IH]; simpl; [reflexivity|]. now rewrite Hc, IH.
Qed.

End GroupUpdate.

(** Whatever stood between [children = (] and [);] in the DualCameraApp
    group, the children [fix_project.py] reads back (lines 46-47) from the
    list it writes (lines 95-98) are the ones it read before, in their
    order, followed by one entry for each of the four target files. *)
Lemma rewritten_children_read_back (body : string) :
  FixProject.read_children
    (FixProject.rewritten_children (FixProject.read_children body)) =
  FixProject.read_children body ++
  [ "D0176F399AE93F30FC790A70 /* ZoomControl.swift */,";
    "EA066B04FB8A2629C4E6AAE4 /* FlashControl.swift */,";
    "E5467126C91AE54F3210C450 /* TimerControl.swift */,";
    "13F56600E7409B90F6F978F2 /* FocusExposureControl.swift */," ].
Proof.
  unfold FixProject.rewritten_children, FixProject.new_children_str.
  pose proof (read_children_tidy body) as Hc.
  rewrite (read_children_join nl (nl +++ tab +++ tab +++ tab)).
  - rewrite map_app, (map_strip_fixed _ Hc), new_group_children_stripped.
    reflexivity.
  - reflexivity.
  - reflexivity.
  - intros H. apply app_eq_nil in H as [_ H].
    unfold FixProject.new_group_children, FixProject.files_to_add in H.
    discriminate H.
  - apply Forall_app. split; [|apply new_group_children_tidy].
    eapply List.Forall_impl; [|exact Hc]. now intros c (Hc' & _).
Qed.

(** The one removal of [fix_project.py], line 37, goes by the display name
    of a target file, not by Identifier: it leaves the sample as it is,
    with the entry of Zoom.swift in the Controls group. *)
Example removal_is_by_name :
  FixProject.remove_stale Samples.project_a = Samples.project_a /\
  contains Samples.project_a "D0176F399AE93F30FC790A70 /* Zoom.swift */," = true.
Proof. vm_compute. split; reflexivity. Qed.

(** ** Z/add_files_to_xcode.py: where new phase members go *)

Section PhaseOrder.

Import AddFilesToXcode.

Lemma member_ids_lines (body : string) :
  Model.member_ids body = ids_of_lines (split_nl body).
Proof. reflexivity. Qed.

Lemma ids_of_lines_app (a b : list string) :
  ids_of_lines (a ++ b) = ids_of_lines a ++ ids_of_lines b.
Proof. unfold ids_of_lines. now rewrite map_app, List.filter_app, map_app. Qed.

Lemma strip_blank (w : string) : blank w = true -> strip w = EmptyString.
Proof.
  intros H. unfold strip.
  rewrite <- (append_nil_r w), lstrip_blank by assumption. reflexivity.
Qed.

Lemma strip_after_blank (w s : string) : blank w = true -> strip (w +++ s) = strip s.
Proof. intros H. unfold strip. now rewrite lstrip_blank. Qed.

Lemma ids_of_blank_line (w : string) : blank w = true -> ids_of_lines [w] = [].
Proof. intros H. unfold ids_of_lines. simpl. now rewrite strip_blank. Qed.

Lemma word_not_space (c : ascii) : word c = true -> is_space c = false.
Proof. destruct c as [[] [] [] [] [] [] [] []]; vm_compute; congruence. Qed.

Lemma word_not_nl (c : ascii) : word c = true -> is_nl c = false.
Proof. destruct c as [[] [] [] [] [] [] [] []]; vm_compute; congruence. Qed.

Lemma words_one_line (id : string) : all_chars word id = true -> one_line id = true.
Proof.
  unfold one_line. induction id as [|c id IH]; simpl; [reflexivity|].
  intros H. apply andb_true_iff in H as [Hc Hid].
  now rewrite (word_not_nl c Hc), IH.
Qed.

(** A word followed by a space is the leading word. *)
Lemma leading_word_app (id rest : string) :
  all_chars word id = true ->
  Model.leading_word (id +++ String " " rest) = id.
Proof.
  induction id as [|c id IH]; simpl; [reflexivity|].
  intros H. apply andb_true_iff in H as [Hc Hid]. now rewrite Hc, IH.
Qed.

Lemma ind_app (n : nat) (a b : string) : ind n (a +++ b) = ind n a +++ b.
Proof. induction n as [|n IH]; simpl; [reflexivity | now rewrite IH]. Qed.

Lemma one_line_ind (n : nat) (a : string) : one_line (ind n a) = one_line a.
Proof. induction n as [|n IH]; simpl; [reflexivity | exact IH]. Qed.

Lemma lstrip_ind (n : nat) (a : string) : lstrip (ind n a) = lstrip a.
Proof. induction n as [|n IH]; simpl; [reflexivity | exact IH]. Qed.

Lemma member_line_one_line (id comment : string) :
  identifier id = true -> one_line comment = true ->
  one_line (member_line id comment) = true.
Proof.
  unfold identifier, member_line. intros H Hc.
  apply andb_true_iff in H as [_ Hid].
  now rewrite one_line_ind, !one_line_app, (words_one_line id Hid), Hc.
Qed.

(** The one member a member line names is its Identifier. *)
Lemma member_line_id (w id comment : string) :
  blank w = true -> identifier id = true ->
  ids_of_lines [w +++ member_line id comment] = [id].
Proof.
  unfold identifier, member_line. intros Hw H.
  apply andb_true_iff in H as [Hne Hid].
  assert (E : strip (w +++ ind 4 (id +++ " /* " +++ comment +++ " */,"))
              = id +++ " /* " +++ comment +++ " */,").
  { rewrite strip_after_blank by assumption. unfold strip. rewrite lstrip_ind.
    destruct id as [|c id]; [discriminate|].
    simpl in Hid. apply andb_true_iff in Hid as [Hc _].
    change (String c id +++ " /* " +++ comment +++ " */,")
      with (String c (id +++ " /* " +++ comment +++ " */,")).
    rewrite lstrip_fixed by now apply word_not_space.
    change (String c (id +++ " /* " +++ comment +++ " */,"))
      with (String c id +++ " /* " +++ comment +++ " */,").
    replace (String c id +++ " /* " +++ comment +++ " */,")
      with ((String c id +++ " /* " +++ comment +++ " */") +++ ",")
      by now rewrite !append_assoc.
    apply rstrip_app_fixed; [reflexivity | discriminate]. }
  unfold ids_of_lines.
  change (map strip [w +++ ind 4 (id +++ " /* " +++ comment +++ " */,")])
    with [strip (w +++ ind 4 (id +++ " /* " +++ comment +++ " */,"))].
  rewrite E.
  assert (Hn : nonempty (id +++ " /* " +++ comment +++ " */,") = true)
    by (destruct id; [discriminate | reflexivity]).
  cbn [List.filter]. rewrite Hn. cbn [map].
  change (id +++ " /* " +++ comment +++ " */,")
    with (id +++ String " " ("/* " +++ comment +++ " */,")).
  now rewrite leading_word_app.
Qed.

Lemma join_snoc_app (ls : list string) (w l : string) :
  join nl (ls ++ [w]) +++ l = join nl (ls ++ [w +++ l]).
Proof.
  induction ls as [|x ls IH]; [reflexivity|].
  change ((x :: ls) ++ [w]) with (x :: (ls ++ [w])).
  change ((x :: ls) ++ [w +++ l]) with (x :: (ls ++ [w +++ l])).
  rewrite !join_cons by (destruct ls; discriminate).
  now rewrite !append_assoc, IH.
Qed.

(** Appending text that holds no newline extends the last line. *)
Lemma split_nl_extend (body l : string) (ls : list string) (w : string) :
  split_nl body = ls ++ [w] -> one_line l = true ->
  split_nl (body +++ l) = ls ++ [w +++ l].
Proof.
  intros E Hl.
  pose proof (split_nl_all_one_line body) as Hall. rewrite E in Hall.
  apply Forall_app in Hall as [Hls Hw]. inversion Hw as [|? ? Hw' _]; subst.
  rewrite <- (join_split_nl body), E, join_snoc_app.
  apply split_nl_join; [destruct ls; discriminate|].
  apply Forall_app. split; [assumption|].
  constructor; [|constructor]. now rewrite one_line_app, Hw', Hl.
Qed.

(** One more member line after a list that ends with a blank line. *)
Lemma member_ids_append_line (body id comment : string) :
  ends_with_blank_line body = true ->
  identifier id = true -> one_line comment = true ->
  Model.member_ids (body +++ member_line id comment +++ nl)
  = Model.member_ids body ++ [id] /\
  ends_with_blank_line (body +++ member_line id comment +++ nl) = true.
Proof.
  unfold ends_with_blank_line. intros Hb Hid Hc.
  destruct (exists_last (split_nl_not_nil body)) as (ls & w & E).
  rewrite E, last_last in Hb.
  assert (Es : split_nl (body +++ member_line id comment +++ nl)
               = ls ++ [w +++ member_line id comment] ++ [EmptyString]).
  { replace (body +++ member_line id comment +++ nl)
      with ((body +++ member_line id comment) +++ nl +++ EmptyString)
      by (rewrite append_assoc; do 2 f_equal; apply append_nil_r).
    rewrite split_nl_app_nl.
    rewrite (split_nl_extend body (member_line id comment) ls w E
               (member_line_one_line id comment Hid Hc)).
    now rewrite <- app_assoc. }
  rewrite !member_ids_lines, Es, E. split.
  - rewrite !ids_of_lines_app, (member_line_id w id comment Hb Hid).
    rewrite (ids_of_blank_line w Hb), (ids_of_blank_line EmptyString eq_refl).
    now rewrite !app_nil_r.
  - rewrite app_assoc, last_last. reflexivity.
Qed.

Lemma source_member_line (e : source_entry) :
  source_member e = member_line (build_file_id e) (name e +++ " in Sources") +++ nl.
Proof.
  unfold source_member, member_line. rewrite <- ind_app. f_equal.
  now rewrite !append_assoc.
Qed.

Lemma fw_member_line (e : source_entry) :
  fw_member e = member_line (build_file_id e) (name e +++ " in Frameworks") +++ nl.
Proof.
  unfold fw_member, member_line. rewrite <- ind_app. f_equal.
  now rewrite !append_assoc.
Qed.

Lemma well_named_parts (e : source_entry) (suffix : string) :
  well_named e = true -> one_line suffix = true ->
  identifier (build_file_id e) = true /\ one_line (name e +++ suffix) = true.
Proof.
  unfold well_named. intros H Hs. apply andb_true_iff in H as [Hid Hn].
  split; [assumption|]. now rewrite one_line_app, Hn, Hs.
Qed.

(** Lines 89-92: members appended one after the other follow the members
    that were there. *)
Lemma sources_appended (existing : string) (entries : list source_entry) :
  forallb well_named entries = true ->
  ends_with_blank_line existing = true ->
  Model.member_ids (existing +++ cat (map source_member entries))
  = Model.member_ids existing ++ map build_file_id entries.
Proof.
  revert existing. induction entries as [|e es IH]; intros existing Hw Hb.
  - simpl. now rewrite append_nil_r, app_nil_r.
  - simpl in Hw. apply andb_true_iff in Hw as [He Hes].
    destruct (well_named_parts e " in Sources" He eq_refl) as (Hid & Hc).
    destruct (member_ids_append_line existing _ _ Hb Hid Hc) as (Hids & Hb').
    change (cat (map source_member (e :: es)))
      with (source_member e +++ cat (map source_member es)).
    change (map build_file_id (e :: es)) with (build_file_id e :: map build_file_id es).
    rewrite source_member_line, <- append_assoc.
    rewrite IH by assumption. rewrite Hids. now rewrite <- app_assoc.
Qed.

(** Lines 155-160: members put in front precede the members that were
    there. *)
Lemma frameworks_prepended (existing : string) (entries : list source_entry) :
  forallb well_named entries = true ->
  Model.member_ids (cat (map fw_member entries) +++ existing)
  = map build_file_id entries ++ Model.member_ids existing.
Proof.
  induction entries as [|e es IH]; intros Hw; [reflexivity|].
  simpl in Hw. apply andb_true_iff in Hw as [He Hes].
  destruct (well_named_parts e " in Frameworks" He eq_refl) as (Hid & Hc).
  change (cat (map fw_member (e :: es)))
    with (fw_member e +++ cat (map fw_member es)).
  change (map build_file_id (e :: es)) with (build_file_id e :: map build_file_id es).
  rewrite fw_member_line, !append_assoc.
  rewrite member_ids_lines, split_nl_app_nl.
  rewrite (split_nl_one_line _ (member_line_one_line _ _ Hid Hc)).
  rewrite ids_of_lines_app, <- member_ids_lines, (IH Hes).
  change (member_line (build_file_id e) (name e +++ " in Frameworks"))
    with (EmptyString +++ member_line (build_file_id e) (name e +++ " in Frameworks")).
  now rewrite (member_line_id EmptyString _ _ eq_refl Hid).
Qed.

End PhaseOrder.

(** ** add_swift_files.py run twice *)

(** C1: adding the same files twice should leave what adding them once
    left.  [add_swift_files.py] does not look for an existing
    [PBXFileReference]: run on its own output it creates a second record,
    under a new Identifier, for each of its four paths, and the descriptor
    after the second run differs from the descriptor after the first. *)
Theorem add_swift_files_twice_duplicates :
  let w0 := Samples.world project_file Samples.project_a [] Samples.mix in
  let w1 := run AddSwiftFiles.main w0 in
  let w2 := run AddSwiftFiles.main w1 in
  match descriptor w1, descriptor w2 with
  | Some once, Some twice =>
      String.eqb once twice = false /\
      map (fun f => Model.count once ("path = " +++ f +++ ";"))
          AddSwiftFiles.files_to_add = [1; 1; 1; 1] /\
      map (fun f => Model.count twice ("path = " +++ f +++ ";"))
          AddSwiftFiles.files_to_add = [2; 2; 2; 2] /\
      List.length (Model.ids_of_kind "PBXFileReference" once) = 6 /\
      List.length (Model.ids_of_kind "PBXFileReference" twice) = 10
  | _, _ => False
  end.
Proof. vm_compute. repeat split; reflexivity. Qed.

(** The sibling script does what this one misses: [fix_xcode_project.py]
    asked twice to add the same file adds it once, its second run finding
    nothing missing. *)
Example fix_xcode_project_twice_adds_once :
  let w0 := Samples.world project_file Samples.project_b
              ["DualCameraApp/New.swift"] Samples.mix in
  let w1 := run FixXcodeProject.main w0 in
  let w2 := run FixXcodeProject.main w1 in
  match descriptor w1, descriptor w2 with
  | Some once, Some twice =>
      String.eqb once twice = true /\
      Model.count once "path = New.swift;" = 1 /\
      stdout w2 = stdout w1 ++
        [ "Fixing Xcode project to include all Swift files...";
          "No missing files found!";
          nl +++ "Project file updated successfully!" ]
  | _, _ => False
  end.
Proof. vm_compute. repeat split; reflexivity. Qed.

(** ** comprehensive_fix.py and fix_project_files.py: members without records *)

(** C3: every member of a phase should resolve to a build-file record.
    On a descriptor that satisfies this, [comprehensive_fix.py] and
    [fix_project_files.py] list six more members in the Sources phase and
    create no record: five of the new members resolve to nothing, and the
    sixth, [A1000033...], is the file reference of CameraPreviewView.swift,
    not a build file.  The two hard-coded lists are shifted by one against
    each other: [A1000034...] names VisualCountdownView.swift in the group
    and SettingsManager.swift in the Sources phase. *)
Theorem hard_coded_members_do_not_resolve :
  let w := Samples.world project_file Samples.project_b [] Samples.mix in
  let new_members :=
    [ "A1000033294A0000000000001"; "A1000034294A0000000000001";
      "A1000035294A0000000000001"; "A1000036294A0000000000001";
      "A1000037294A0000000000001"; "A1000038294A0000000000001" ] in
  Model.referential_integrity Samples.project_b = true /\
  match descriptor (run ComprehensiveFix.fix_project w),
        descriptor (run FixProjectFiles.fix_project_pbxproj w) with
  | Some fixed, Some fixed' =>
      let build_files := Model.ids_of_kind "PBXBuildFile" fixed in
      let file_references := Model.ids_of_kind "PBXFileReference" fixed in
      Model.referential_integrity fixed = false /\
      Model.referential_integrity fixed' = false /\
      Model.phases "PBXSourcesBuildPhase" fixed =
        [ ("A1000022294A0000000000000",
           [ "A1000020294A0000000000001"; "A1000032294A0000000000001" ]
             ++ new_members) ] /\
      Model.phases "PBXSourcesBuildPhase" fixed' =
        [ ("A1000022294A0000000000000",
           [ "A1000020294A0000000000001"; "A1000032294A0000000000001" ]
             ++ new_members) ] /\
      build_files = Model.ids_of_kind "PBXBuildFile" Samples.project_b /\
      List.filter (fun id => mem id build_files) new_members = [] /\
      List.filter (fun id => mem id file_references) new_members =
        [ "A1000033294A0000000000001" ] /\
      Model.parents "A1000034294A0000000000001" fixed =
        [ "A1000018294A0000000000001" ]
  | _, _ => False
  end.
Proof. vm_compute. repeat split; reflexivity. Qed.

(** * Further properties of the scripts *)

(** ** fix_xcode_project.py: where inserted lines end up *)

Section Insertion.

Import FixXcodeProject.

Lemma list_insert_split {A} (i : nat) (x : A) (l : list A) :
  list_insert i x l = firstn i l ++ x :: skipn i l.
Proof.
  revert l. induction i as [|i IH]; intros l; [reflexivity|].
  destruct l as [|y l]; [reflexivity|]. simpl. now rewrite IH.
Qed.

Lemma insert_all_cons (at_ : nat) (a : string) (adds lines : list string) :
  insert_all at_ (a :: adds) lines = list_insert at_ a (insert_all at_ adds lines).
Proof. unfold insert_all. simpl rev. now rewrite fold_left_app. Qed.

Lemma insert_all_within (at_ : nat) (adds lines : list string) :
  at_ <= List.length lines ->
  insert_all at_ adds lines = firstn at_ lines ++ adds ++ skipn at_ lines.
Proof.
  intros H. induction adds as [|a adds IH]; [simpl; now rewrite firstn_skipn|].
  rewrite insert_all_cons, IH, list_insert_split.
  rewrite firstn_app, skipn_app, length_firstn.
  replace (Nat.min at_ (List.length lines)) with at_ by lia.
  rewrite Nat.sub_diag, firstn_firstn, Nat.min_id. simpl.
  rewrite app_nil_r. f_equal.
  rewrite skipn_all2 by (rewrite length_firstn; lia). reflexivity.
Qed.

Lemma list_insert_append {A} (i : nat) (x : A) (l : list A) :
  List.length l <= i -> list_insert i x l = l ++ [x].
Proof.
  intros H. rewrite list_insert_split, firstn_all2, skipn_all2 by lia. reflexivity.
Qed.

Lemma insert_all_beyond (at_ : nat) (adds lines : list string) :
  List.length lines + List.length adds <= at_ + 1 ->
  insert_all at_ adds lines = lines ++ rev adds.
Proof.
  unfold insert_all. rewrite <- (length_rev adds).
  generalize (rev adds) as l. intros l. revert lines.
  induction l as [|a l IH]; intros lines H; simpl; [now rewrite app_nil_r|].
  simpl in H. rewrite list_insert_append by lia.
  rewrite IH by (rewrite length_app; simpl; lia).
  now rewrite <- app_assoc.
Qed.

Lemma insert_all_past (at_ : nat) (adds lines : list string) :
  List.length lines <= at_ ->
  FixXcodeProject.insert_all at_ adds lines =
    let kept := List.length adds - (at_ - List.length lines) in
    lines ++ rev (skipn kept adds) ++ firstn kept adds.
Proof.
  intros H. cbv zeta. induction adds as [|a adds IH].
  - unfold FixXcodeProject.insert_all. simpl. now rewrite app_nil_r.
  - rewrite insert_all_cons, IH, list_insert_split. clear IH.
    set (d := at_ - List.length lines).
    destruct (Nat.le_gt_cases d (List.length adds)) as [Hd|Hd].
    + replace (List.length (a :: adds) - d) with (S (List.length adds - d))
        by (simpl; lia).
      simpl skipn. simpl firstn.
      assert (Hl : List.length (lines ++ rev (skipn (List.length adds - d) adds)) = at_).
      { rewrite length_app, length_rev, length_skipn. subst d. lia. }
      rewrite app_assoc, firstn_app, skipn_app, Hl, Nat.sub_diag.
      rewrite (@firstn_all2 _ at_), (@skipn_all2 _ at_) by lia. simpl.
      now rewrite app_nil_r, <- app_assoc.
    + replace (List.length (a :: adds) - d) with 0 by (simpl; lia).
      replace (List.length adds - d) with 0 by lia.
      rewrite !skipn_O, !firstn_O, !app_nil_r.
      rewrite (@firstn_all2 _ at_), (@skipn_all2 _ at_)
        by (rewrite length_app, length_rev; subst d; lia).
      simpl.
      now rewrite <- app_assoc.
Qed.

Lemma In_list_insert {A} (i : nat) (x y : A) (l : list A) :
  In y (list_insert i x l) <-> y = x \/ In y l.
Proof.
  rewrite list_insert_split, in_app_iff. simpl.
  assert (H : In y l <-> In y (firstn i l) \/ In y (skipn i l))
    by now rewrite <- in_app_iff, firstn_skipn.
  rewrite H. intuition congruence.
Qed.

Lemma In_insert_all (at_ : nat) (y : string) (adds lines : list string) :
  In y (insert_all at_ adds lines) <-> In y adds \/ In y lines.
Proof.
  induction adds as [|a adds IH]; [unfold insert_all; simpl; tauto|].
  rewrite insert_all_cons, In_list_insert, IH. simpl. intuition congruence.
Qed.

Lemma length_list_insert {A} (i : nat) (x : A) (l : list A) :
  List.length (list_insert i x l) = S (List.length l).
Proof.
  rewrite list_insert_split, length_app. simpl.
  pose proof (f_equal (@List.length A) (firstn_skipn i l)) as H.
  rewrite length_app in H. lia.
Qed.

Lemma length_insert_all (at_ : nat) (adds lines : list string) :
  List.length (insert_all at_ adds lines) = List.length lines + List.length adds.
Proof.
  induction adds as [|a adds IH]; [unfold insert_all; simpl; lia|].
  rewrite insert_all_cons, length_list_insert, IH. simpl. lia.
Qed.

Lemma sublist_list_insert {A} (i : nat) (x : A) (l : list A) :
  sublist l (list_insert i x l).
Proof.
  rewrite list_insert_split. rewrite <- (firstn_skipn i l) at 1.
  apply sublist_app; [reflexivity|]. now apply sublist_cons.
Qed.

Lemma sublist_insert_all (at_ : nat) (adds lines : list string) :
  sublist lines (insert_all at_ adds lines).
Proof.
  induction adds as [|a adds IH]; [reflexivity|].
  rewrite insert_all_cons. etransitivity; [exact IH|]. apply sublist_list_insert.
Qed.

End Insertion.

(** X1: the loop [for entry in reversed(additions): lines.insert(i, entry)]
    of [fix_xcode_project.py] (lines 96-97, 101-102, 111-112, 125-126).
    When the index lies within the list, the additions end up at that index
    as one block, in their own order, between the lines that were before
    and after it.  When the index lies [d] places beyond the end, the
    first [d] insertions are appends, which bring the end of the list up to
    the index, and the others go in front of what was appended last: after
    the last line come the last [d] additions in reverse order, then the
    other additions in their own order. *)
Theorem reversed_inserts_keep_order (at_ : nat) (adds lines : list string) :
  (at_ <= List.length lines ->
   FixXcodeProject.insert_all at_ adds lines =
     firstn at_ lines ++ adds ++ skipn at_ lines) /\
  (List.length lines <= at_ ->
   let kept := List.length adds - (at_ - List.length lines) in
   FixXcodeProject.insert_all at_ adds lines =
     lines ++ rev (skipn kept adds) ++ firstn kept adds).
Proof. split; [apply insert_all_within | apply insert_all_past]. Qed.

Lemma reversed_inserts_keep_order_witness :
  FixXcodeProject.insert_all 1 ["a"; "b"; "c"] ["x"; "y"] = ["x"; "a"; "b"; "c"; "y"] /\
  FixXcodeProject.insert_all 3 ["a"; "b"; "c"] ["x"; "y"] = ["x"; "y"; "c"; "a"; "b"] /\
  FixXcodeProject.insert_all 4 ["a"; "b"; "c"] ["x"; "y"] = ["x"; "y"; "c"; "b"; "a"].
Proof.
  split; [|split].
  - apply (proj1 (reversed_inserts_keep_order 1 ["a"; "b"; "c"] ["x"; "y"])).
    simpl. lia.
  - apply (proj2 (reversed_inserts_keep_order 3 ["a"; "b"; "c"] ["x"; "y"])).
    simpl. lia.
  - apply (proj2 (reversed_inserts_keep_order 4 ["a"; "b"; "c"] ["x"; "y"])).
    simpl. lia.
Defined.

(** X2: [update_project_file] only adds lines.  Whatever the insertion
    points, the text it builds (lines 91-129) is a list of lines joined by
    newlines in which every line of the descriptor is still present, in
    the original order; four lines were added per file, and they are that
    file's PBXBuildFile entry, PBXFileReference entry, Sources entry and
    group entry. *)
Theorem update_keeps_every_line (content : string) (b r s g : nat)
    (ids : list (string * string * string)) :
  exists lines' : list string,
    FixXcodeProject.insert_additions content b r s g ids = join nl lines' /\
    sublist (split_nl content) lines' /\
    List.length lines' = List.length (split_nl content) + 4 * List.length ids /\
    forall f fr bf, In (f, fr, bf) ids ->
      In (FixXcodeProject.build_file_entry bf fr f) lines' /\
      In (FixXcodeProject.file_ref_entry fr f) lines' /\
      In (FixXcodeProject.sources_entry bf f) lines' /\
      In (FixXcodeProject.group_entry fr f) lines'.
Proof.
  unfold FixXcodeProject.insert_additions. cbv zeta.
  eexists. split; [reflexivity|]. split; [|split].
  - repeat (etransitivity; [|apply sublist_insert_all]). reflexivity.
  - rewrite !length_insert_all, !length_map. lia.
  - intros f fr bf Hin. rewrite !In_insert_all, !in_map_iff.
    repeat split.
    + right. right. right. left. now exists (f, fr, bf).
    + right. right. left. now exists (f, fr, bf).
    + right. left. now exists (f, fr, bf).
    + left. now exists (f, fr, bf).
Qed.

Section PastTheEnd.

Import FixXcodeProject.

Lemma first_from_beyond (start len : nat) (p : nat -> bool) (default : nat) :
  len <= start -> first_from start len p default = default.
Proof.
  intros H. unfold first_from. replace (len - start) with 0 by lia. reflexivity.
Qed.

Lemma insert_additions_beyond (content : string) (b r s g : nat)
    (ids : list (string * string * string)) :
  List.length (split_nl content) + 4 * List.length ids
    <= Nat.min (Nat.min b r) (Nat.min s g) ->
  insert_additions content b r s g ids =
  join nl (split_nl content
             ++ rev (map (fun '(f, fr, bf) => build_file_entry bf fr f) ids)
             ++ rev (map (fun '(f, fr, bf) => file_ref_entry fr f) ids)
             ++ rev (map (fun '(f, fr, bf) => sources_entry bf f) ids)
             ++ rev (map (fun '(f, fr, bf) => group_entry fr f) ids)).
Proof.
  intros H. unfold insert_additions. cbv zeta.
  assert (Hmin : forall x, x <= Nat.min (Nat.min b r) (Nat.min s g) ->
                    x <= b /\ x <= r /\ x <= s /\ x <= g) by (intros x; lia).
  apply Hmin in H as (Hb & Hr & Hs & Hg). clear Hmin.
  rewrite (insert_all_beyond (b + _) _ (split_nl content))
    by (rewrite length_map; lia).
  rewrite (insert_all_beyond (r + _))
    by (rewrite !length_app, !length_rev, !length_map; lia).
  rewrite (first_from_beyond (s + _))
    by (rewrite !length_app, !length_rev, !length_map; lia).
  rewrite (insert_all_beyond (s + _))
    by (rewrite !length_app, !length_rev, !length_map; lia).
  match goal with |- context [List.seq g ?n] =>
    replace n with 0 by (rewrite !length_app, !length_rev, !length_map; lia)
  end.
  simpl List.find.
  rewrite (first_from_beyond g)
    by (rewrite !length_app, !length_rev, !length_map; lia).
  rewrite (insert_all_beyond g)
    by (rewrite !length_app, !length_rev, !length_map; lia).
  now rewrite <- !app_assoc.
Qed.

End PastTheEnd.

(** X3: character offsets used as line numbers.  The insertion points of
    [update_project_file] are the character offsets where the four markers
    end (lines 95, 100, 105, 115), used as indices into the list of lines.
    On a descriptor that has fewer lines than these offsets, none of the
    entries lands in its section: all of them are written after the last
    line of the file, block after block (build files, file references,
    Sources members, group children), each block in reverse order. *)
Theorem short_descriptor_entries_after_last_line
    (w : World) (content : string) (bs rs ss gs : mobj) :
  descriptor w = Some content ->
  let missing :=
    FixXcodeProject.missing_files (map basename (glob w "DualCameraApp/*.swift")) content in
  missing <> [] ->
  FixXcodeProject.find_sections content = Some (bs, rs, ss, gs) ->
  List.length (split_nl content) + 4 * List.length missing
    <= Nat.min (Nat.min (m_end bs) (m_end rs)) (Nat.min (m_end ss) (m_end gs)) ->
  exists ids : list (string * string * string),
    map file_of ids = missing /\
    descriptor (run FixXcodeProject.update_project_file w) =
    Some (join nl
            (split_nl content
               ++ rev (map (fun '(f, fr, bf) => FixXcodeProject.build_file_entry bf fr f) ids)
               ++ rev (map (fun '(f, fr, bf) => FixXcodeProject.file_ref_entry fr f) ids)
               ++ rev (map (fun '(f, fr, bf) => FixXcodeProject.sources_entry bf f) ids)
               ++ rev (map (fun '(f, fr, bf) => FixXcodeProject.group_entry fr f) ids))).
Proof.
  intros Hd missing Hne Hs Hlen. unfold run.
  rewrite (update_project_file_adds w content missing Hd eq_refl Hne).
  cbv zeta. rewrite Hs.
  destruct (map_m_draw_ids_run missing
              (say w ["Adding " +++ str_of_nat (List.length missing)
                        +++ " missing Swift files to project..."]))
    as (ids & Hrun & Hfiles).
  exists ids. split; [assumption|].
  unfold bind at 1. rewrite Hrun.
  rewrite bind_write_file, bind_print, for_each_print.
  unfold descriptor. simpl. rewrite lookup_insert_eq. f_equal.
  apply insert_additions_beyond.
  rewrite <- (length_map file_of ids), Hfiles. exact Hlen.
Qed.

Lemma short_descriptor_entries_after_last_line_witness :
  let w := Samples.world project_file Samples.project_b
             ["DualCameraApp/New.swift"] Samples.mix in
  let missing :=
    FixXcodeProject.missing_files (map basename (glob w "DualCameraApp/*.swift"))
      Samples.project_b in
  exists ids : list (string * string * string),
    map file_of ids = missing /\
    descriptor (run FixXcodeProject.update_project_file w) =
    Some (join nl
            (split_nl Samples.project_b
               ++ rev (map (fun '(f, fr, bf) => FixXcodeProject.build_file_entry bf fr f) ids)
               ++ rev (map (fun '(f, fr, bf) => FixXcodeProject.file_ref_entry fr f) ids)
               ++ rev (map (fun '(f, fr, bf) => FixXcodeProject.sources_entry bf f) ids)
               ++ rev (map (fun '(f, fr, bf) => FixXcodeProject.group_entry fr f) ids))).
Proof.
  intros w.
  destruct (FixXcodeProject.find_sections Samples.project_b)
    as [[[[bs rs] ss] gs]|] eqn:E; [|vm_compute in E; discriminate E].
  apply (short_descriptor_entries_after_last_line w Samples.project_b bs rs ss gs).
  - vm_compute. reflexivity.
  - vm_compute. discriminate.
  - exact E.
  - vm_compute in E. injection E as <- <- <- <-. vm_compute. lia.
Defined.

Section FixXcodeProjectEnds.

Import FixXcodeProject.

(** However [update_project_file] goes, it returns normally. *)
Lemma update_project_file_ends (w : World) (content : string) :
  descriptor w = Some content ->
  exists (printed : list string) (w' : World),
    update_project_file w = (Ret tt, w') /\
    stdout w' = stdout w ++ printed /\
    (find_sections content = None -> files w' = files w).
Proof.
  intros Hd. rewrite (update_project_file_run w content Hd).
  destruct (missing_files _ content) as [|f l] eqn:Em.
  - do 2 eexists. split; [reflexivity|]. split; reflexivity.
  - cbv zeta.
    destruct (find_sections content) as [[[[bs rs] ss] gs]|].
    + destruct (map_m_draw_ids_run (f :: l)
                  (say w ["Adding " +++ str_of_nat (List.length (f :: l))
                            +++ " missing Swift files to project..."]))
        as (ids & Hrun & _).
      do 2 eexists. unfold bind at 1. rewrite Hrun.
      rewrite bind_write_file, bind_print, for_each_print.
      split; [reflexivity|]. split; [|discriminate].
      simpl. rewrite <- !app_assoc. reflexivity.
    + do 2 eexists. split; [reflexivity|]. split; [|reflexivity].
      simpl. rewrite <- app_assoc. reflexivity.
Qed.

End FixXcodeProjectEnds.

(** X4: [main] of [fix_xcode_project.py] reports success whatever happened
    (lines 140-143).  Whenever the descriptor can be read, the run ends
    normally and the last line printed is "Project file updated
    successfully!", also when the insertion points were not found and no
    file was touched. *)
Theorem main_reports_success_regardless (w : World) (content : string) :
  descriptor w = Some content ->
  result FixXcodeProject.main w = Ret tt /\
  (exists printed : list string,
     stdout (run FixXcodeProject.main w) =
     stdout w ++ "Fixing Xcode project to include all Swift files..." :: printed
       ++ [nl +++ "Project file updated successfully!"]) /\
  (FixXcodeProject.find_sections content = None ->
   files (run FixXcodeProject.main w) = files w).
Proof.
  intros Hd.
  destruct (update_project_file_ends
              (say w ["Fixing Xcode project to include all Swift files..."]) content Hd)
    as (printed & w' & Hrun & Hout & Hfiles).
  assert (E : FixXcodeProject.main w =
              (Ret tt, say w' [nl +++ "Project file updated successfully!"])).
  { unfold FixXcodeProject.main. rewrite bind_print.
    unfold bind. rewrite Hrun. reflexivity. }
  unfold result, run. rewrite E. cbn [fst snd].
  split; [reflexivity|]. split.
  - exists printed. simpl. rewrite Hout. simpl. now rewrite <- !app_assoc.
  - intros Hnone. simpl. now rewrite (Hfiles Hnone).
Qed.

(** A descriptor without the group header the script looks for, and one
    file to add. *)
Lemma main_reports_success_regardless_witness :
  let w := Samples.world project_file Samples.project_a
             ["DualCameraApp/New.swift"] Samples.mix in
  result FixXcodeProject.main w = Ret tt /\
  (exists printed : list string,
     stdout (run FixXcodeProject.main w) =
     stdout w ++ "Fixing Xcode project to include all Swift files..." :: printed
       ++ [nl +++ "Project file updated successfully!"]) /\
  files (run FixXcodeProject.main w) = files w.
Proof.
  intros w.
  destruct (main_reports_success_regardless w Samples.project_a) as (H1 & H2 & H3).
  - vm_compute. reflexivity.
  - split; [exact H1|]. split; [exact H2|]. apply H3. vm_compute. reflexivity.
Defined.

Section Agreement.

Lemma filter_nil_iff {A} (p : A -> bool) (l : list A) :
  List.filter p l = [] <-> forall x, In x l -> p x = false.
Proof.
  induction l as [|a l IH]; simpl; [intuition|].
  destruct (p a) eqn:E.
  - split; [discriminate|]. intros H. specialize (H a (or_introl eq_refl)). congruence.
  - rewrite IH. split; [|auto]. intros H x [<-|Hx]; auto.
Qed.

(** Sorting both lists first does not change whether anything is missing. *)
Lemma missing_sorted (dir prj : list string) :
  List.filter (fun f => negb (mem f (sorted prj))) (sorted dir) = [] <->
  List.filter (fun f => negb (mem f prj)) dir = [].
Proof.
  rewrite !filter_nil_iff. split; intros H x Hx.
  - assert (Hx' : In x (sorted dir)) by now rewrite In_sorted.
    specialize (H x Hx'). apply negb_false_iff in H. apply negb_false_iff.
    apply mem_In. apply mem_In in H. now rewrite In_sorted in H.
  - assert (Hx' : In x dir) by now rewrite In_sorted in Hx.
    specialize (H x Hx'). apply negb_false_iff in H. apply negb_false_iff.
    apply mem_In. apply mem_In in H. now rewrite In_sorted.
Qed.

Lemma update_main_run (w : World) (content : string) :
  descriptor w = Some content ->
  let dir := sorted (map basename (glob w "DualCameraApp/*.swift")) in
  let prj := sorted (FixXcodeProject.project_files content) in
  let missing := List.filter (fun f => negb (mem f prj)) dir in
  UpdateProject.main w =
  (Ret tt,
   say w ([ "Checking for missing Swift files in Xcode project...";
            "Swift files in directory: " +++ str_of_nat (List.length dir);
            "Swift files in project: " +++ str_of_nat (List.length prj) ]
          ++ match missing with
             | [] => [ nl +++ "All Swift files are properly included in the project!" ]
             | _ :: _ =>
                 (nl +++ "Missing " +++ str_of_nat (List.length missing)
                    +++ " Swift files from project:")
                 :: map (fun file => "  - " +++ file) missing
                 ++ [ nl +++ "These files need to be added to the Xcode project manually.";
                      "Please open the project in Xcode and add these files to the target." ]
             end)).
Proof.
  intros Hd dir prj missing.
  unfold UpdateProject.main, UpdateProject.get_swift_files_in_directory,
    UpdateProject.get_swift_files_in_project.
  rewrite bind_print, bind_bind, bind_glob, bind_ret, bind_bind, bind_read_file.
  change (files (say w _)) with (files w).
  change (glob (say w _)) with (glob w).
  unfold descriptor in Hd. rewrite Hd, bind_ret.
  fold dir. change (sorted (map _ (finditer _ content))) with prj. fold missing.
  rewrite !bind_print, !say_say.
  destruct missing as [|f0 ms].
  - rewrite print_say, say_say. reflexivity.
  - rewrite bind_print, say_say, bind_for_each_print, say_say, bind_print, say_say.
    rewrite print_say, say_say. simpl. rewrite <- !app_assoc. reflexivity.
Qed.

End Agreement.

(** X5: [update_project.py] and [fix_xcode_project.py] agree on when
    nothing is missing.  Run on the same descriptor and directory, the
    report of [update_project.py] contains "All Swift files are properly
    included in the project!" exactly when [update_project_file] prints
    "No missing files found!" (and writes nothing): both look for the names
    with the same pattern, and sorting the two lists first (lines 18 and
    35 of [update_project.py]) makes no difference. *)
Theorem scripts_agree_on_nothing_missing (w : World) (content : string) :
  descriptor w = Some content ->
  exists report action : list string,
    stdout (run UpdateProject.main w) = stdout w ++ report /\
    stdout (run FixXcodeProject.update_project_file w) = stdout w ++ action /\
    (In (nl +++ "All Swift files are properly included in the project!") report <->
     In "No missing files found!" action).
Proof.
  intros Hd. unfold run.
  rewrite (update_main_run w content Hd), (update_project_file_run w content Hd).
  cbv zeta.
  pose proof (missing_sorted (map basename (glob w "DualCameraApp/*.swift"))
                (FixXcodeProject.project_files content)) as Hiff.
  unfold FixXcodeProject.missing_files.
  destruct (List.filter _ (sorted _)) as [|f0 ms] eqn:E1;
    destruct (List.filter _ (map basename _)) as [|g0 gs] eqn:E2.
  - do 2 eexists. split; [reflexivity|]. split; [reflexivity|].
    split; intros _; simpl; auto.
  - exfalso. destruct Hiff as [Hiff _]. specialize (Hiff eq_refl). discriminate.
  - exfalso. destruct Hiff as [_ Hiff]. specialize (Hiff eq_refl). discriminate.
  - destruct (FixXcodeProject.find_sections content) as [[[[bs rs] ss] gs']|].
    + destruct (map_m_draw_ids_run (g0 :: gs)
                  (say w ["Adding " +++ str_of_nat (List.length (g0 :: gs))
                            +++ " missing Swift files to project..."]))
        as (ids & Hrun & _).
      unfold bind at 1. rewrite Hrun.
      rewrite bind_write_file, bind_print, for_each_print.
      do 2 eexists. split; [reflexivity|].
      split; [simpl; rewrite <- !app_assoc; reflexivity|].
      split; intros H; exfalso.
      * simpl in H. rewrite in_app_iff, in_map_iff in H. simpl in H.
        unfold nl, chr in H. simpl in H.
        repeat match goal with
               | H : _ \/ _ |- _ => destruct H as [H|H]
               | H : exists _, _ |- _ => destruct H as (? & H & _)
               | H : False |- _ => contradiction
               end; discriminate H.
      * simpl in H. rewrite in_map_iff in H.
        repeat match goal with
               | H : _ \/ _ |- _ => destruct H as [H|H]
               | H : exists _, _ |- _ => destruct H as (? & H & _)
               | H : False |- _ => contradiction
               end; discriminate H.
    + do 2 eexists. split; [reflexivity|].
      split; [simpl; rewrite <- !app_assoc; reflexivity|].
      split; intros H; exfalso.
      * simpl in H. rewrite in_app_iff, in_map_iff in H. simpl in H.
        unfold nl, chr in H. simpl in H.
        repeat match goal with
               | H : _ \/ _ |- _ => destruct H as [H|H]
               | H : exists _, _ |- _ => destruct H as (? & H & _)
               | H : False |- _ => contradiction
               end; discriminate H.
      * simpl in H.
        repeat match goal with
               | H : _ \/ _ |- _ => destruct H as [H|H]
               | H : False |- _ => contradiction
               end; discriminate H.
Qed.

Lemma scripts_agree_on_nothing_missing_witness :
  let w := Samples.world project_file Samples.project_b
             ["DualCameraApp/AppDelegate.swift"; "DualCameraApp/New.swift"]
             Samples.mix in
  exists report action : list string,
    stdout (run UpdateProject.main w) = stdout w ++ report /\
    stdout (run FixXcodeProject.update_project_file w) = stdout w ++ action /\
    (In (nl +++ "All Swift files are properly included in the project!") report <->
     In "No missing files found!" action).
Proof.
  intros w. apply (scripts_agree_on_nothing_missing w Samples.project_b).
  vm_compute. reflexivity.
Defined.

(** ** What an allocated identifier looks like *)

Section IdentifierFormat.

Lemma all_chars_app (p : ascii -> bool) (a b : string) :
  all_chars p (a +++ b) = all_chars p a && all_chars p b.
Proof.
  induction a as [|c a IH]; simpl; [reflexivity|]. now rewrite IH, andb_assoc.
Qed.

Lemma all_chars_cat (p : ascii -> bool) (l : list string) :
  Forall (fun s => all_chars p s = true) l -> all_chars p (cat l) = true.
Proof.
  induction 1 as [|s l Hs _ IH]; simpl; [reflexivity|].
  now rewrite all_chars_app, Hs, IH.
Qed.

Lemma all_chars_take (p : ascii -> bool) (n : nat) (s : string) :
  all_chars p s = true -> all_chars p (take n s) = true.
Proof.
  revert n. induction s as [|c s IH]; intros [|n] H; simpl; try reflexivity.
  simpl in H. apply andb_true_iff in H as [Hc Hs]. now rewrite Hc, IH.
Qed.

Lemma length_take (n : nat) (s : string) :
  String.length (take n s) = Nat.min n (String.length s).
Proof.
  revert n. induction s as [|c s IH]; intros [|n]; simpl; try reflexivity.
  now rewrite IH.
Qed.

Lemma length_upper (s : string) : String.length (upper s) = String.length s.
Proof. induction s as [|c s IH]; simpl; [reflexivity | now rewrite IH]. Qed.

Lemma length_app_string (a b : string) :
  String.length (a +++ b) = String.length a + String.length b.
Proof. induction a as [|c a IH]; simpl; [reflexivity | now rewrite IH]. Qed.

Lemma length_cat (n : nat) (l : list string) :
  Forall (fun s => String.length s = n) l ->
  String.length (cat l) = n * List.length l.
Proof.
  induction 1 as [|s l Hs _ IH]; simpl; [lia|].
  rewrite length_app_string, Hs, IH. lia.
Qed.

Lemma upper_hex_lower (c : ascii) : hex_lower c = true -> hexAF (upper_char c) = true.
Proof.
  destruct c as [[] [] [] [] [] [] [] []]; vm_compute; intros H;
    first [reflexivity | discriminate H].
Qed.

Lemma all_chars_upper (s : string) :
  all_chars hex_lower s = true -> all_chars hexAF (upper s) = true.
Proof.
  induction s as [|c s IH]; simpl; [reflexivity|]. intros H.
  apply andb_true_iff in H as [Hc Hs]. now rewrite (upper_hex_lower c Hc), IH.
Qed.

Lemma lower_digit (v : nat) :
  v < 16 ->
  String.length (String.substring v 1 "0123456789abcdef") = 1 /\
  all_chars hex_lower (String.substring v 1 "0123456789abcdef") = true.
Proof.
  intros H. do 16 (destruct v as [|v]; [split; reflexivity|]). lia.
Qed.

Lemma upper_digit (v : nat) :
  v < 16 ->
  String.length (String.substring v 1 "0123456789ABCDEF") = 1 /\
  all_chars hexAF (String.substring v 1 "0123456789ABCDEF") = true.
Proof.
  intros H. do 16 (destruct v as [|v]; [split; reflexivity|]). lia.
Qed.

Lemma hex24_digits (w : World) (c : nat) : hex24 (digits w c) = true.
Proof.
  unfold hex24, digits. apply andb_true_iff. split.
  - apply Nat.eqb_eq. rewrite (length_cat 1).
    + now rewrite length_map, length_seq.
    + apply List.Forall_forall. intros s Hs. apply in_map_iff in Hs as (i & <- & _).
      apply upper_digit. apply Nat.mod_upper_bound. discriminate.
  - apply all_chars_cat. apply List.Forall_forall. intros s Hs.
    apply in_map_iff in Hs as (i & <- & _).
    apply upper_digit. apply Nat.mod_upper_bound. discriminate.
Qed.

Lemma uuid_hex_digits (w : World) (c : nat) :
  String.length (uuid_hex w c) = 32 /\ all_chars hex_lower (uuid_hex w c) = true.
Proof.
  unfold uuid_hex.
  assert (Hv : forall i d,
            (if Nat.eqb i 12 then 4 else if Nat.eqb i 16 then 8 + d mod 4 else d mod 16)
            < 16).
  { intros i d. destruct (Nat.eqb i 12); [lia|]. destruct (Nat.eqb i 16).
    - pose proof (Nat.mod_upper_bound d 4). lia.
    - apply Nat.mod_upper_bound. discriminate. }
  split.
  - rewrite (length_cat 1).
    + now rewrite length_map, length_combine, length_map, !length_seq.
    + apply List.Forall_forall. intros s Hs.
      apply in_map_iff in Hs as ([i d] & <- & _). apply lower_digit, Hv.
  - apply all_chars_cat. apply List.Forall_forall. intros s Hs.
    apply in_map_iff in Hs as ([i d] & <- & _). apply lower_digit, Hv.
Qed.

Lemma hex24_upper_take (s : string) :
  24 <= String.length s -> all_chars hex_lower s = true ->
  hex24 (upper (take 24 s)) = true.
Proof.
  intros Hlen Hall. unfold hex24. apply andb_true_iff. split.
  - apply Nat.eqb_eq. rewrite length_upper, length_take. lia.
  - apply all_chars_upper. now apply all_chars_take.
Qed.

Lemma draw_run (w : World) : draw w = (Ret (entropy w (cursor w)), advance w 1).
Proof. unfold draw, advance. now rewrite Nat.add_1_r. Qed.

Lemma repeat_draw_run (n : nat) (w : World) :
  repeat_m n draw w =
  (Ret (map (fun i => entropy w (cursor w + i)) (List.seq 0 n)), advance w n).
Proof.
  revert w. induction n as [|n IH]; intros w.
  - simpl. now rewrite advance_0.
  - simpl repeat_m. unfold bind at 1. rewrite draw_run.
    unfold bind at 1. rewrite IH. unfold ret.
    rewrite advance_advance. f_equal. f_equal.
    simpl List.seq. simpl map. rewrite Nat.add_0_r. f_equal.
    rewrite <- seq_shift, map_map. apply map_ext. intros i.
    simpl. now rewrite Nat.add_1_r, Nat.add_succ_r.
Qed.

Lemma uuid4_hex_run (w : World) :
  uuid4_hex w = (Ret (uuid_hex w (cursor w)), advance w 32).
Proof. unfold uuid4_hex. unfold bind. now rewrite repeat_draw_run. Qed.

Lemma fresh_id_run (w : World) :
  AddSwiftFiles.fresh_id w =
  (Ret (upper (take 24 (uuid_hex w (cursor w)))), advance w 32).
Proof. unfold AddSwiftFiles.fresh_id. unfold bind. now rewrite uuid4_hex_run. Qed.

Lemma fresh_id_run_z (w : World) :
  AddFilesToXcode.fresh_id w =
  (Ret (upper (take 24 (uuid_hex w (cursor w)))), advance w 32).
Proof. unfold AddFilesToXcode.fresh_id. unfold bind. now rewrite uuid4_hex_run. Qed.

Lemma hex24_fresh (w : World) (c : nat) : hex24 (upper (take 24 (uuid_hex w c))) = true.
Proof.
  destruct (uuid_hex_digits w c) as [Hlen Hall].
  apply hex24_upper_take; [lia | assumption].
Qed.

End IdentifierFormat.

Section DigestFormat.

Local Open Scope Z_scope.

Lemma byte_range (x : Z) : 0 <= Z.land x 0xff < 256.
Proof.
  change 0xff with (Z.ones 8). rewrite Z.land_ones by lia.
  apply Z.mod_pos_bound. reflexivity.
Qed.

Lemma le_bytes_range (n : nat) (x : Z) :
  Forall (fun b => 0 <= b < 256) (MD5.le_bytes n x).
Proof.
  revert x. induction n as [|n IH]; intros x; simpl; constructor.
  - apply byte_range.
  - apply IH.
Qed.

Lemma length_le_bytes (n : nat) (x : Z) : List.length (MD5.le_bytes n x) = n.
Proof. revert x. induction n as [|n IH]; intros x; simpl; [reflexivity | now rewrite IH]. Qed.

Lemma digest_bytes (s : string) :
  List.length (MD5.digest s) = 16%nat /\ Forall (fun b => 0 <= b < 256) (MD5.digest s).
Proof.
  unfold MD5.digest. cbv zeta. split.
  - now rewrite !length_app, !length_le_bytes.
  - repeat (apply Forall_app; split); apply le_bytes_range.
Qed.

Lemma hex_digit_lower (x : Z) :
  0 <= x < 16 ->
  String.length (MD5.hex_digit x) = 1%nat /\
  all_chars hex_lower (MD5.hex_digit x) = true.
Proof.
  intros H. unfold MD5.hex_digit. apply lower_digit. lia.
Qed.

Lemma hexdigest_digits (s : string) :
  String.length (MD5.hexdigest s) = 32%nat /\
  all_chars hex_lower (MD5.hexdigest s) = true.
Proof.
  unfold MD5.hexdigest. destruct (digest_bytes s) as [Hlen Hall].
  assert (Hpair : forall b, 0 <= b < 256 ->
            String.length (MD5.hex_digit (Z.shiftr b 4) +++ MD5.hex_digit (Z.land b 0xf))
              = 2%nat /\
            all_chars hex_lower
              (MD5.hex_digit (Z.shiftr b 4) +++ MD5.hex_digit (Z.land b 0xf)) = true).
  { intros b Hb.
    assert (H1 : 0 <= Z.shiftr b 4 < 16).
    { rewrite Z.shiftr_div_pow2 by lia. change (2 ^ 4) with 16.
      split; [apply Z.div_pos; lia | apply Z.div_lt_upper_bound; lia]. }
    assert (H2 : 0 <= Z.land b 0xf < 16).
    { change 0xf with (Z.ones 4). rewrite Z.land_ones by lia.
      apply Z.mod_pos_bound. reflexivity. }
    destruct (hex_digit_lower _ H1) as [L1 A1].
    destruct (hex_digit_lower _ H2) as [L2 A2].
    rewrite length_app_string, all_chars_app, L1, L2, A1, A2. auto. }
  split.
  - rewrite (length_cat 2).
    + rewrite length_map, Hlen. reflexivity.
    + apply List.Forall_forall. intros x Hx. apply in_map_iff in Hx as (b & <- & Hb).
      apply Hpair. rewrite List.Forall_forall in Hall. auto.
  - apply all_chars_cat. apply List.Forall_forall. intros x Hx.
    apply in_map_iff in Hx as (b & <- & Hb).
    apply Hpair. rewrite List.Forall_forall in Hall. auto.
Qed.

End DigestFormat.

(** X6: every allocator yields an identifier of the form [[A-F0-9]{24}].
    [generate_uuid] of [fix_xcode_project.py], the [uuid4]-based
    identifiers of [add_swift_files.py] and [Z/add_files_to_xcode.py], and
    [generate_id] of [fix_project.py] (for every file name) return exactly
    24 characters, each a digit or an upper-case letter from A to F; the
    random ones do so whatever the random source yields. *)
Theorem identifiers_are_24_hex_digits :
  (forall w, exists id,
     result FixXcodeProject.generate_uuid w = Ret id /\ hex24 id = true) /\
  (forall w, exists id,
     result AddSwiftFiles.fresh_id w = Ret id /\ hex24 id = true) /\
  (forall w, exists id,
     result AddFilesToXcode.fresh_id w = Ret id /\ hex24 id = true) /\
  (forall filename, hex24 (FixProject.generate_id filename) = true).
Proof.
  repeat split.
  - intros w. eexists. unfold result. rewrite generate_uuid_run.
    split; [reflexivity | apply hex24_digits].
  - intros w. eexists. unfold result. rewrite fresh_id_run.
    split; [reflexivity | apply hex24_fresh].
  - intros w. eexists. unfold result.
    rewrite fresh_id_run_z. split; [reflexivity | apply hex24_fresh].
  - intros filename. unfold FixProject.generate_id.
    destruct (hexdigest_digits ("com.dualcamera." +++ filename)) as [Hlen Hall].
    apply hex24_upper_take; [lia | assumption].
Qed.

(** ** Lines of a text and of what [strip] leaves of it *)

Section StripLines.

Lemma split_nl_app (a b : string) :
  split_nl (a +++ b) =
  removelast (split_nl a) ++
  match split_nl b with
  | h :: t => (List.last (split_nl a) EmptyString +++ h) :: t
  | [] => []
  end.
Proof.
  induction a as [|c a IH].
  - simpl. pose proof (split_nl_not_nil b). now destruct (split_nl b).
  - change (String c a +++ b) with (String c (a +++ b)).
    rewrite !split_nl_cons, IH.
    pose proof (split_nl_not_nil a) as Ha. pose proof (split_nl_not_nil b) as Hb.
    destruct (split_nl b) as [|hb tb]; [contradiction|].
    destruct (split_nl a) as [|ha ta]; [contradiction|].
    destruct (is_nl c).
    + destruct ta; reflexivity.
    + destruct ta; reflexivity.
Qed.

Lemma blank_lines (w : string) : blank w = true -> Forall (fun l => blank l = true) (split_nl w).
Proof.
  unfold blank. induction w as [|c w IH]; simpl; [repeat constructor|].
  intros H. apply andb_true_iff in H as [Hc Hw]. specialize (IH Hw).
  destruct (is_nl c); [constructor; [reflexivity | assumption]|].
  destruct (split_nl w) as [|h t]; [repeat constructor; simpl; now rewrite Hc|].
  inversion IH; subst. constructor; [|assumption]. simpl. now rewrite Hc.
Qed.

Lemma ids_of_blank_lines (l : list string) :
  Forall (fun x => blank x = true) l -> ids_of_lines l = [].
Proof.
  induction 1 as [|x l Hx _ IH]; [reflexivity|].
  change (x :: l) with ([x] ++ l).
  now rewrite ids_of_lines_app, (ids_of_blank_line x Hx), IH.
Qed.

Lemma strip_before_blank (x w : string) : blank w = true -> strip (x +++ w) = strip x.
Proof.
  intros Hw. unfold strip.
  destruct (lstrip x) as [|c r] eqn:E.
  - destruct (lstrip_split x) as (v & Hv & Ex). rewrite E, append_nil_r in Ex. subst v.
    rewrite lstrip_blank by assumption.
    destruct (lstrip_split w) as (v & Hv' & Ew).
    assert (Hb : blank (lstrip w) = true).
    { rewrite Ew in Hw. unfold blank in *. rewrite all_chars_app in Hw.
      now apply andb_true_iff in Hw as [_ Hw]. }
    now rewrite rstrip_blank.
  - rewrite lstrip_app by (rewrite E; discriminate).
    rewrite E. now apply rstrip_app_blank.
Qed.

Lemma removelast_last (l : list string) :
  l <> [] -> l = removelast l ++ [List.last l EmptyString].
Proof. intros H. now apply app_removelast_last. Qed.

Lemma Forall_removelast (P : string -> Prop) (l : list string) :
  Forall P l -> Forall P (removelast l).
Proof.
  induction 1 as [|x l Hx Hl IH]; [constructor|].
  simpl. destruct l; [constructor | now constructor].
Qed.

Lemma Forall_last (P : string -> Prop) (l : list string) :
  l <> [] -> Forall P l -> P (List.last l EmptyString).
Proof.
  intros Hne H. rewrite (removelast_last l Hne) in H.
  apply Forall_app in H as [_ H]. now inversion H.
Qed.

Lemma ids_blank_suffix (a w : string) :
  blank w = true ->
  ids_of_lines (split_nl (a +++ w)) = ids_of_lines (split_nl a).
Proof.
  intros Hw. rewrite split_nl_app.
  pose proof (blank_lines w Hw) as Hl. pose proof (split_nl_not_nil w) as Hne.
  destruct (split_nl w) as [|hw tw]; [contradiction|].
  inversion Hl as [|? ? Hhw Htw]; subst.
  transitivity (ids_of_lines (removelast (split_nl a)
                                ++ [List.last (split_nl a) EmptyString]));
    [|now rewrite <- (removelast_last (split_nl a) (split_nl_not_nil a))].
  rewrite !ids_of_lines_app. f_equal.
  change ((List.last (split_nl a) EmptyString +++ hw) :: tw)
    with ([List.last (split_nl a) EmptyString +++ hw] ++ tw).
  rewrite ids_of_lines_app, (ids_of_blank_lines tw Htw), app_nil_r.
  unfold ids_of_lines. simpl. now rewrite strip_before_blank.
Qed.

Lemma ids_blank_prefix (w a : string) :
  blank w = true ->
  ids_of_lines (split_nl (w +++ a)) = ids_of_lines (split_nl a).
Proof.
  intros Hw. rewrite split_nl_app.
  pose proof (blank_lines w Hw) as Hl.
  pose proof (split_nl_not_nil w) as Hnw. pose proof (split_nl_not_nil a) as Hna.
  destruct (split_nl a) as [|ha ta]; [contradiction|].
  rewrite ids_of_lines_app.
  rewrite (ids_of_blank_lines _ (Forall_removelast _ _ Hl)). simpl app.
  change ((List.last (split_nl w) EmptyString +++ ha) :: ta)
    with ([List.last (split_nl w) EmptyString +++ ha] ++ ta).
  change (ha :: ta) with ([ha] ++ ta).
  rewrite !ids_of_lines_app. f_equal.
  unfold ids_of_lines. simpl.
  now rewrite strip_after_blank by (apply Forall_last; assumption).
Qed.

Lemma rstrip_split (t : string) : exists w, blank w = true /\ t = rstrip t +++ w.
Proof.
  induction t as [|c t (w & Hw & E)]; [exists EmptyString; auto|].
  simpl. destruct (rstrip t) as [|x r] eqn:Er.
  - simpl in E. subst w. destruct (is_space c) eqn:Ec.
    + exists (String c t). unfold blank in *. simpl. now rewrite Ec, Hw.
    + exists t. auto.
  - exists w. split; [assumption|]. simpl. f_equal. exact E.
Qed.

(** [strip] removes no member: the lines it takes away are blank. *)
Lemma member_ids_strip (body : string) :
  Model.member_ids (strip body) = Model.member_ids body.
Proof.
  rewrite !member_ids_lines.
  destruct (lstrip_split body) as (w1 & Hw1 & E1).
  destruct (rstrip_split (lstrip body)) as (w2 & Hw2 & E2).
  rewrite E1 at 2. rewrite E2. fold (strip body).
  now rewrite ids_blank_prefix, ids_blank_suffix.
Qed.

End StripLines.

(** ** add_swift_files.py: what a run does *)

Section AddSwiftFilesRuns.

Import AddSwiftFiles.

Lemma draw_ids_run_uuid (filename : string) (w : World) :
  draw_ids filename w =
  (Ret (filename, upper (take 24 (uuid_hex w (cursor w))),
        upper (take 24 (uuid_hex w (cursor w + 32)))),
   advance w 64).
Proof.
  unfold draw_ids. unfold bind at 1. rewrite fresh_id_run.
  unfold bind at 1. rewrite fresh_id_run. unfold ret.
  now rewrite advance_advance.
Qed.

Lemma map_m_draw_ids_uuid (l : list string) (w : World) :
  exists ids,
    map_m draw_ids l w = (Ret ids, advance w (64 * List.length l)) /\
    map file_of ids = l /\
    Forall (fun e => hex24 (ref_of e) = true /\ hex24 (build_of e) = true) ids.
Proof.
  revert w. induction l as [|f l IH]; intros w.
  - exists []. simpl. rewrite advance_0. auto.
  - destruct (IH (advance w 64)) as (ids & Hrun & Hfiles & Hhex).
    eexists (_ :: ids). simpl map_m. unfold bind at 1. rewrite draw_ids_run_uuid.
    unfold bind at 1. rewrite Hrun. unfold ret. rewrite advance_advance.
    replace (64 * List.length (f :: l)) with (64 + 64 * List.length l)
      by (simpl List.length; lia).
    split; [reflexivity|]. split; [simpl; now rewrite Hfiles|].
    constructor; [|assumption]. simpl. split; apply hex24_fresh.
Qed.

(** The run of the script up to the edit: the descriptor is read and the
    eight identifiers are drawn. *)
Lemma main_run_uuid (w : World) (content : string) :
  descriptor w = Some content ->
  exists ids,
    map file_of ids = files_to_add /\
    Forall (fun e => hex24 (ref_of e) = true /\ hex24 (build_of e) = true) ids /\
    main w =
    (let* content :=
       edit content (search file_ref_section_re content)
         (search build_file_section_re content)
         (search sources_build_phase_re content)
         (search group_section_re content) ids in
     write_file project_file content ;;
     print ("✅ Successfully added " +++ str_of_nat (List.length files_to_add)
              +++ " files to Xcode project!") ;;
     for_each files_to_add (fun f => print ("  - " +++ f))) (advance w 256).
Proof.
  intros Hd. destruct (map_m_draw_ids_uuid files_to_add w) as (ids & Hrun & Hf & Hhex).
  exists ids. split; [assumption|]. split; [assumption|].
  unfold main. rewrite bind_read_file. unfold descriptor in Hd. rewrite Hd.
  unfold bind at 1. rewrite Hrun. reflexivity.
Qed.

Lemma edit_missing (content : string) (a b c g : option mobj)
    (ids : list (string * string * string)) :
  a = None \/ b = None \/ c = None ->
  edit content a b c g ids = raise "AttributeError".
Proof.
  intros H. unfold edit.
  destruct a; [|reflexivity]. destruct b; [|reflexivity]. destruct c; [|reflexivity].
  destruct H as [H|[H|H]]; discriminate H.
Qed.

End AddSwiftFilesRuns.

(** X7: a section [add_swift_files.py] cannot do without.  If the
    PBXFileReference section, the PBXBuildFile section or the Sources
    phase is not found (lines 18-20), the script dies on [AttributeError]
    at line 39, 44 or 49: after the eight identifiers were drawn (256
    draws), before anything is printed and before the descriptor is
    written; every file is what it was. *)
Theorem missing_section_raises_before_writing (w : World) (content : string) :
  descriptor w = Some content ->
  search AddSwiftFiles.file_ref_section_re content = None \/
  search AddSwiftFiles.build_file_section_re content = None \/
  search AddSwiftFiles.sources_build_phase_re content = None ->
  result AddSwiftFiles.main w = Raise "AttributeError" /\
  files (run AddSwiftFiles.main w) = files w /\
  stdout (run AddSwiftFiles.main w) = stdout w /\
  cursor (run AddSwiftFiles.main w) = cursor w + 256.
Proof.
  intros Hd Hnone.
  destruct (main_run_uuid w content Hd) as (ids & _ & _ & Hrun).
  unfold result, run. rewrite Hrun.
  rewrite (edit_missing content _ _ _ _ ids Hnone).
  repeat split; reflexivity.
Qed.

(** A descriptor whose Sources phase does not say [isa = PBXSourcesBuildPhase;]. *)
Lemma missing_section_raises_before_writing_witness :
  let content :=
    replace Samples.project_a "isa = PBXSourcesBuildPhase;" "isa = PBXSources;" in
  let w := Samples.world project_file content [] Samples.mix in
  result AddSwiftFiles.main w = Raise "AttributeError" /\
  files (run AddSwiftFiles.main w) = files w /\
  stdout (run AddSwiftFiles.main w) = stdout w /\
  cursor (run AddSwiftFiles.main w) = cursor w + 256.
Proof.
  intros content w.
  apply (missing_section_raises_before_writing w content).
  - vm_compute. reflexivity.
  - right. right. vm_compute. reflexivity.
Defined.

(** ** add_swift_files.py: the replacement template and the member lists *)

Section Template.

Import AddSwiftFiles.

Lemma expand_plain (a t : string) (m : mobj) :
  plain a = true -> expand (a +++ t) m = option_map (String.append a) (expand t m).
Proof.
  unfold plain. induction a as [|c a IH]; intros H.
  - simpl. now destruct (expand t m).
  - simpl in H. apply andb_true_iff in H as [Hc Ha].
    unfold other_than in Hc. apply negb_true_iff in Hc.
    change (String c a +++ t) with (String c (a +++ t)).
    simpl expand. rewrite Hc, (IH Ha). now destruct (expand t m).
Qed.

Lemma expand_head (t : string) (m : mobj) :
  expand (bs +++ "1" +++ bs +++ "n" +++ t) m =
  option_map (String.append (group m 1)) (option_map (String.append nl) (expand t m)).
Proof. reflexivity. Qed.

Lemma expand_tail (m : mobj) :
  expand (bs +++ "n" +++ bs +++ "t" +++ bs +++ "t" +++ bs +++ "t" +++ bs +++ "2") m =
  Some (nl +++ tab +++ tab +++ tab +++ group m 2).
Proof. reflexivity. Qed.

Lemma sources_template_expands (body : string)
    (ids : list (string * string * string)) (m : mobj) :
  plain (new_source_files body ids) = true ->
  expand (sources_template body ids) m =
  Some (group m 1 +++ listed (new_source_files body ids) +++ group m 2).
Proof.
  intros H. unfold sources_template.
  rewrite expand_head, (expand_plain _ _ m H), expand_tail.
  unfold listed. simpl option_map. now rewrite !append_assoc.
Qed.

Lemma all_chars_join (p : ascii -> bool) (sep : string) (l : list string) :
  all_chars p sep = true -> Forall (fun s => all_chars p s = true) l ->
  all_chars p (join sep l) = true.
Proof.
  intros Hsep. induction 1 as [|s l Hs Hl IH]; [reflexivity|].
  destruct l as [|s' l]; [exact Hs|].
  rewrite join_cons by discriminate. now rewrite !all_chars_app, Hs, Hsep, IH.
Qed.

Lemma all_chars_impl (p q : ascii -> bool) (s : string) :
  (forall c, p c = true -> q c = true) -> all_chars p s = true -> all_chars q s = true.
Proof.
  intros Hpq. induction s as [|c s IH]; simpl; [reflexivity|]. intros H.
  apply andb_true_iff in H as [Hc Hs]. now rewrite (Hpq c Hc), IH.
Qed.

Lemma hexAF_plain (c : ascii) : hexAF c = true -> other_than "\" c = true.
Proof. destruct c as [[] [] [] [] [] [] [] []]; vm_compute; congruence. Qed.

Lemma hexAF_word (c : ascii) : hexAF c = true -> word c = true.
Proof. destruct c as [[] [] [] [] [] [] [] []]; vm_compute; congruence. Qed.

Lemma hex24_plain (s : string) : hex24 s = true -> plain s = true.
Proof.
  unfold hex24, plain. intros H. apply andb_true_iff in H as [_ H].
  revert H. apply all_chars_impl, hexAF_plain.
Qed.

Lemma hex24_identifier (s : string) : hex24 s = true -> identifier s = true.
Proof.
  unfold hex24, identifier. intros H. apply andb_true_iff in H as [Hlen H].
  apply andb_true_iff. split.
  - destruct s; [discriminate Hlen | reflexivity].
  - revert H. apply all_chars_impl, hexAF_word.
Qed.

(** The member lines of the four files hold no backslash. *)
Lemma new_build_file_refs_plain (ids : list (string * string * string)) :
  Forall (fun e => plain (file_of e) = true) ids ->
  Forall (fun e => hex24 (ref_of e) = true /\ hex24 (build_of e) = true) ids ->
  plain (new_build_file_refs ids) = true.
Proof.
  intros Hf Hh. unfold plain, new_build_file_refs.
  apply all_chars_join; [reflexivity|].
  apply List.Forall_forall. intros line Hline.
  apply in_map_iff in Hline as ([[f r] b] & <- & Hin).
  rewrite List.Forall_forall in Hf, Hh.
  specialize (Hf _ Hin). destruct (Hh _ Hin) as [_ Hb]. simpl in Hf, Hb.
  apply hex24_plain in Hb. unfold plain in *.
  now rewrite !all_chars_app, Hb, Hf.
Qed.

Lemma sub_go_ext (r : regex) (f g : mobj -> string) :
  (forall m, f m = g m) ->
  forall s pos skip count, sub_go r f pos s skip count = sub_go r g pos s skip count.
Proof.
  intros Hfg. induction s as [|c s IH]; intros pos skip count.
  - simpl. destruct skip; [|reflexivity]. destruct count as [[|n]|];
      destruct (match_here r pos EmptyString); now rewrite ?Hfg.
  - simpl. destruct skip as [|k]; [|apply IH].
    destruct count as [[|n]|]; [reflexivity| |];
      (destruct (match_here r pos (String c s)) as [m|];
       [rewrite Hfg; destruct (Nat.eqb (m_end m) (m_start m)); now rewrite IH
       |now rewrite IH]).
Qed.

End Template.

Section MemberLists.

Import AddSwiftFiles.

Lemma ids_of_member_lines (l : list (string * string)) :
  forallb (fun '(id, c) => identifier id && one_line c) l = true ->
  ids_of_lines (map (fun '(id, c) => member_line id c) l) = map fst l.
Proof.
  induction l as [|[id c] l IH]; [reflexivity|]. intros H.
  simpl in H. apply andb_true_iff in H as [H Hl].
  apply andb_true_iff in H as [Hid Hc].
  change (map (fun '(id, c) => member_line id c) ((id, c) :: l))
    with ([EmptyString +++ member_line id c] ++ map (fun '(id, c) => member_line id c) l).
  rewrite ids_of_lines_app, (member_line_id EmptyString id c eq_refl Hid), (IH Hl).
  reflexivity.
Qed.

Lemma member_lines_one_line (l : list (string * string)) :
  forallb (fun '(id, c) => identifier id && one_line c) l = true ->
  Forall (fun e => one_line e = true) (map (fun '(id, c) => member_line id c) l).
Proof.
  induction l as [|[id c] l IH]; [constructor|]. intros H.
  simpl in H. apply andb_true_iff in H as [H Hl].
  apply andb_true_iff in H as [Hid Hc].
  constructor; [now apply member_line_one_line | now apply IH].
Qed.

(** Member lines written after what [strip] leaves of a list: the members
    that were there, then the new ones. *)
Lemma listed_members (body : string) (l : list (string * string)) :
  forallb (fun '(id, c) => identifier id && one_line c) l = true ->
  Model.member_ids
    (listed (strip body +++ nl +++ join nl (map (fun '(id, c) => member_line id c) l)))
  = Model.member_ids body ++ map fst l.
Proof.
  intros H. unfold listed. rewrite member_ids_lines.
  rewrite (ids_blank_prefix nl) by reflexivity.
  rewrite (ids_blank_suffix _ (nl +++ tab +++ tab +++ tab)) by reflexivity.
  rewrite split_nl_app_nl, ids_of_lines_app, <- member_ids_lines, member_ids_strip.
  f_equal.
  destruct l as [|e l]; [reflexivity|].
  rewrite split_nl_join; [|discriminate | now apply member_lines_one_line].
  now apply ids_of_member_lines.
Qed.

Lemma forallb_map {A B} (p : B -> bool) (f : A -> B) (l : list A) :
  forallb p (map f l) = forallb (fun x => p (f x)) l.
Proof. induction l as [|a l IH]; simpl; [reflexivity | now rewrite IH]. Qed.

Lemma forallb_impl {A} (p q : A -> bool) (l : list A) :
  (forall x, p x = true -> q x = true) -> forallb p l = true -> forallb q l = true.
Proof.
  intros H. induction l as [|a l IH]; simpl; [reflexivity|]. intros Hl.
  apply andb_true_iff in Hl as [Ha Hl]. now rewrite (H a Ha), IH.
Qed.

End MemberLists.

(** What [add_swift_files.py] puts between the parentheses of a list
    (lines 49-53 and 57-61) names the members that were there, in their
    order, followed by one new member per file: the build-file identifiers
    for the Sources list, the file-reference identifiers for the group. *)
Lemma listed_members_appended (body : string)
    (ids : list (string * string * string)) :
  forallb well_formed ids = true ->
  Model.member_ids (listed (new_source_files body ids))
    = Model.member_ids body ++ map build_of ids /\
  Model.member_ids (listed (new_children body ids))
    = Model.member_ids body ++ map ref_of ids.
Proof.
  intros H. split.
  - unfold new_source_files, new_build_file_refs.
    replace (map (fun '(f, r, b) =>
                    tab +++ tab +++ tab +++ tab +++ b +++ " /* " +++ f +++ " in Sources */,")
                 ids)
      with (map (fun '(id, c) => member_line id c)
              (map (fun '(f, r, b) => (b, f +++ " in Sources")) ids)).
    + rewrite listed_members.
      * now rewrite map_map; f_equal; apply map_ext; intros [[f r] b].
      * rewrite forallb_map. revert H. apply forallb_impl. intros [[f r] b].
        unfold well_formed. rewrite one_line_app.
        destruct (identifier r), (identifier b), (one_line f); simpl; intros Hx;
          try discriminate Hx; reflexivity.
    + rewrite map_map. apply map_ext. intros [[f r] b].
      unfold member_line. simpl. now rewrite !append_assoc.
  - unfold new_children, new_children_refs.
    replace (map (fun '(f, r, b) =>
                    tab +++ tab +++ tab +++ tab +++ r +++ " /* " +++ f +++ " */,")
                 ids)
      with (map (fun '(id, c) => member_line id c)
              (map (fun '(f, r, b) => (r, f)) ids)).
    + rewrite listed_members.
      * now rewrite map_map; f_equal; apply map_ext; intros [[f r] b].
      * rewrite forallb_map. revert H. apply forallb_impl. intros [[f r] b].
        unfold well_formed.
        destruct (identifier r), (identifier b), (one_line f); simpl; intros Hx;
          try discriminate Hx; reflexivity.
    + rewrite map_map. apply map_ext. intros [[f r] b]. reflexivity.
Qed.

Section AddSwiftFilesSuccess.

Import AddSwiftFiles.

(** With its three sections found, the edit is the substitution of line 52
    on the text left by lines 38-46, followed by the group step. *)
Lemma edit_found (content : string) (a b sp : mobj) (g : option mobj)
    (ids : list (string * string * string)) :
  exists (content2 : string) (finish : string -> string),
    edit content (Some a) (Some b) (Some sp) g ids =
    match sub_template sources_sub_re (sources_template (group sp 2) ids)
            content2 (Some 1) with
    | None => raise "re.error"
    | Some c => ret (finish c)
    end.
Proof.
  unfold edit. destruct g as [gs|].
  - eexists _, (fun c => replace c (group gs 1) _).
    unfold sources_template, new_source_files, new_build_file_refs.
    reflexivity.
  - eexists _, (fun c => c).
    unfold sources_template, new_source_files, new_build_file_refs.
    reflexivity.
Qed.

Lemma files_to_add_plain : forallb plain files_to_add = true.
Proof. vm_compute. reflexivity. Qed.

Lemma Forall_file_of (P : string -> Prop) (ids : list (string * string * string)) :
  Forall P (map file_of ids) -> Forall (fun e => P (file_of e)) ids.
Proof.
  induction ids as [|e ids IH]; intros H; [constructor|].
  inversion H; subst. constructor; auto.
Qed.

End AddSwiftFilesSuccess.

(** X8: when [add_swift_files.py] succeeds.  If the PBXFileReference
    section, the PBXBuildFile section and the Sources phase are found and
    the existing Sources members hold no backslash (they go into the
    replacement template of [re.sub], line 53), the run ends normally: it
    draws its eight identifiers, writes the descriptor and prints its five
    lines.  The DualCameraApp group is optional (line 56): nothing is
    asked of it. *)
Theorem add_swift_files_succeeds (w : World) (content : string) (a b sp : mobj) :
  descriptor w = Some content ->
  search AddSwiftFiles.file_ref_section_re content = Some a ->
  search AddSwiftFiles.build_file_section_re content = Some b ->
  search AddSwiftFiles.sources_build_phase_re content = Some sp ->
  plain (strip (group sp 2)) = true ->
  result AddSwiftFiles.main w = Ret tt /\
  (exists text, files (run AddSwiftFiles.main w) = <[project_file := text]> (files w)) /\
  stdout (run AddSwiftFiles.main w) =
    stdout w ++ [ "✅ Successfully added 4 files to Xcode project!";
                  "  - ZoomControl.swift"; "  - FlashControl.swift";
                  "  - TimerControl.swift"; "  - FocusExposureControl.swift" ] /\
  cursor (run AddSwiftFiles.main w) = cursor w + 256.
Proof.
  intros Hd Ha Hb Hsp Hplain.
  destruct (main_run_uuid w content Hd) as (ids & Hfiles & Hhex & Hrun).
  destruct (edit_found content a b sp (search AddSwiftFiles.group_section_re content) ids)
    as (content2 & finish & Hedit).
  assert (Htpl : plain (new_source_files (group sp 2) ids) = true).
  { unfold plain, new_source_files. rewrite !all_chars_app.
    fold (plain (strip (group sp 2))). rewrite Hplain.
    fold (plain (new_build_file_refs ids)).
    rewrite new_build_file_refs_plain; [reflexivity| |assumption].
    apply (Forall_file_of (fun f => plain f = true)). rewrite Hfiles.
    apply List.Forall_forall. intros f Hf.
    pose proof files_to_add_plain as Hall. rewrite forallb_forall in Hall. auto. }
  assert (E : exists text,
            AddSwiftFiles.main w =
            (Ret tt,
             say (store (advance w 256) project_file text)
               [ "✅ Successfully added 4 files to Xcode project!";
                 "  - ZoomControl.swift"; "  - FlashControl.swift";
                 "  - TimerControl.swift"; "  - FocusExposureControl.swift" ])).
  { eexists. rewrite Hrun, Ha, Hb, Hsp.
    unfold bind at 1. rewrite Hedit. unfold sub_template.
    rewrite (sources_template_expands _ _ _ Htpl).
    unfold ret at 1.
    rewrite bind_write_file, bind_print, for_each_print, say_say. reflexivity. }
  destruct E as (text & E). unfold result, run. rewrite E. cbn [fst snd].
  split; [reflexivity|]. split; [exists text; reflexivity|]. split; reflexivity.
Qed.

Lemma add_swift_files_succeeds_witness :
  let w := Samples.world project_file Samples.project_a [] Samples.mix in
  result AddSwiftFiles.main w = Ret tt /\
  (exists text, files (run AddSwiftFiles.main w) = <[project_file := text]> (files w)) /\
  stdout (run AddSwiftFiles.main w) =
    stdout w ++ [ "✅ Successfully added 4 files to Xcode project!";
                  "  - ZoomControl.swift"; "  - FlashControl.swift";
                  "  - TimerControl.swift"; "  - FocusExposureControl.swift" ] /\
  cursor (run AddSwiftFiles.main w) = cursor w + 256.
Proof.
  intros w.
  destruct (search AddSwiftFiles.file_ref_section_re Samples.project_a) as [a|] eqn:Ea;
    [|vm_compute in Ea; discriminate Ea].
  destruct (search AddSwiftFiles.build_file_section_re Samples.project_a) as [b|] eqn:Eb;
    [|vm_compute in Eb; discriminate Eb].
  destruct (search AddSwiftFiles.sources_build_phase_re Samples.project_a) as [sp|] eqn:Es;
    [|vm_compute in Es; discriminate Es].
  apply (add_swift_files_succeeds w Samples.project_a a b sp).
  - vm_compute. reflexivity.
  - exact Ea.
  - exact Eb.
  - exact Es.
  - vm_compute in Es. injection Es as <-. vm_compute. reflexivity.
Defined.

(** * Runs of the scripts, step by step *)

(** ** Counting occurrences line by line *)

Section Counting.

Lemma prefix_length (p s : string) :
  String.prefix p s = true -> String.length p <= String.length s.
Proof.
  revert s. induction p as [|a p IH]; intros s H; simpl; [lia|].
  destruct s as [|b s]; [discriminate H|]. simpl in H.
  destruct (Ascii.ascii_dec a b); [|discriminate H].
  specialize (IH s H). simpl. lia.
Qed.

Lemma prefix_app (p b : string) : String.prefix p (p +++ b) = true.
Proof.
  induction p as [|c p IH]; [simpl; destruct b; reflexivity|]. simpl.
  destruct (Ascii.ascii_dec c c); [assumption | contradiction].
Qed.

(** A text without newline does not reach across the end of a line. *)
Lemma prefix_in_line (p a t : string) :
  one_line p = true ->
  String.prefix p (a +++ nl +++ t) = String.prefix p a.
Proof.
  revert a. induction p as [|c p IH]; intros a H; [destruct a; reflexivity|].
  unfold one_line in H. simpl in H. apply andb_true_iff in H as [Hc Hp].
  destruct a as [|x a].
  - simpl. destruct (Ascii.ascii_dec c (ascii_of_nat 10)) as [->|]; [|reflexivity].
    discriminate Hc.
  - simpl. destruct (Ascii.ascii_dec c x); [|reflexivity]. now apply IH.
Qed.

Lemma count_go_line (p a t : string) (k : nat) :
  p <> EmptyString -> one_line p = true -> k <= String.length a ->
  Model.count_go p (a +++ nl +++ t) k = Model.count_go p a k + Model.count_go p t 0.
Proof.
  intros Hne Hp. revert k. induction a as [|x a IH]; intros k Hk.
  - simpl in Hk. replace k with 0 by lia.
    change (EmptyString +++ nl +++ t) with (String (ascii_of_nat 10) t).
    cbn [Model.count_go].
    replace (String.prefix p (String (ascii_of_nat 10) t)) with false; [reflexivity|].
    symmetry. destruct p as [|c p]; [contradiction|].
    unfold one_line in Hp. simpl in Hp. apply andb_true_iff in Hp as [Hc _].
    simpl. destruct (Ascii.ascii_dec c (ascii_of_nat 10)) as [->|]; [|reflexivity].
    discriminate Hc.
  - change (String x a +++ nl +++ t) with (String x (a +++ nl +++ t)).
    destruct k as [|k]; cbn [Model.count_go].
    + change (String x (a +++ nl +++ t)) with (String x a +++ nl +++ t).
      rewrite (prefix_in_line p (String x a) t Hp).
      destruct (String.prefix p (String x a)) eqn:E.
      * apply prefix_length in E. simpl in E.
        rewrite IH by lia. reflexivity.
      * apply IH. lia.
    + apply IH. simpl in Hk. lia.
Qed.

(** The occurrences in a text are those in its lines. *)
Lemma count_join (p : string) (ls : list string) :
  p <> EmptyString -> one_line p = true ->
  Model.count (join nl ls) p = list_sum (map (fun l => Model.count l p) ls).
Proof.
  intros Hne Hp. induction ls as [|a ls IH]; [reflexivity|].
  destruct ls as [|b ls]; [simpl; lia|].
  change (join nl (a :: b :: ls)) with (a +++ nl +++ join nl (b :: ls)).
  unfold Model.count in *. rewrite count_go_line by (assumption || lia).
  rewrite IH. reflexivity.
Qed.

Lemma count_occurrence (a p b : string) :
  p <> EmptyString -> 1 <= Model.count (a +++ p +++ b) p.
Proof.
  intros Hne. unfold Model.count. induction a as [|x a IH].
  - destruct p as [|c p]; [contradiction|].
    change (EmptyString +++ String c p +++ b) with (String c (p +++ b)).
    cbn [Model.count_go].
    change (String c (p +++ b)) with (String c p +++ b).
    rewrite prefix_app. lia.
  - change (String x a +++ p +++ b) with (String x (a +++ p +++ b)).
    cbn [Model.count_go].
    destruct (String.prefix p (String x (a +++ p +++ b))); [lia | exact IH].
Qed.

Lemma sum_list_insert (f : string -> nat) (i : nat) (x : string) (l : list string) :
  list_sum (map f (list_insert i x l)) = f x + list_sum (map f l).
Proof.
  rewrite list_insert_split. rewrite <- (firstn_skipn i l) at 3.
  rewrite !map_app, !list_sum_app. simpl. lia.
Qed.

Lemma sum_insert_all (f : string -> nat) (at_ : nat) (adds lines : list string) :
  list_sum (map f (FixXcodeProject.insert_all at_ adds lines))
  = list_sum (map f lines) + list_sum (map f adds).
Proof.
  induction adds as [|a adds IH]; [unfold FixXcodeProject.insert_all; simpl; lia|].
  rewrite insert_all_cons, sum_list_insert, IH. simpl. lia.
Qed.

Lemma sum_member (f : string -> nat) (x : string) (l : list string) :
  In x l -> f x <= list_sum (map f l).
Proof.
  induction l as [|a l IH]; [intros []|]. intros [->|H]; simpl; [lia|].
  specialize (IH H). lia.
Qed.

End Counting.

Section DuplicatePath.

Import FixXcodeProject.

Lemma file_ref_entry_path (r f : string) :
  1 <= Model.count (file_ref_entry r f) ("path = " +++ f +++ ";").
Proof.
  unfold file_ref_entry.
  replace (tab +++ tab +++ r +++ id_suffix +++ " /* " +++ f
             +++ " */ = {isa = PBXFileReference; lastKnownFileType = sourcecode.swift; path = "
             +++ f +++ "; sourceTree = " +++ dq +++ "<group>" +++ dq +++ "; };")
    with ((tab +++ tab +++ r +++ id_suffix +++ " /* " +++ f
             +++ " */ = {isa = PBXFileReference; lastKnownFileType = sourcecode.swift; ")
            +++ ("path = " +++ f +++ ";")
            +++ (" sourceTree = " +++ dq +++ "<group>" +++ dq +++ "; };")).
  - apply count_occurrence. discriminate.
  - rewrite !append_assoc. simpl. rewrite ?append_assoc. reflexivity.
Qed.

(** What a run of [update_project_file] comes to, branch by branch. *)
Lemma update_project_file_outcome (w : World) (content : string) :
  descriptor w = Some content ->
  let missing := missing_files (map basename (glob w "DualCameraApp/*.swift")) content in
  (missing = [] /\
   update_project_file w = (Ret tt, say w ["No missing files found!"])) \/
  (missing <> [] /\ find_sections content = None /\
   update_project_file w =
     (Ret tt,
      say w [ "Adding " +++ str_of_nat (List.length missing)
                +++ " missing Swift files to project...";
              "Could not find required sections in project file!" ])) \/
  (missing <> [] /\
   exists bs rs ss gs ids,
     find_sections content = Some (bs, rs, ss, gs) /\
     map file_of ids = missing /\
     update_project_file w =
       (Ret tt,
        say (store (advance w (48 * List.length missing)) project_file
               (insert_additions content (m_end bs) (m_end rs) (m_end ss) (m_end gs) ids))
            (("Adding " +++ str_of_nat (List.length missing)
                +++ " missing Swift files to project...")
               :: ("Successfully added " +++ str_of_nat (List.length missing)
                     +++ " Swift files to the project!")
               :: map (fun file => "  + " +++ file) missing))).
Proof.
  intros Hd missing.
  destruct (decide (missing = [])) as [Em|Hne].
  - left. split; [assumption|].
    rewrite (update_project_file_run w content Hd). fold missing. now rewrite Em.
  - right.
    rewrite (update_project_file_adds w content missing Hd eq_refl Hne). cbv zeta.
    destruct (find_sections content) as [[[[bs rs] ss] gs]|].
    + right. split; [assumption|].
      destruct (map_m_draw_ids_run missing
                  (say w ["Adding " +++ str_of_nat (List.length missing)
                            +++ " missing Swift files to project..."]))
        as (ids & Hrun & Hfiles).
      exists bs, rs, ss, gs, ids. split; [reflexivity|]. split; [assumption|].
      unfold bind at 1. rewrite Hrun.
      rewrite bind_write_file, bind_print, for_each_print, !say_say.
      f_equal. unfold say, store, advance. simpl. now rewrite <- app_assoc.
    + left. split; [assumption|]. split; [reflexivity|]. now rewrite say_say.
Qed.

End DuplicatePath.




(** ** Where a match lies *)

Section MatchPositions.

Lemma length_drop (n : nat) (s : string) :
  String.length (drop n s) = String.length s - n.
Proof.
  revert s. induction n as [|n IH]; intros s; [simpl; lia|].
  destruct s as [|c s]; [reflexivity|]. simpl. apply IH.
Qed.

Lemma drop_drop (n k : nat) (s : string) : drop k (drop n s) = drop (n + k) s.
Proof.
  revert s. induction n as [|n IH]; intros s; [reflexivity|].
  destruct s as [|c s]; [now destruct k|]. simpl. apply IH.
Qed.

Lemma drop_all (n : nat) (s : string) : String.length s <= n -> drop n s = EmptyString.
Proof.
  revert s. induction n as [|n IH]; intros s H.
  - destruct s; [reflexivity | simpl in H; lia].
  - destruct s as [|c s]; [reflexivity|]. simpl in *. apply IH. lia.
Qed.

Lemma take_nil (n : nat) : take n EmptyString = EmptyString.
Proof. now destruct n. Qed.

Lemma drop_nil (n : nat) : drop n EmptyString = EmptyString.
Proof. now destruct n. Qed.

Lemma drop_cons_pred (n : nat) (c : ascii) (s : string) :
  0 < n -> drop n (String c s) = drop (n - 1) s.
Proof. destruct n; [lia|]. intros _. simpl. now rewrite Nat.sub_0_r. Qed.

Lemma take_drop (n : nat) (s : string) : take n s +++ drop n s = s.
Proof.
  revert s. induction n as [|n IH]; intros s; [reflexivity|].
  destruct s as [|c s]; [reflexivity|]. simpl. now rewrite IH.
Qed.

Lemma rep_pos {R} (c : ascii -> bool) (g : bool) (s : string) :
  forall (lo : nat) (hi : option nat) (pos : N) (cs : spans) (k : @cont R) (x : R),
    rep c lo hi g pos s cs k = Some x ->
    exists n cs', n <= String.length s /\ k (pos + N.of_nat n)%N (drop n s) cs' = Some x.
Proof.
  induction s as [|a s IH]; intros lo hi pos cs k x H.
  - exists 0, cs. split; [lia|]. rewrite N.add_0_r. simpl.
    simpl in H. destruct g; destruct lo;
      first [ exact H | discriminate H
            | destruct (k pos EmptyString cs); [exact H | discriminate H] ].
  - assert (Hmore : forall lo' hi',
              rep c lo' hi' g (N.succ pos) s cs k = Some x ->
              exists n cs', n <= String.length (String a s) /\
                            k (pos + N.of_nat n)%N (drop n (String a s)) cs' = Some x).
    { intros lo' hi' H'. destruct (IH _ _ _ _ _ _ H') as (n & cs' & Hn & Hk).
      exists (S n), cs'. split; [simpl; lia|].
      replace (pos + N.of_nat (S n))%N with (N.succ pos + N.of_nat n)%N by lia.
      exact Hk. }
    assert (Hstop : match lo with O => k pos (String a s) cs | S _ => None end = Some x ->
              exists n cs', n <= String.length (String a s) /\
                            k (pos + N.of_nat n)%N (drop n (String a s)) cs' = Some x).
    { intros H'. exists 0, cs. split; [lia|]. rewrite N.add_0_r.
      destruct lo; [exact H' | discriminate H']. }
    simpl in H. destruct g.
    + destruct (c a).
      * destruct hi as [[|h]|].
        -- apply Hstop. exact H.
        -- destruct (rep c (Nat.pred lo) (Some h) true (N.succ pos) s cs k) eqn:E.
           ++ injection H as <-. eapply Hmore. exact E.
           ++ apply Hstop. exact H.
        -- destruct (rep c (Nat.pred lo) None true (N.succ pos) s cs k) eqn:E.
           ++ injection H as <-. eapply Hmore. exact E.
           ++ apply Hstop. exact H.
      * apply Hstop. exact H.
    + destruct (match lo with O => k pos (String a s) cs | S _ => None end) eqn:E.
      * injection H as <-. apply Hstop. reflexivity.
      * destruct (c a); [|discriminate H].
        destruct hi as [[|h]|]; [discriminate H | |]; eapply Hmore; exact H.
Qed.

Lemma rmatch_pos {R} (r : regex) :
  forall (pos : N) (s : string) (cs : spans) (k : @cont R) (x : R),
    rmatch r pos s cs k = Some x ->
    exists n cs', n <= String.length s /\ k (pos + N.of_nat n)%N (drop n s) cs' = Some x.
Proof.
  induction r as [l|c lo hi g|a IHa b IHb|i a IHa]; intros pos s cs k x H; simpl in H.
  - destruct (String.prefix l s) eqn:E; [|discriminate H].
    exists (String.length l), cs. split; [now apply prefix_length | exact H].
  - eapply rep_pos. exact H.
  - destruct (IHa _ _ _ _ _ H) as (n1 & cs1 & Hn1 & H1).
    destruct (IHb _ _ _ _ _ H1) as (n2 & cs2 & Hn2 & H2).
    rewrite length_drop in Hn2. rewrite drop_drop in H2.
    exists (n1 + n2), cs2. split; [lia|].
    replace (pos + N.of_nat (n1 + n2))%N with (pos + N.of_nat n1 + N.of_nat n2)%N by lia.
    exact H2.
  - destruct (IHa _ _ _ _ _ H) as (n & cs' & Hn & H1).
    exists n, ((i, (pos, (pos + N.of_nat n)%N)) :: cs'). split; [assumption | exact H1].
Qed.

(** A match found at a position starts there and ends within the text. *)
Lemma match_here_pos (r : regex) (pos : N) (s : string) (m : mobj) :
  match_here r pos s = Some m ->
  m_start m = N.to_nat pos /\
  exists n, n <= String.length s /\ m_end m = N.to_nat pos + n.
Proof.
  unfold match_here. intros H.
  destruct (rmatch_pos _ _ _ _ _ _ H) as (n & cs' & Hn & Hk).
  injection Hk as <-. split; [reflexivity|]. exists n. split; [assumption|].
  simpl. lia.
Qed.

Lemma search_from_pos (r : regex) (s : string) :
  forall (pos : N) (m : mobj),
    search_from r pos s = Some m ->
    N.to_nat pos <= m_start m /\ m_start m <= m_end m /\
    m_end m <= N.to_nat pos + String.length s.
Proof.
  induction s as [|c s IH]; intros pos m H; simpl in H.
  - destruct (match_here r pos EmptyString) as [m'|] eqn:E; [|discriminate H].
    injection H as <-. destruct (match_here_pos _ _ _ _ E) as (Hs & n & Hn & He).
    simpl in *. lia.
  - destruct (match_here r pos (String c s)) as [m'|] eqn:E.
    + injection H as <-. destruct (match_here_pos _ _ _ _ E) as (Hs & n & Hn & He).
      simpl in *. lia.
    + specialize (IH _ _ H). simpl. lia.
Qed.

End MatchPositions.

(** ** What [re.sub] writes *)

Section Substitution.

Lemma finditer_go_head (r : regex) (s : string) :
  forall (pos : N) (k : nat) (m : mobj) (ms : list mobj),
    finditer_go r pos s k = m :: ms ->
    N.to_nat pos + k <= m_start m /\ m_start m <= m_end m /\
    m_end m <= N.to_nat pos + String.length s.
Proof.
  induction s as [|c s IH]; intros pos k m ms H; simpl in H.
  - destruct k; [|discriminate H].
    destruct (match_here r pos EmptyString) as [m'|] eqn:E; [|discriminate H].
    injection H as <- _. destruct (match_here_pos _ _ _ _ E) as (Hs & n & Hn & He).
    simpl in *. lia.
  - destruct k as [|k].
    + destruct (match_here r pos (String c s)) as [m'|] eqn:E.
      * injection H as <- _. destruct (match_here_pos _ _ _ _ E) as (Hs & n & Hn & He).
        simpl in *. lia.
      * specialize (IH _ _ _ _ H). simpl. lia.
    + specialize (IH _ _ _ _ H). simpl. lia.
Qed.

Lemma spliced_shift (f : mobj -> string) (c : ascii) (s : string) (p : nat)
    (ms : list mobj) :
  (forall m ms', ms = m :: ms' -> S p <= m_start m /\ m_start m <= m_end m) ->
  spliced f p (String c s) ms = String c (spliced f (S p) s ms).
Proof.
  intros H. destruct ms as [|m ms]; [reflexivity|].
  destruct (H m ms eq_refl) as [Hs He]. simpl spliced.
  replace (m_start m - p) with (S (m_start m - S p)) by lia.
  replace (m_end m - p) with (S (m_end m - S p)) by lia.
  reflexivity.
Qed.

(** [re.sub] without a count replaces the matches [re.finditer] yields. *)
Lemma sub_go_all (r : regex) (f : mobj -> string) (s : string) :
  forall (pos : N) (k : nat),
    sub_go r f pos s k None =
    spliced f (N.to_nat pos + k) (drop k s) (finditer_go r pos s k).
Proof.
  induction s as [|c s IH]; intros pos k.
  - simpl. destruct k; [|reflexivity].
    destruct (match_here r pos EmptyString) as [m|]; [|reflexivity].
    cbn [spliced]. now rewrite take_nil, drop_nil, append_nil_r.
  - destruct k as [|k].
    + cbn [sub_go finditer_go drop]. rewrite Nat.add_0_r.
      destruct (match_here r pos (String c s)) as [m|] eqn:E.
      * destruct (match_here_pos _ _ _ _ E) as (Hs & n & Hn & He).
        cbn [spliced]. rewrite Hs, Nat.sub_diag. cbn [take].
        change (EmptyString +++ f m +++ ?x) with (f m +++ x).
        destruct (Nat.eqb (m_end m) (N.to_nat pos)) eqn:Eq.
        -- apply Nat.eqb_eq in Eq. cbn [option_map]. rewrite IH.
           rewrite Eq, Nat.sub_diag. cbn [drop Nat.sub]. f_equal.
           rewrite Nat.add_0_r. rewrite spliced_shift.
           ++ f_equal. f_equal; lia.
           ++ intros m' ms' Hm'.
              destruct (finditer_go_head _ _ _ _ _ _ Hm') as (H1 & H2 & _). lia.
        -- apply Nat.eqb_neq in Eq. cbn [option_map]. rewrite IH. f_equal.
           rewrite (drop_cons_pred (m_end m - N.to_nat pos)) by lia.
           f_equal. lia.
      * cbn [option_map]. rewrite IH. cbn [drop]. rewrite Nat.add_0_r.
        rewrite spliced_shift.
        -- f_equal. f_equal. lia.
        -- intros m' ms' Hm'.
           destruct (finditer_go_head _ _ _ _ _ _ Hm') as (H1 & H2 & _). lia.
    + cbn [sub_go finditer_go drop]. rewrite IH. f_equal. lia.
Qed.

Lemma sub_all (r : regex) (f : mobj -> string) (s : string) :
  sub r f s None = spliced f 0 s (finditer r s).
Proof. unfold sub, finditer. now rewrite sub_go_all. Qed.

(** Once the count is used up the rest of the text is copied. *)
Lemma sub_go_done (r : regex) (f : mobj -> string) (s : string) :
  forall (pos : N) (k : nat), sub_go r f pos s k (Some 0) = drop k s.
Proof.
  induction s as [|c s IH]; intros pos k.
  - destruct k; reflexivity.
  - destruct k as [|k]; [reflexivity|]. simpl. apply IH.
Qed.

(** [re.sub] with [count=1] replaces the match [re.search] finds. *)
Lemma sub_go_first (r : regex) (f : mobj -> string) (s : string) :
  forall (pos : N) (m : mobj),
    search_from r pos s = Some m ->
    sub_go r f pos s 0 (Some 1) =
    take (m_start m - N.to_nat pos) s +++ f m +++ drop (m_end m - N.to_nat pos) s.
Proof.
  induction s as [|c s IH]; intros pos m H.
  - simpl in H. destruct (match_here r pos EmptyString) as [m'|] eqn:E;
      [|discriminate H].
    injection H as <-. cbn [sub_go]. rewrite E.
    now rewrite take_nil, drop_nil, append_nil_r.
  - cbn [search_from] in H. cbn [sub_go].
    destruct (match_here r pos (String c s)) as [m'|] eqn:E.
    + injection H as <-. destruct (match_here_pos _ _ _ _ E) as (Hs & n & Hn & He).
      rewrite Hs, Nat.sub_diag. cbn [take option_map Nat.pred].
      change (EmptyString +++ f m' +++ ?x) with (f m' +++ x).
      destruct (Nat.eqb (m_end m') (N.to_nat pos)) eqn:Eq.
      * apply Nat.eqb_eq in Eq. rewrite sub_go_done, Eq, Nat.sub_diag. reflexivity.
      * apply Nat.eqb_neq in Eq. rewrite sub_go_done.
        now rewrite (drop_cons_pred (m_end m' - N.to_nat pos)) by lia.
    + rewrite (IH _ _ H). destruct (search_from_pos _ _ _ _ H) as (H1 & H2 & _).
      replace (m_start m - N.to_nat pos) with (S (m_start m - N.to_nat (N.succ pos)))
        by lia.
      replace (m_end m - N.to_nat pos) with (S (m_end m - N.to_nat (N.succ pos)))
        by lia.
      reflexivity.
Qed.

Lemma sub_first (r : regex) (f : mobj -> string) (s : string) (m : mobj) :
  search r s = Some m ->
  sub r f s (Some 1) = take (m_start m) s +++ f m +++ drop (m_end m) s.
Proof.
  intros H. unfold sub. rewrite (sub_go_first r f s 0 m H).
  now rewrite !Nat.sub_0_r.
Qed.

(** A replacement text without backslash is written as it stands. *)
Lemma expand_whole (t : string) (m : mobj) : plain t = true -> expand t m = Some t.
Proof.
  intros H. rewrite <- (append_nil_r t) at 1. rewrite (expand_plain t _ m H).
  simpl. now rewrite append_nil_r.
Qed.

Lemma sub_template_plain (r : regex) (t s : string) (count : option nat) :
  plain t = true ->
  sub_template r t s count = Some (sub r (fun _ => t) s count).
Proof.
  intros H. unfold sub_template. rewrite (expand_whole t _ H). f_equal.
  unfold sub. apply sub_go_ext. intros m. now rewrite (expand_whole t m H).
Qed.

End Substitution.

(** ** What [str.replace] writes when the text to replace stands once *)

Section ReplaceOnce.

Lemma prefix_drop (p s : string) :
  String.prefix p s = true -> s = p +++ drop (String.length p) s.
Proof.
  revert s. induction p as [|a p IH]; intros s H; [reflexivity|].
  destruct s as [|b s]; [discriminate H|]. simpl in H.
  destruct (Ascii.ascii_dec a b) as [->|]; [|discriminate H].
  simpl. f_equal. now apply IH.
Qed.

Lemma replace_go_none (old new s : string) :
  forall k, Model.count_go old s k = 0 -> replace_go old new s k = drop k s.
Proof.
  induction s as [|c s IH]; intros k H.
  - now destruct k.
  - destruct k as [|k]; cbn [Model.count_go replace_go drop] in *.
    + destruct (String.prefix old (String c s)); [discriminate H|].
      now rewrite (IH 0 H).
    + now apply IH.
Qed.

Lemma replace_go_once (old s : string) :
  old <> EmptyString ->
  forall k, Model.count_go old s k = 1 ->
    exists before after,
      drop k s = before +++ old +++ after /\
      forall new, replace_go old new s k = before +++ new +++ after.
Proof.
  intros Hne. induction s as [|c s IH]; intros k H.
  - destruct k; discriminate H.
  - destruct k as [|k]; cbn [Model.count_go replace_go drop] in *.
    + destruct (String.prefix old (String c s)) eqn:E.
      * injection H as H.
        exists EmptyString, (drop (String.length old) (String c s)). split.
        -- now apply prefix_drop.
        -- intros new. rewrite (replace_go_none _ _ _ _ H).
           rewrite (drop_cons_pred (String.length old));
             [reflexivity | destruct old; [contradiction | simpl; lia]].
      * destruct (IH 0 H) as (before & after & Hs & Hr).
        exists (String c before), after. split.
        -- simpl in Hs. simpl. now rewrite <- Hs.
        -- intros new. now rewrite Hr.
    + apply IH. exact H.
Qed.

(** A text that stands once is replaced where it stands. *)
Lemma replace_once (s old : string) :
  old <> EmptyString -> Model.count s old = 1 ->
  exists before after,
    s = before +++ old +++ after /\
    forall new, replace s old new = before +++ new +++ after.
Proof.
  intros Hne H. destruct (replace_go_once old s Hne 0 H) as (x & y & Hs & Hr).
  exists x, y. split; [exact Hs|]. intros new.
  unfold replace. destruct old; [contradiction | apply Hr].
Qed.

End ReplaceOnce.

(** ** Z/add_files_to_xcode.py: a run, and what its substitutions write *)

Section AddFilesToXcodeRuns.

Import AddFilesToXcode.

Lemma scan_folder_run (folder : string) (w : World) :
  scan_folder folder w =
  (Ret (if path_exists w (base_path +++ "/" +++ folder)
        then glob w ((base_path +++ "/" +++ folder) +++ "/**/*.swift")
               ++ glob w ((base_path +++ "/" +++ folder) +++ "/**/*.metal")
        else []), w).
Proof.
  unfold scan_folder, bind, os_path_exists.
  destruct (path_exists w (base_path +++ "/" +++ folder)); reflexivity.
Qed.

Lemma map_m_scan_folder (l : list string) (w : World) :
  map_m scan_folder l w =
  (Ret (map (fun folder =>
               if path_exists w (base_path +++ "/" +++ folder)
               then glob w ((base_path +++ "/" +++ folder) +++ "/**/*.swift")
                      ++ glob w ((base_path +++ "/" +++ folder) +++ "/**/*.metal")
               else []) l), w).
Proof.
  induction l as [|f l IH]; [reflexivity|].
  simpl map_m. unfold bind at 1. rewrite scan_folder_run.
  unfold bind at 1. rewrite IH. reflexivity.
Qed.

Lemma scan_run (w : World) : scan w = (Ret (scanned w), w).
Proof. unfold scan, bind. now rewrite map_m_scan_folder. Qed.

Lemma draw_source_run (file_path : string) (w : World) :
  draw_source file_path w =
  (Ret {| file_ref_id := upper (take 24 (uuid_hex w (cursor w)));
          build_file_id := upper (take 24 (uuid_hex w (cursor w + 32)));
          path := replace file_path (base_path +++ "/") EmptyString;
          name := basename file_path |},
   advance w 64).
Proof.
  unfold draw_source. unfold bind at 1. rewrite fresh_id_run_z.
  unfold bind at 1. rewrite fresh_id_run_z. unfold ret.
  now rewrite advance_advance.
Qed.

Lemma draw_framework_run (fw : string) (w : World) :
  draw_framework fw w =
  (Ret {| file_ref_id := upper (take 24 (uuid_hex w (cursor w)));
          build_file_id := upper (take 24 (uuid_hex w (cursor w + 32)));
          path := fw; name := fw |},
   advance w 64).
Proof.
  unfold draw_framework. unfold bind at 1. rewrite fresh_id_run_z.
  unfold bind at 1. rewrite fresh_id_run_z. unfold ret.
  now rewrite advance_advance.
Qed.

Lemma map_m_draw_source (l : list string) (w : World) :
  exists sources,
    map_m draw_source l w = (Ret sources, advance w (64 * List.length l)) /\
    map name sources = map basename l /\
    Forall (fun e => hex24 (file_ref_id e) = true /\ hex24 (build_file_id e) = true)
           sources.
Proof.
  revert w. induction l as [|f l IH]; intros w.
  - exists []. simpl. rewrite advance_0. auto.
  - destruct (IH (advance w 64)) as (es & Hrun & Hnames & Hhex).
    eexists (_ :: es). simpl map_m. unfold bind at 1. rewrite draw_source_run.
    unfold bind at 1. rewrite Hrun. unfold ret. rewrite advance_advance.
    replace (64 * List.length (f :: l)) with (64 + 64 * List.length l)
      by (simpl List.length; lia).
    split; [reflexivity|]. split; [simpl; now rewrite Hnames|].
    constructor; [|assumption]. simpl. split; apply hex24_fresh.
Qed.

Lemma map_m_draw_framework (l : list string) (w : World) :
  exists fws,
    map_m draw_framework l w = (Ret fws, advance w (64 * List.length l)) /\
    map name fws = l /\
    Forall (fun e => hex24 (file_ref_id e) = true /\ hex24 (build_file_id e) = true)
           fws.
Proof.
  revert w. induction l as [|f l IH]; intros w.
  - exists []. simpl. rewrite advance_0. auto.
  - destruct (IH (advance w 64)) as (es & Hrun & Hnames & Hhex).
    eexists (_ :: es). simpl map_m. unfold bind at 1. rewrite draw_framework_run.
    unfold bind at 1. rewrite Hrun. unfold ret. rewrite advance_advance.
    replace (64 * List.length (f :: l)) with (64 + 64 * List.length l)
      by (simpl List.length; lia).
    split; [reflexivity|]. split; [simpl; now rewrite Hnames|].
    constructor; [|assumption]. simpl. split; apply hex24_fresh.
Qed.

(** The report at the end of [main] only prints. *)
Lemma report_run (found : list string) (w : World) :
  exists lines,
    (print ("✅ Added " +++ str_of_nat (List.length found)
              +++ " source files to Xcode project") ;;
     print ("✅ Added " +++ str_of_nat (List.length frameworks)
              +++ " frameworks to Xcode project") ;;
     print (nl +++ "Files added:") ;;
     for_each (firstn 10 found) (fun f => print ("  - " +++ basename f)) ;;
     (if Nat.ltb 10 (List.length found)
      then print ("  ... and " +++ str_of_nat (List.length found - 10) +++ " more")
      else ret tt) ;;
     print (nl +++ "Frameworks added:") ;;
     for_each frameworks (fun fw => print ("  - " +++ fw))) w
    = (Ret tt, say w lines).
Proof.
  rewrite !bind_print, bind_for_each_print.
  destruct (Nat.ltb 10 (List.length found)).
  - rewrite !bind_print, for_each_print, !say_say. eexists. reflexivity.
  - rewrite bind_ret, bind_print, for_each_print, !say_say. eexists. reflexivity.
Qed.

(** A run of the script: the scan, the identifiers, the two edits, and
    the descriptor written when both replacement texts could be read. *)
Lemma main_run_z (w : World) (content : string) :
  files w !! pbxproj_path = Some content ->
  exists sources fws,
    map name sources = map basename (scanned w) /\
    map name fws = frameworks /\
    Forall (fun e => hex24 (file_ref_id e) = true /\ hex24 (build_file_id e) = true)
           (sources ++ fws) /\
    match edit_sources content sources with
    | None => main w = (Raise "re.error", advance w (64 * List.length (scanned w)))
    | Some text =>
        match edit_frameworks text fws with
        | None =>
            main w = (Raise "re.error",
                      advance w (64 * List.length (scanned w) + 512))
        | Some text' =>
            exists lines,
              main w =
              (Ret tt,
               say (store (advance w (64 * List.length (scanned w) + 512))
                      pbxproj_path text') lines)
        end
    end.
Proof.
  intros Hfile.
  destruct (map_m_draw_source (scanned w) w) as (sources & Hs & Hnames & Hhex).
  destruct (map_m_draw_framework frameworks
              (advance w (64 * List.length (scanned w))))
    as (fws & Hf & Hfnames & Hfhex).
  exists sources, fws. split; [assumption|]. split; [assumption|].
  split; [apply Forall_app; split; assumption|].
  assert (E : main w =
              (let* content := or_raise "re.error" (edit_sources content sources) in
               let* fws := map_m draw_framework frameworks in
               let* content := or_raise "re.error" (edit_frameworks content fws) in
               write_file pbxproj_path content ;;
               print ("✅ Added " +++ str_of_nat (List.length (scanned w))
                        +++ " source files to Xcode project") ;;
               print ("✅ Added " +++ str_of_nat (List.length frameworks)
                        +++ " frameworks to Xcode project") ;;
               print (nl +++ "Files added:") ;;
               for_each (firstn 10 (scanned w)) (fun f => print ("  - " +++ basename f)) ;;
               (if Nat.ltb 10 (List.length (scanned w))
                then print ("  ... and " +++ str_of_nat (List.length (scanned w) - 10)
                              +++ " more")
                else ret tt) ;;
               print (nl +++ "Frameworks added:") ;;
               for_each frameworks (fun fw => print ("  - " +++ fw)))
                (advance w (64 * List.length (scanned w)))).
  { unfold main. rewrite bind_read_file, Hfile.
    unfold bind at 1. rewrite scan_run.
    unfold bind at 1. rewrite Hs. reflexivity. }
  rewrite E. clear E.
  destruct (edit_sources content sources) as [text|]; [|reflexivity].
  destruct (edit_frameworks text fws) as [text'|] eqn:E2.
  - destruct (report_run (scanned w)
                (store (advance w (64 * List.length (scanned w) + 512))
                   pbxproj_path text'))
      as (lines & Hreport).
    exists lines.
    unfold or_raise at 1. rewrite bind_ret.
    unfold bind at 1. rewrite Hf, advance_advance, E2.
    change (64 * List.length frameworks) with 512.
    unfold or_raise at 1. rewrite bind_ret, bind_write_file. exact Hreport.
  - unfold or_raise at 1. rewrite bind_ret.
    unfold bind at 1. rewrite Hf, advance_advance, E2. reflexivity.
Qed.

Lemma edit_sources_text (content : string) (sources : list source_entry) (m : mobj) :
  search sources_pattern (source_records_added content sources) = Some m ->
  plain (new_sources m sources) = true ->
  edit_sources content sources =
  Some (spliced (fun _ => new_sources m sources) 0
          (source_records_added content sources)
          (finditer sources_pattern (source_records_added content sources))).
Proof.
  intros Hm Hp. unfold edit_sources.
  change (replace (replace content pbxbuildfile_section
                     (cat (map build_entry sources) +++ pbxbuildfile_section))
            pbxfilereference_section
            (cat (map file_ref_entry sources) +++ pbxfilereference_section))
    with (source_records_added content sources).
  cbv zeta. rewrite Hm, (sub_template_plain _ _ _ _ Hp), sub_all. reflexivity.
Qed.

Lemma edit_frameworks_text (content : string) (fws : list source_entry) (m : mobj) :
  search frameworks_pattern (framework_records_added content fws) = Some m ->
  plain (new_frameworks m fws) = true ->
  edit_frameworks content fws =
  Some (spliced (fun _ => new_frameworks m fws) 0
          (framework_records_added content fws)
          (finditer frameworks_pattern (framework_records_added content fws))).
Proof.
  intros Hm Hp. unfold edit_frameworks.
  change (replace (replace content pbxfilereference_section
                     (cat (map fw_ref_entry fws) +++ pbxfilereference_section))
            pbxbuildfile_section
            (cat (map fw_build_entry fws) +++ pbxbuildfile_section))
    with (framework_records_added content fws).
  cbv zeta. rewrite Hm, (sub_template_plain _ _ _ _ Hp), sub_all. reflexivity.
Qed.

End AddFilesToXcodeRuns.




(** ** The group step of add_swift_files.py and fix_project.py *)

Section GroupStep.

Lemma count_nil (p : string) : Model.count EmptyString p = 0.
Proof. reflexivity. Qed.

(** The group text [old_group], standing once in the text, has its one
    children list replaced. *)
Lemma group_replaced (text old_group body body' : string) :
  Model.count text old_group = 1 ->
  Model.count old_group (children_list body) = 1 ->
  exists before after,
    text = before +++ children_list body +++ after /\
    replace text old_group
      (replace old_group (children_list body) (children_list body'))
    = before +++ children_list body' +++ after.
Proof.
  intros Ht Hg.
  assert (Hne : old_group <> EmptyString) by (intros ->; discriminate Hg).
  assert (Hl : children_list body <> EmptyString) by discriminate.
  destruct (replace_once text old_group Hne Ht) as (a & z & Etext & Rtext).
  destruct (replace_once old_group (children_list body) Hl Hg) as (h & t & Egroup & Rgroup).
  exists (a +++ h), (t +++ z). split.
  - rewrite Etext, Egroup. now rewrite !append_assoc.
  - rewrite Rtext, Rgroup. now rewrite !append_assoc.
Qed.

Import AddSwiftFiles.

(** The steps of [edit] when the three sections are found. *)
Lemma edit_steps (content : string) (a b sp : mobj) (g : option mobj)
    (ids : list (string * string * string)) :
  edit content (Some a) (Some b) (Some sp) g ids =
  match sub_template sources_sub_re (sources_template (group sp 2) ids)
          (swift_records_added content a b ids) (Some 1) with
  | None => raise "re.error"
  | Some text =>
      ret (match g with
           | Some gs =>
               replace text (group gs 1)
                 (replace (group gs 1) (children_list (group gs 2))
                    (children_list (listed (new_children (group gs 2) ids))))
           | None => text
           end)
  end.
Proof.
  unfold edit, swift_records_added, sources_template, new_source_files,
    new_build_file_refs, children_list, listed, new_children, new_children_refs.
  cbv zeta.
  destruct (sub_template sources_sub_re _ _ (Some 1)) as [text|]; [|reflexivity].
  destruct g as [gs|]; [|reflexivity].
  now rewrite !append_assoc.
Qed.

(** [edit] computes a text or fails; it leaves the world alone. *)
Lemma edit_pure (content : string) (a b sp g : option mobj)
    (ids : list (string * string * string)) (w : World) :
  run (edit content a b sp g ids) w = w.
Proof.
  unfold run, edit.
  repeat match goal with
         | |- context [match ?x with _ => _ end] => destruct x
         end; reflexivity.
Qed.

End GroupStep.

(** ** fix_project.py, line 103: where the closing text of a list stands *)

Section ClosingText.

Variable ws : string.
Hypothesis ws_blank : blank ws = true.
Hypothesis ws_not_empty : ws <> EmptyString.
Variable new : string.

Lemma prefix_cons (a b : ascii) (p s : string) :
  String.prefix (String a p) (String b s) =
  if Ascii.ascii_dec a b then String.prefix p s else false.
Proof. reflexivity. Qed.

Lemma closing_text_cons :
  nl +++ ws +++ ");" = String (ascii_of_nat 10) (ws +++ ");").
Proof. reflexivity. Qed.

Lemma space_not_c (c : ascii) : is_space c = true -> other_than "c" c = true.
Proof. destruct c as [[] [] [] [] [] [] [] []]; vm_compute; congruence. Qed.

Lemma space_not_close (c : ascii) : is_space c = true -> c <> ")"%char.
Proof. intros H ->. discriminate H. Qed.

Lemma closing_text_no_c : all_chars (other_than "c") (nl +++ ws +++ ");") = true.
Proof.
  rewrite !all_chars_app. unfold blank in ws_blank.
  rewrite (all_chars_impl _ _ ws space_not_c ws_blank). reflexivity.
Qed.

(** A text that does not hold the character [x] does not reach across it. *)
Lemma prefix_before_char (x : ascii) (p a t : string) :
  all_chars (other_than x) p = true ->
  String.prefix p (a +++ String x t) = String.prefix p a.
Proof.
  revert a. induction p as [|c p IH]; intros a H; [destruct a; reflexivity|].
  simpl in H. apply andb_true_iff in H as [Hc Hp].
  destruct a as [|y a].
  - simpl. destruct (Ascii.ascii_dec c x) as [->|]; [|reflexivity].
    unfold other_than in Hc. now rewrite Ascii.eqb_refl in Hc.
  - simpl. destruct (Ascii.ascii_dec c y); [|reflexivity]. now apply IH.
Qed.

Lemma replace_before_char (x : ascii) (old a t : string) :
  all_chars (other_than x) old = true ->
  forall k, k <= String.length a ->
    replace_go old new (a +++ String x t) k =
    replace_go old new a k +++ replace_go old new (String x t) 0.
Proof.
  intros Hold. induction a as [|c a IH]; intros k Hk.
  - simpl in Hk. replace k with 0 by lia. reflexivity.
  - change (String c a +++ String x t) with (String c (a +++ String x t)).
    destruct k as [|k]; cbn [replace_go].
    + change (String c (a +++ String x t)) with (String c a +++ String x t).
      rewrite (prefix_before_char x old (String c a) t Hold).
      destruct (String.prefix old (String c a)) eqn:E.
      * apply prefix_length in E. simpl in E.
        rewrite IH by lia. now rewrite append_assoc.
      * now rewrite IH by lia.
    + apply IH. simpl in Hk. lia.
Qed.

(** The closing text begins with a newline: no occurrence begins in a
    text without one. *)
Lemma replace_in_line (p q : string) :
  one_line p = true ->
  replace_go (nl +++ ws +++ ");") new (p +++ q) 0 =
  p +++ replace_go (nl +++ ws +++ ");") new q 0.
Proof.
  unfold one_line. induction p as [|c p IH]; intros H; [reflexivity|].
  simpl in H. apply andb_true_iff in H as [Hc Hp].
  change (String c p +++ q) with (String c (p +++ q)).
  cbn [replace_go]. rewrite closing_text_cons at 1. rewrite prefix_cons.
  destruct (Ascii.ascii_dec (ascii_of_nat 10) c) as [<-|]; [discriminate Hc|].
  change (String c p +++ ?x) with (String c (p +++ x)). f_equal.
  now apply IH.
Qed.

(** Blanks and [);] do not stand at the head of a line that begins with
    something else. *)
Lemma closing_not_at_mark (bl : string) (d : ascii) (t : string) :
  blank bl = true -> is_space d = false -> d <> ")"%char ->
  forall v, blank v = true -> String.prefix (v +++ ");") (bl +++ String d t) = false.
Proof.
  intros Hbl Hd Hclose v. revert bl Hbl.
  induction v as [|w v IH]; intros bl Hbl Hv.
  - change (EmptyString +++ ");") with (String ")" ";").
    destruct bl as [|b bl].
    + change (EmptyString +++ String d t) with (String d t). rewrite prefix_cons.
      destruct (Ascii.ascii_dec ")" d) as [<-|]; [contradiction | reflexivity].
    + change (String b bl +++ String d t) with (String b (bl +++ String d t)).
      rewrite prefix_cons.
      unfold blank in Hbl. simpl in Hbl. apply andb_true_iff in Hbl as [Hb _].
      destruct (Ascii.ascii_dec ")" b) as [<-|]; [discriminate Hb | reflexivity].
  - unfold blank in Hv. simpl in Hv. apply andb_true_iff in Hv as [Hw Hv].
    change (String w v +++ ");") with (String w (v +++ ");")).
    destruct bl as [|b bl].
    + change (EmptyString +++ String d t) with (String d t). rewrite prefix_cons.
      destruct (Ascii.ascii_dec w d) as [->|]; [congruence | reflexivity].
    + change (String b bl +++ String d t) with (String b (bl +++ String d t)).
      rewrite prefix_cons.
      unfold blank in Hbl. simpl in Hbl. apply andb_true_iff in Hbl as [_ Hbl].
      destruct (Ascii.ascii_dec w b); [|reflexivity]. now apply IH.
Qed.

Lemma closing_not_at_text (d : ascii) (t : string) :
  is_space d = false -> String.prefix (ws +++ ");") (String d t) = false.
Proof.
  intros Hd. destruct ws as [|w v]; [contradiction|].
  unfold blank in ws_blank. simpl in ws_blank.
  apply andb_true_iff in ws_blank as [Hw _].
  change (String w v +++ ");") with (String w (v +++ ");")). rewrite prefix_cons.
  destruct (Ascii.ascii_dec w d) as [->|]; [congruence | reflexivity].
Qed.

(** Lines that begin with text, or with blanks and something other than
    a closing parenthesis: the closing text stands before none of them. *)
Lemma replace_in_lines (lines : list string) (q : string) :
  Forall (fun l => one_line l = true /\
                   ((exists d r, l = String d r /\ is_space d = false) \/
                    (exists bl d r, l = bl +++ String d r /\ blank bl = true /\
                                    is_space d = false /\ d <> ")"%char)))
         lines ->
  replace_go (nl +++ ws +++ ");") new (cat (map (fun l => nl +++ l) lines) +++ q) 0 =
  cat (map (fun l => nl +++ l) lines) +++ replace_go (nl +++ ws +++ ");") new q 0.
Proof.
  induction 1 as [|l lines (Hline & Hgood) _ IH]; [reflexivity|].
  change (cat (map (fun l => nl +++ l) (l :: lines)))
    with ((nl +++ l) +++ cat (map (fun l => nl +++ l) lines)).
  rewrite !append_assoc.
  change (nl +++ l +++ ?x) with (String (ascii_of_nat 10) (l +++ x)).
  cbn [replace_go]. rewrite closing_text_cons at 1. rewrite prefix_cons.
  destruct (Ascii.ascii_dec (ascii_of_nat 10) (ascii_of_nat 10)); [|contradiction].
  assert (Hno : String.prefix (ws +++ ");")
                  (l +++ cat (map (fun l => nl +++ l) lines) +++ q) = false).
  { destruct Hgood as [(d & r & -> & Hd) | (bl & d & r & -> & Hbl & Hd & Hc)].
    - now apply closing_not_at_text.
    - rewrite append_assoc.
      change (String d r +++ ?x) with (String d (r +++ x)).
      now apply closing_not_at_mark. }
  rewrite Hno. f_equal.
  rewrite (replace_in_line l _ Hline). now rewrite IH.
Qed.

Lemma join_as_cat (lines : list string) :
  lines <> [] -> nl +++ join nl lines = cat (map (fun l => nl +++ l) lines).
Proof.
  induction lines as [|l lines IH]; [contradiction|]. intros _.
  destruct lines as [|l' lines].
  - simpl. now rewrite append_nil_r.
  - rewrite join_cons by discriminate.
    change (cat (map (fun l => nl +++ l) (l :: l' :: lines)))
      with ((nl +++ l) +++ cat (map (fun l => nl +++ l) (l' :: lines))).
    rewrite <- IH by discriminate. now rewrite !append_assoc.
Qed.

Lemma replace_go_skip (old a t : string) :
  replace_go old new (a +++ t) (String.length a) = replace_go old new t 0.
Proof. induction a as [|c a IH]; [reflexivity | exact IH]. Qed.

(** Blanks and [);] against blanks and [);]: the blanks must be the same. *)
Lemma closing_after_blanks (t : string) :
  forall v u, blank v = true -> blank u = true ->
    String.prefix (v +++ ");") (u +++ ");" +++ t) = String.eqb v u.
Proof.
  induction v as [|w v IH]; intros u Hv Hu.
  - change (EmptyString +++ ");") with (String ")" ";").
    destruct u as [|b u].
    + change (EmptyString +++ ");" +++ t) with (String ")" (String ";" t)).
      rewrite !prefix_cons.
      destruct (Ascii.ascii_dec ")" ")"); [|contradiction].
      destruct (Ascii.ascii_dec ";" ";"); [|contradiction].
      destruct t; reflexivity.
    + change (String b u +++ ");" +++ t) with (String b (u +++ ");" +++ t)).
      rewrite prefix_cons.
      unfold blank in Hu. simpl in Hu. apply andb_true_iff in Hu as [Hb _].
      destruct (Ascii.ascii_dec ")" b) as [<-|]; [discriminate Hb | reflexivity].
  - unfold blank in Hv. simpl in Hv. apply andb_true_iff in Hv as [Hw Hv].
    change (String w v +++ ");") with (String w (v +++ ");")).
    destruct u as [|b u].
    + change (EmptyString +++ ");" +++ t) with (String ")" (String ";" t)).
      rewrite prefix_cons.
      destruct (Ascii.ascii_dec w ")") as [->|]; [discriminate Hw | reflexivity].
    + change (String b u +++ ");" +++ t) with (String b (u +++ ");" +++ t)).
      rewrite prefix_cons.
      unfold blank in Hu. simpl in Hu. apply andb_true_iff in Hu as [_ Hu].
      simpl String.eqb.
      destruct (Ascii.ascii_dec w b) as [->|Hn].
      * rewrite Ascii.eqb_refl. now apply IH.
      * apply Ascii.eqb_neq in Hn. now rewrite Hn.
Qed.

Lemma closing_at_three_tabs (t : string) :
  String.prefix (ws +++ ");") (tab +++ tab +++ tab +++ ");" +++ t)
  = String.eqb ws (tab +++ tab +++ tab).
Proof.
  exact (closing_after_blanks t ws (tab +++ tab +++ tab) ws_blank eq_refl).
Qed.

(** The end of a children list as [fix_project.py] writes it. *)
Lemma replace_at_list_end (after : string) :
  replace_go (nl +++ ws +++ ");") new (nl +++ tab +++ tab +++ tab +++ ");" +++ after) 0 =
  (if String.eqb ws (tab +++ tab +++ tab) then new
   else nl +++ tab +++ tab +++ tab +++ ");")
    +++ replace_go (nl +++ ws +++ ");") new after 0.
Proof.
  change (nl +++ tab +++ tab +++ tab +++ ");" +++ after)
    with (String (ascii_of_nat 10) (tab +++ tab +++ tab +++ ");" +++ after)).
  cbn [replace_go]. rewrite closing_text_cons at 1. rewrite prefix_cons.
  destruct (Ascii.ascii_dec (ascii_of_nat 10) (ascii_of_nat 10)); [|contradiction].
  rewrite closing_at_three_tabs.
  destruct (String.eqb ws (tab +++ tab +++ tab)) eqn:E.
  - apply String.eqb_eq in E. rewrite E.
    apply (f_equal (String.append new)).
    exact (replace_go_skip _ (tab +++ tab +++ tab +++ ");") after).
  - change (tab +++ tab +++ tab +++ ");" +++ after)
      with ((tab +++ tab +++ tab +++ ");") +++ after).
    rewrite replace_in_line by reflexivity. reflexivity.
Qed.

End ClosingText.

Section SourcesLinesInGroups.

Import FixProject.

Lemma replace_closing_text (s ws new : string) :
  replace s (nl +++ ws +++ ");") new = replace_go (nl +++ ws +++ ");") new s 0.
Proof. reflexivity. Qed.

(** Line 103 on a text that holds a children list as line 98 writes it:
    the list gets the new text before its closing when the closing text
    of the Sources list is its own, and is left alone otherwise; what
    stands before and after the list is treated on its own. *)
Lemma closing_text_replaced (ws new before after : string) (lines : list string) :
  blank ws = true -> ws <> EmptyString -> lines <> [] ->
  Forall (fun l => one_line l = true /\
                   ((exists d r, l = String d r /\ is_space d = false) \/
                    (exists bl d r, l = bl +++ String d r /\ blank bl = true /\
                                    is_space d = false /\ d <> ")"%char)))
         lines ->
  replace (before
             +++ children_list (nl +++ join nl lines +++ nl +++ tab +++ tab +++ tab)
             +++ after)
    (nl +++ ws +++ ");") new
  = replace before (nl +++ ws +++ ");") new
      +++ ("children = (" +++ nl +++ join nl lines)
      +++ (if String.eqb ws (tab +++ tab +++ tab) then new
           else nl +++ tab +++ tab +++ tab +++ ");")
      +++ replace after (nl +++ ws +++ ");") new.
Proof.
  intros Hb Hne Hlines Hgood. rewrite !replace_closing_text.
  unfold children_list. rewrite !append_assoc.
  assert (E : "children = (" +++ nl +++ join nl lines +++ nl +++ tab +++ tab +++ tab
                +++ ");" +++ after
              = String "c" ("hildren = (" +++ nl +++ join nl lines +++ nl +++ tab +++ tab
                              +++ tab +++ ");" +++ after)) by reflexivity.
  rewrite E.
  rewrite (replace_before_char new "c" _ before _ (closing_text_no_c ws Hb) 0)
    by lia.
  f_equal. rewrite <- E. clear E.
  rewrite (replace_in_line ws new "children = (") by reflexivity.
  f_equal.
  rewrite <- !(append_assoc nl (join nl lines)). rewrite (join_as_cat lines Hlines).
  rewrite (replace_in_lines ws Hb Hne new lines _ Hgood). f_equal.
  apply (replace_at_list_end ws Hb new after).
Qed.

Lemma stripped_line_begins_with_text (c : string) :
  strip c = c -> c <> EmptyString -> exists d r, c = String d r /\ is_space d = false.
Proof.
  intros Hfix Hne. unfold strip in Hfix.
  destruct (lstrip c) as [|d0 r0] eqn:E.
  - simpl in Hfix. congruence.
  - pose proof (lstrip_head _ _ _ E) as Hd.
    destruct (rstrip_head d0 r0) as (r' & Hr'); [rewrite Hfix; assumption|].
    exists d0, r'. split; [congruence | assumption].
Qed.

Lemma children_begin_with_text (body : string) :
  Forall (fun l => one_line l = true /\
                   ((exists d r, l = String d r /\ is_space d = false) \/
                    (exists bl d r, l = bl +++ String d r /\ blank bl = true /\
                                    is_space d = false /\ d <> ")"%char)))
         (read_children body).
Proof.
  eapply List.Forall_impl; [|apply read_children_tidy].
  intros c ((Hline & _ & Hne) & Hfix). split; [assumption|]. left.
  now apply stripped_line_begins_with_text.
Qed.

Lemma new_group_children_begin_with_mark :
  Forall (fun l => one_line l = true /\
                   ((exists d r, l = String d r /\ is_space d = false) \/
                    (exists bl d r, l = bl +++ String d r /\ blank bl = true /\
                                    is_space d = false /\ d <> ")"%char)))
         new_group_children.
Proof.
  apply List.Forall_forall. unfold new_group_children, files_to_add.
  intros l [<-|[<-|[<-|[<-|[]]]]];
    (split; [vm_compute; reflexivity|]);
    right; exists (tab +++ tab +++ tab +++ tab);
    match goal with
    | |- exists d r, ?l = _ /\ _ =>
        let l' := eval vm_compute in l in
        match l' with
        | String _ (String _ (String _ (String _ (String ?d ?r)))) => exists d, r
        end
    end;
    (split; [vm_compute; reflexivity|]);
    (split; [reflexivity|]); (split; [reflexivity | discriminate]).
Qed.

Lemma join_app (a b : list string) :
  a <> [] -> b <> [] -> join nl (a ++ b) = join nl a +++ nl +++ join nl b.
Proof.
  intros Ha Hb. induction a as [|x a IH]; [contradiction|].
  destruct a as [|y a].
  - simpl app. now rewrite join_cons.
  - change ((x :: y :: a) ++ b) with (x :: ((y :: a) ++ b)).
    rewrite !join_cons by discriminate. rewrite IH by discriminate.
    now rewrite !append_assoc.
Qed.

Lemma new_source_files_tidy : Forall tidy new_source_files.
Proof.
  apply List.Forall_forall. intros x Hx. apply tidyb_tidy.
  assert (H : forallb tidyb new_source_files = true) by (vm_compute; reflexivity).
  rewrite forallb_forall in H. auto.
Qed.

(** Lines 93-103 on the text left by lines 83-91, the group text standing
    once in it. *)
Lemma group_and_sources_steps (content : string) (gm frs bfs sps : mobj) (ws : string) :
  Model.count (fixed_records_added content frs bfs) (group gm 0) = 1 ->
  Model.count (group gm 0) (children_list (group gm 2)) = 1 ->
  group sps 3 = nl +++ ws +++ ");" -> blank ws = true -> ws <> EmptyString ->
  exists before after,
    fixed_records_added content frs bfs
      = before +++ children_list (group gm 2) +++ after /\
    insert_entries content gm frs bfs sps =
      replace before (group sps 3) (nl +++ join nl new_source_files +++ group sps 3)
        +++ children_list
              (nl +++ join nl (read_children (group gm 2) ++ new_group_children
                                 ++ (if String.eqb ws (tab +++ tab +++ tab)
                                     then new_source_files else []))
                  +++ nl +++ tab +++ tab +++ tab)
        +++ replace after (group sps 3)
              (nl +++ join nl new_source_files +++ group sps 3) /\
    read_children
      (nl +++ join nl (read_children (group gm 2) ++ new_group_children
                         ++ (if String.eqb ws (tab +++ tab +++ tab)
                             then new_source_files else []))
          +++ nl +++ tab +++ tab +++ tab)
    = read_children (group gm 2) ++ map strip new_group_children
        ++ map strip (if String.eqb ws (tab +++ tab +++ tab)
                      then new_source_files else []).
Proof.
  intros Hc Hg Hs Hb Hne.
  destruct (group_replaced (fixed_records_added content frs bfs) (group gm 0)
              (group gm 2) (rewritten_children (read_children (group gm 2))) Hc Hg)
    as (before & after & Es & Er).
  exists before, after. split; [exact Es|]. split.
  - unfold insert_entries. cbv zeta.
    fold (fixed_records_added content frs bfs).
    fold (children_list (group gm 2)).
    fold (children_list (rewritten_children (read_children (group gm 2)))).
    rewrite Er, Hs. unfold rewritten_children, new_children_str.
    rewrite (closing_text_replaced ws _ before after
               (read_children (group gm 2) ++ new_group_children) Hb Hne).
    + f_equal. destruct (String.eqb ws (tab +++ tab +++ tab)) eqn:E.
      * apply String.eqb_eq in E. rewrite E. unfold children_list.
        rewrite (app_assoc (read_children (group gm 2))).
        rewrite (join_app (read_children (group gm 2) ++ new_group_children)
                   new_source_files);
          [| intros H; apply app_eq_nil in H as [_ H]; discriminate H
           | discriminate ].
        now rewrite !append_assoc.
      * rewrite !app_nil_r. unfold children_list. now rewrite !append_assoc.
    + intros H. apply app_eq_nil in H as [_ H]. discriminate H.
    + apply Forall_app. split;
        [apply children_begin_with_text | apply new_group_children_begin_with_mark].
  - rewrite (read_children_join nl (nl +++ tab +++ tab +++ tab)).
    + rewrite !map_app. f_equal.
      apply map_strip_fixed, read_children_tidy.
    + reflexivity.
    + reflexivity.
    + intros H. apply app_eq_nil in H as [_ H].
      apply app_eq_nil in H as [H _]. discriminate H.
    + apply Forall_app. split.
      * eapply List.Forall_impl; [|apply read_children_tidy]. now intros c (Hc' & _).
      * apply Forall_app. split; [apply new_group_children_tidy|].
        destruct (String.eqb ws (tab +++ tab +++ tab));
          [apply new_source_files_tidy | constructor].
Qed.

End SourcesLinesInGroups.




(** ** add_swift_files.py: the list its Sources members are written to *)

Section SourcesStep.

Import AddSwiftFiles.

Lemma sources_step (body s : string) (ids : list (string * string * string))
    (m : mobj) :
  plain (new_source_files body ids) = true ->
  search sources_sub_re s = Some m ->
  sub_template sources_sub_re (sources_template body ids) s (Some 1) =
  Some (take (m_start m) s
          +++ (group m 1 +++ listed (new_source_files body ids) +++ group m 2)
          +++ drop (m_end m) s).
Proof.
  intros Hp Hm. unfold sub_template.
  rewrite (sources_template_expands body ids _ Hp). f_equal.
  unfold sub.
  rewrite (sub_go_ext sources_sub_re _
             (fun m => group m 1 +++ listed (new_source_files body ids) +++ group m 2))
    by (intros m'; now rewrite (sources_template_expands body ids m' Hp)).
  exact (sub_first sources_sub_re
           (fun m => group m 1 +++ listed (new_source_files body ids) +++ group m 2)
           s m Hm).
Qed.

Lemma drawn_ids_well_formed (ids : list (string * string * string)) :
  map file_of ids = files_to_add ->
  Forall (fun e => hex24 (ref_of e) = true /\ hex24 (build_of e) = true) ids ->
  forallb well_formed ids = true.
Proof.
  intros Hfiles Hhex. apply forallb_forall. intros [[f r] b] Hin.
  rewrite List.Forall_forall in Hhex. destruct (Hhex _ Hin) as [Hr Hb].
  simpl in Hr, Hb. unfold well_formed.
  rewrite (hex24_identifier r Hr), (hex24_identifier b Hb). simpl.
  assert (Hf : In f files_to_add)
    by (rewrite <- Hfiles; apply (in_map file_of _ _ Hin)).
  destruct Hf as [<-|[<-|[<-|[<-|[]]]]]; reflexivity.
Qed.

Lemma drawn_ids_plain (body : string) (ids : list (string * string * string)) :
  map file_of ids = files_to_add ->
  Forall (fun e => hex24 (ref_of e) = true /\ hex24 (build_of e) = true) ids ->
  plain (strip body) = true ->
  plain (new_source_files body ids) = true.
Proof.
  intros Hfiles Hhex Hplain.
  unfold plain, new_source_files. rewrite !all_chars_app.
  fold (plain (strip body)). rewrite Hplain.
  fold (plain (new_build_file_refs ids)).
  rewrite new_build_file_refs_plain; [reflexivity| |assumption].
  apply (Forall_file_of (fun f => plain f = true)). rewrite Hfiles.
  apply List.Forall_forall. intros f Hf.
  pose proof files_to_add_plain as Hall. rewrite forallb_forall in Hall. auto.
Qed.

End SourcesStep.

(** X9: the list [add_swift_files.py] writes its Sources members to.  When
    the three sections are found and the existing Sources members hold no
    backslash, the run draws its identifiers and writes this text: the
    descriptor with the new records inserted (lines 38-46), in which the
    first match of the pattern of line 52 (from the first [/* Sources */]
    to the next [files = (], and on to the next [);]) has what stood
    between the parentheses replaced by the members read at line 20
    followed by one new member per file, in their order; in that text the
    group text, if a group was found, is replaced as lines 56-62 say.  The
    pattern of line 52 is not the one of line 20: the list rewritten is
    the first list after the first [/* Sources */], whichever it is. *)
Theorem add_swift_files_rewrites_first_list (w : World) (content : string)
    (a b sp : mobj) :
  descriptor w = Some content ->
  search AddSwiftFiles.file_ref_section_re content = Some a ->
  search AddSwiftFiles.build_file_section_re content = Some b ->
  search AddSwiftFiles.sources_build_phase_re content = Some sp ->
  plain (strip (group sp 2)) = true ->
  exists ids,
    map file_of ids = AddSwiftFiles.files_to_add /\
    let members := listed (new_source_files (group sp 2) ids) in
    let text := swift_records_added content a b ids in
    Model.member_ids members = Model.member_ids (group sp 2) ++ map build_of ids /\
    forall m, search AddSwiftFiles.sources_sub_re text = Some m ->
      let text' :=
        take (m_start m) text +++ (group m 1 +++ members +++ group m 2)
          +++ drop (m_end m) text in
      result AddSwiftFiles.main w = Ret tt /\
      descriptor (run AddSwiftFiles.main w) =
        Some (match search AddSwiftFiles.group_section_re content with
              | Some gs =>
                  replace text' (group gs 1)
                    (replace (group gs 1) (children_list (group gs 2))
                       (children_list (listed (new_children (group gs 2) ids))))
              | None => text'
              end).
Proof.
  intros Hd Ha Hb Hsp Hplain.
  destruct (main_run_uuid w content Hd) as (ids & Hfiles & Hhex & Hrun).
  exists ids. split; [assumption|]. cbv zeta. split.
  - apply (listed_members_appended (group sp 2) ids).
    now apply drawn_ids_well_formed.
  - intros m Hm.
    assert (Emain : exists lines,
              AddSwiftFiles.main w =
              (Ret tt,
               say (store (advance w 256) project_file
                      (match search AddSwiftFiles.group_section_re content with
                       | Some gs =>
                           replace
                             (take (m_start m) (swift_records_added content a b ids)
                                +++ (group m 1
                                       +++ listed (new_source_files (group sp 2) ids)
                                       +++ group m 2)
                                +++ drop (m_end m) (swift_records_added content a b ids))
                             (group gs 1)
                             (replace (group gs 1) (children_list (group gs 2))
                                (children_list
                                   (listed (new_children (group gs 2) ids))))
                       | None =>
                           take (m_start m) (swift_records_added content a b ids)
                             +++ (group m 1
                                    +++ listed (new_source_files (group sp 2) ids)
                                    +++ group m 2)
                             +++ drop (m_end m) (swift_records_added content a b ids)
                       end))
                   lines)).
    { rewrite Hrun, Ha, Hb, Hsp. unfold bind at 1. rewrite edit_steps.
      rewrite (sources_step _ _ _ m (drawn_ids_plain _ _ Hfiles Hhex Hplain) Hm).
      unfold ret at 1.
      rewrite bind_write_file, bind_print, for_each_print, say_say.
      eexists. reflexivity. }
    destruct Emain as (lines & Emain). unfold result, run. rewrite Emain.
    split; [reflexivity|]. unfold descriptor. simpl. apply lookup_insert_eq.
Qed.

Lemma add_swift_files_rewrites_first_list_witness :
  let content := Samples.project_a in
  let w := Samples.world project_file content [] Samples.mix in
  exists a b sp ids,
    search AddSwiftFiles.sources_build_phase_re content = Some sp /\
    map file_of ids = AddSwiftFiles.files_to_add /\
    let members := listed (new_source_files (group sp 2) ids) in
    let text := swift_records_added content a b ids in
    Model.member_ids members = Model.member_ids (group sp 2) ++ map build_of ids /\
    forall m, search AddSwiftFiles.sources_sub_re text = Some m ->
      let text' :=
        take (m_start m) text +++ (group m 1 +++ members +++ group m 2)
          +++ drop (m_end m) text in
      result AddSwiftFiles.main w = Ret tt /\
      descriptor (run AddSwiftFiles.main w) =
        Some (match search AddSwiftFiles.group_section_re content with
              | Some gs =>
                  replace text' (group gs 1)
                    (replace (group gs 1) (children_list (group gs 2))
                       (children_list (listed (new_children (group gs 2) ids))))
              | None => text'
              end).
Proof.
  intros content w.
  destruct (search AddSwiftFiles.file_ref_section_re content) as [a|] eqn:Ea;
    [|vm_compute in Ea; discriminate Ea].
  destruct (search AddSwiftFiles.build_file_section_re content) as [b|] eqn:Eb;
    [|vm_compute in Eb; discriminate Eb].
  destruct (search AddSwiftFiles.sources_build_phase_re content) as [sp|] eqn:Es;
    [|vm_compute in Es; discriminate Es].
  destruct (add_swift_files_rewrites_first_list w content a b sp)
    as (ids & Hfiles & Hrest).
  - vm_compute. reflexivity.
  - exact Ea.
  - exact Eb.
  - exact Es.
  - vm_compute in Es. injection Es as <-. vm_compute. reflexivity.
  - exists a, b, sp, ids. split; [reflexivity|]. split; [exact Hfiles | exact Hrest].
Defined.

(** In a descriptor laid out as Xcode writes it, the first [/* Sources */]
    stands in the build phases of the target and the next list is that of
    the Resources phase: that list is the one rewritten.  It comes to
    hold the members of the Sources phase followed by the four new ones;
    the Sources phase is left with the members it had. *)
Example sources_members_written_to_resources :
  let w := Samples.world project_file Samples.project_d [] Samples.mix in
  Model.phases "PBXSourcesBuildPhase" Samples.project_d =
    [ ("A1B2C3D4E5F60718293A4B04",
       [ "A1B2C3D4E5F60718293A4B01"; "A1B2C3D4E5F60718293A4B06" ]) ] /\
  Model.phases "PBXResourcesBuildPhase" Samples.project_d =
    [ ("A1B2C3D4E5F60718293A4B08", [ "A1B2C3D4E5F60718293A4B09" ]) ] /\
  result AddSwiftFiles.main w = Ret tt /\
  match descriptor (run AddSwiftFiles.main w) with
  | Some text =>
      Model.phases "PBXSourcesBuildPhase" text =
        [ ("A1B2C3D4E5F60718293A4B04",
           [ "A1B2C3D4E5F60718293A4B01"; "A1B2C3D4E5F60718293A4B06" ]) ] /\
      Model.phases "PBXResourcesBuildPhase" text =
        [ ("A1B2C3D4E5F60718293A4B08",
           [ "A1B2C3D4E5F60718293A4B01"; "A1B2C3D4E5F60718293A4B06";
             "EE41401286FA47C5ABE2FED1"; "AD1ED645E6DD4129A3986BB1";
             "A5C1745A709642E1BE349D81"; "FA42DE85792B494F9686E193" ]) ]
  | None => False
  end.
Proof. vm_compute. repeat split; reflexivity. Qed.
